(** * Specter MCP agent: a shallow embedding of the orchestration core

    The development follows the three Python modules of the repository:
    - [ai_engine.py]: temporal grounding, response sanitizer, intent engines;
    - [server.py]: contact resolver, mail and calendar managers behind the
      MCP tools;
    - [gui_app.py]: the task router ([Worker._run_async], [Worker.run])
      and the slots of the main window ([AI_Mail_Assistant]).

    Python values are modelled as follows.  A [str] is a Rocq [string]
    (UTF-8 bytes); a value produced by [json.loads] or stored in a [dict]
    is a [json]; a [dict] with string keys is a [gmap string json];
    [None] is [JNull].  Code that can raise runs in a small state and
    exception monad; a raised value is an instance of Python's
    [Exception] (the class every handler of the three modules names),
    carrying its class and the text [str(e)].  Console output ([print],
    [log]) is not modelled. *)

From Stdlib Require Import String Ascii ZArith QArith List Lia Bool PrimFloat.
From stdpp Require Import base option list gmap strings pretty.

Set Warnings "-register-all".
Open Scope string_scope.

(* ===================================================================== *)
(** * Part I.  Python values, exceptions and effects                      *)
(* ===================================================================== *)

Module Py.

(** ** Exceptions and results *)

Inductive exc_class :=
| JSONDecodeError | RecursionError | ValueError | TypeError | AttributeError
| IndexError | KeyError | OverflowError | RuntimeError.

(** An exception instance: its class and the text of [str(e)]. *)
Record exn := Exn { exc_type : exc_class; exc_str : string }.

Definition is_JSONDecodeError (e : exn) : bool :=
  match exc_type e with JSONDecodeError => true | _ => false end.

Inductive result (A : Type) :=
| Ok (a : A)
| Raise (e : exn).
Arguments Ok {A} a.
Arguments Raise {A} e.

Definition is_ok {A} (r : result A) : bool :=
  match r with Ok _ => true | Raise _ => false end.

(** ** The monad: state [S], exceptions [exn].  A raise keeps the state
    reached so far, as a Python exception keeps the mutations done. *)

Definition M (S A : Type) : Type := S -> result A * S.

Definition ret {S A} (a : A) : M S A := fun s => (Ok a, s).

Definition bind {S A B} (m : M S A) (k : A -> M S B) : M S B :=
  fun s => match m s with
           | (Ok a, s') => k a s'
           | (Raise e, s') => (Raise e, s')
           end.

Definition raise {S A} (e : exn) : M S A := fun s => (Raise e, s).

Definition lift {S A} (r : result A) : M S A := fun s => (r, s).

Definition get {S} : M S S := fun s => (Ok s, s).
Definition put {S} (s : S) : M S unit := fun _ => (Ok tt, s).

(** [try: body  except cls as e: handler e].  Exceptions whose class the
    clause does not name propagate. *)
Definition try_except {S A} (body : M S A) (cls : exn -> bool)
    (handler : exn -> M S A) : M S A :=
  fun s => match body s with
           | (Ok a, s') => (Ok a, s')
           | (Raise e, s') => if cls e then handler e s' else (Raise e, s')
           end.

(** [except Exception]: every modelled exception. *)
Definition Exception (e : exn) : bool := true.

#[export] Instance M_ret {S} : MRet (M S) := fun A => @ret S A.
#[export] Instance M_bind {S} : MBind (M S) := fun A B k m => @bind S A B m k.

(** ** JSON values, the values of [json.loads] and of the task dicts *)

Inductive json :=
| JNull
| JBool (b : bool)
| JNum (z : Z)
| JFloat (f : float)
| JStr (s : string)
| JArr (l : list json)
| JObj (d : gmap string json).

(** Python truth value: [bool(v)]. *)
Definition truthy (v : json) : bool :=
  match v with
  | JNull => false
  | JBool b => b
  | JNum z => negb (z =? 0)%Z
  | JFloat f => negb (PrimFloat.eqb f 0%float)
  | JStr s => negb (String.eqb s "")
  | JArr l => match l with [] => false | _ => true end
  | JObj d => negb (size d =? 0)%nat
  end.

(** [d.get(k)]: the value, or [None]. *)
Definition dict_get (d : gmap string json) (k : string) : json :=
  default JNull (d !! k).

(** [type(v).__name__] *)
Definition type_name (v : json) : string :=
  match v with
  | JNull => "NoneType"
  | JBool _ => "bool"
  | JNum _ => "int"
  | JFloat _ => "float"
  | JStr _ => "str"
  | JArr _ => "list"
  | JObj _ => "dict"
  end.

(** [v.get(k)] on an arbitrary value: only a dict has the method. *)
Definition value_get (v : json) (k : string) : result json :=
  match v with
  | JObj d => Ok (dict_get d k)
  | _ => Raise (Exn AttributeError
                  ("'" ++ type_name v ++ "' object has no attribute 'get'"))
  end.

(** [{**base, **v}]: the keys of [v] take precedence; a [v] that is not a
    mapping raises [TypeError]. *)
Definition dict_merge (base : gmap string json) (v : json)
  : result (gmap string json) :=
  match v with
  | JObj d => Ok (d ∪ base)
  | _ => Raise (Exn TypeError
                  ("'" ++ type_name v ++ "' object is not a mapping"))
  end.

(** ** [str] methods *)

(** [str.isspace] on the ASCII range: TAB..CR, FS..US and SPACE. *)
Definition is_space (c : ascii) : bool :=
  let n := nat_of_ascii c in
  ((9 <=? n) && (n <=? 13) || (28 <=? n) && (n <=? 32))%nat.

Fixpoint lstrip (s : string) : string :=
  match s with
  | String c r => if is_space c then lstrip r else s
  | EmptyString => EmptyString
  end.

Fixpoint rstrip (s : string) : string :=
  match s with
  | String c r =>
      match rstrip r with
      | EmptyString => if is_space c then EmptyString else String c EmptyString
      | r' => String c r'
      end
  | EmptyString => EmptyString
  end.

(** [s.strip()], for the white space of the ASCII range. *)
Definition strip (s : string) : string := rstrip (lstrip s).

(** [s.startswith(p)] *)
Fixpoint startswith (p s : string) : bool :=
  match p, s with
  | EmptyString, _ => true
  | String a p', String b s' => Ascii.eqb a b && startswith p' s'
  | String _ _, EmptyString => false
  end.

(** [sub in s] *)
Fixpoint contains (sub s : string) : bool :=
  startswith sub s ||
  match s with
  | String _ r => contains sub r
  | EmptyString => false
  end.

Fixpoint drop_chars (n : nat) (s : string) : string :=
  match n, s with
  | S n', String _ r => drop_chars n' r
  | _, _ => s
  end.

(** [s.partition(sep)]: the text before and after the first occurrence
    of [sep], if there is one. *)
Fixpoint partition (sep s : string) : option (string * string) :=
  if startswith sep s then Some (EmptyString, drop_chars (String.length sep) s)
  else match s with
       | String c r =>
           match partition sep r with
           | Some (a, b) => Some (String c a, b)
           | None => None
           end
       | EmptyString => None
       end.

Fixpoint split_fuel (n : nat) (sep s : string) : list string :=
  match partition sep s with
  | None => [s]
  | Some (a, b) =>
      match n with
      | O => [a; b]
      | S n' => a :: split_fuel n' sep b
      end
  end.

(** [s.split(sep)] for a non-empty separator. *)
Definition split (sep s : string) : list string :=
  split_fuel (String.length s) sep s.

(** [sep.join(parts)] *)
Fixpoint join (sep : string) (parts : list string) : string :=
  match parts with
  | [] => EmptyString
  | [p] => p
  | p :: rest => p ++ sep ++ join sep rest
  end.

(** [s.replace(old, new)] for a non-empty [old]. *)
Definition replace (old new s : string) : string := join new (split old s).

(** [l[i]], raising [IndexError] out of range. *)
Definition index {A} (l : list A) (i : nat) : result A :=
  match l !! i with
  | Some a => Ok a
  | None => Raise (Exn IndexError "list index out of range")
  end.

(** ** [datetime] *)

Record datetime := DateTime {
  year : Z; month : Z; day : Z;
  hour : Z; minute : Z; second : Z; microsecond : Z;
  utcoffset : option Z  (* tzinfo: the offset in seconds, if aware *)
}.

Definition _MAXORDINAL : Z := 3652059.
Definition _DI400Y : Z := 146097.
Definition _DI100Y : Z := 36524.
Definition _DI4Y : Z := 1461.

Definition _is_leap (y : Z) : bool :=
  (y mod 4 =? 0)%Z && (negb (y mod 100 =? 0)%Z || (y mod 400 =? 0)%Z).

Definition _DAYS_IN_MONTH (m : Z) : Z :=
  match m with
  | 1 => 31 | 2 => 28 | 3 => 31 | 4 => 30 | 5 => 31 | 6 => 30
  | 7 => 31 | 8 => 31 | 9 => 30 | 10 => 31 | 11 => 30 | 12 => 31
  | _ => -1
  end%Z.

Definition _DAYS_BEFORE_MONTH (m : Z) : Z :=
  match m with
  | 1 => 0 | 2 => 31 | 3 => 59 | 4 => 90 | 5 => 120 | 6 => 151
  | 7 => 181 | 8 => 212 | 9 => 243 | 10 => 273 | 11 => 304 | 12 => 334
  | _ => -1
  end%Z.

Definition _days_before_year (y : Z) : Z :=
  let y := (y - 1)%Z in (y * 365 + y / 4 - y / 100 + y / 400)%Z.

Definition _days_in_month (y m : Z) : Z :=
  if (m =? 2)%Z && _is_leap y then 29%Z else _DAYS_IN_MONTH m.

Definition _days_before_month (y m : Z) : Z :=
  (_DAYS_BEFORE_MONTH m + (if (2 <? m)%Z && _is_leap y then 1 else 0))%Z.

Definition _ymd2ord (y m d : Z) : Z :=
  (_days_before_year y + _days_before_month y m + d)%Z.

Definition _ord2ymd (n : Z) : Z * Z * Z :=
  let n := (n - 1)%Z in
  let n400 := (n / _DI400Y)%Z in
  let n := (n mod _DI400Y)%Z in
  let y := (n400 * 400 + 1)%Z in
  let n100 := (n / _DI100Y)%Z in
  let n := (n mod _DI100Y)%Z in
  let n4 := (n / _DI4Y)%Z in
  let n := (n mod _DI4Y)%Z in
  let n1 := (n / 365)%Z in
  let n := (n mod 365)%Z in
  let y := (y + n100 * 100 + n4 * 4 + n1)%Z in
  if (n1 =? 4)%Z || (n100 =? 4)%Z then ((y - 1)%Z, 12%Z, 31%Z)
  else
    let leapyear := (n1 =? 3)%Z && (negb (n4 =? 24)%Z || (n100 =? 3)%Z) in
    let m := Z.shiftr (n + 50) 5 in
    let preceding :=
      (_DAYS_BEFORE_MONTH m + (if (2 <? m)%Z && leapyear then 1 else 0))%Z in
    if (n <? preceding)%Z then
      let m := (m - 1)%Z in
      let preceding :=
        (preceding - (_DAYS_IN_MONTH m
                      + (if (m =? 2)%Z && leapyear then 1 else 0)))%Z in
      (y, m, (n - preceding + 1)%Z)
    else (y, m, (n - preceding + 1)%Z).

(** [t.toordinal()] *)
Definition toordinal (t : datetime) : Z := _ymd2ord (year t) (month t) (day t).

(** [t.weekday()], Monday is 0. *)
Definition weekday (t : datetime) : Z := ((toordinal t + 6) mod 7)%Z.

(** [t + timedelta(days=days, seconds=seconds)], as [datetime.__add__]
    computes it: through the ordinal, raising [OverflowError] outside
    years 1..9999. *)
Definition datetime_add (t : datetime) (days seconds : Z) : result datetime :=
  let total := (hour t * 3600 + minute t * 60 + second t + seconds)%Z in
  let d := (toordinal t + days + total / 86400)%Z in
  let s := (total mod 86400)%Z in
  if (0 <? d)%Z && (d <=? _MAXORDINAL)%Z then
    let '(y, m, dd) := _ord2ymd d in
    Ok {| year := y; month := m; day := dd;
          hour := (s / 3600)%Z; minute := ((s mod 3600) / 60)%Z;
          second := (s mod 60)%Z;
          microsecond := microsecond t; utcoffset := utcoffset t |}
  else Raise (Exn OverflowError "date value out of range").

(** Decimal digits, zero-filled to width [w]. *)
Fixpoint zeros (n : nat) : string :=
  match n with O => EmptyString | S n' => String "0" (zeros n') end.

Definition zfill (w : nat) (n : Z) : string :=
  let s := pretty (Z.to_N n) in
  zeros (w - String.length s) ++ s.

(** [t.strftime('%Y-%m-%d')]; the year has four digits from 1000 on, and
    is written with four digits here before that too, where the C
    library may print fewer. *)
Definition strftime_Ymd (t : datetime) : string :=
  zfill 4 (year t) ++ "-" ++ zfill 2 (month t) ++ "-" ++ zfill 2 (day t).

(** [t.strftime('%H:%M')] *)
Definition strftime_HM (t : datetime) : string :=
  zfill 2 (hour t) ++ ":" ++ zfill 2 (minute t).

(** [LC_TIME] as the module-level code of ai_engine.py leaves it. *)
Inductive lc_time := LC_C | LC_tr_TR.

(** The names [strftime('%A')] prints, by locale, for [weekday()] 0..6. *)
Definition day_name (lc : lc_time) (wd : Z) : string :=
  match lc, wd with
  | LC_C, 0 => "Monday" | LC_C, 1 => "Tuesday" | LC_C, 2 => "Wednesday"
  | LC_C, 3 => "Thursday" | LC_C, 4 => "Friday" | LC_C, 5 => "Saturday"
  | LC_C, _ => "Sunday"
  | LC_tr_TR, 0 => "Pazartesi" | LC_tr_TR, 1 => "Salı"
  | LC_tr_TR, 2 => "Çarşamba" | LC_tr_TR, 3 => "Perşembe"
  | LC_tr_TR, 4 => "Cuma" | LC_tr_TR, 5 => "Cumartesi"
  | LC_tr_TR, _ => "Pazar"
  end%Z.

(** [t.strftime('%A')] *)
Definition strftime_A (lc : lc_time) (t : datetime) : string :=
  day_name lc (weekday t).

End Py.
Export Py.

(** The library functions whose behaviour the modules rely on but do not
    define.  Every theorem that does not name a particular instance holds
    for all of them. *)
Class PyLib := {
  (** [json.loads] *)
  json_loads : string -> result json;
  (** [str.lower] *)
  lower : string -> string;
  (** [difflib.SequenceMatcher(None, a, b).ratio()], the rational
      [2 * matches / (len(a) + len(b))].  Python rounds it to a double;
      the comparisons of [find_email], with 0.6 and between two ratios,
      come out as on the rationals for texts shorter than 2^24. *)
  SequenceMatcher_ratio : string -> string -> Q;
  (** [datetime.fromisoformat] *)
  fromisoformat : string -> result datetime;
}.

(** [email.mime.text.MIMEText] and [base64], as [EmailManager.send] uses
    them. *)
Record mime_text := {
  mime_to : string;         (* msg['to'] *)
  mime_subject : string;    (* msg['subject'] *)
  mime_content : string     (* the payload *)
}.

Class PyEmail := {
  (** [base64.urlsafe_b64encode(msg.as_bytes()).decode()] *)
  urlsafe_b64 : mime_text -> result string
}.

(** The library functions the window relies on but does not define. *)
Class GuiLib := {
  (** [repr] of a float, a list or a dict, as [str] and the f-strings
      print them *)
  py_repr : json -> string;
  (** [QTextEdit.toPlainText()] after [setText(text)]: the text itself,
      or its rendering when Qt takes the text for rich text *)
  toPlainText : string -> string
}.

(* ===================================================================== *)
(** * Part II.  ai_engine.py                                              *)
(* ===================================================================== *)

Module ai_engine.

Section Sanitizer.
Context `{PyLib}.

Definition fence_json : string := "```json".
Definition fence : string := "```".

(** [BaseAIEngine._clean_and_parse_json].  The outer handler names
    [json.JSONDecodeError] only, the inner one [Exception]. *)
Definition _clean_and_parse_json {S} (text : string) : M S json :=
  try_except
    (lift (json_loads text))
    is_JSONDecodeError
    (fun _ =>
       try_except
         (text' ← (if contains fence_json text then
                     seg ← lift (index (split fence_json text) 1);
                     lift (index (split fence seg) 0)
                   else if contains fence text then
                     seg ← lift (index (split fence text) 1);
                     lift (index (split fence seg) 0)
                   else mret text);
          lift (json_loads (strip text')))
         Exception
         (fun _ => mret JNull)).

End Sanitizer.

(** ** The environment of one engine call *)

Inductive intent := SummaryReply | ActionDecision.

(** The single-shot prompt: the fixed template of the intent, the
    grounding block and the interpolated input. *)
Record prompt := Prompt {
  prompt_intent : intent;
  prompt_time_context : string;
  prompt_input : json
}.

(** What the process observes of its collaborators. *)
Record Env := {
  (** which [locale.setlocale(LC_TIME, name)] calls succeed *)
  setlocale_ok : string -> bool;
  (** the sample [datetime.now()] returns *)
  now : datetime;
  (** [ollama.chat(...)['message']['content']] *)
  ollama_chat : prompt -> result string;
  (** entering [stdio_client], [ClientSession] and [session.initialize()];
      when the set-up fails, the exception that leaves the two blocks *)
  session_enter : result unit;
  (** [session.call_tool(name, arguments)]: the texts of [res.content] *)
  session_call_tool : string -> gmap string json -> result (list string);
  (** leaving the two [async with] blocks *)
  session_exit : result unit
}.

(** What a run does, in order. *)
Inductive event :=
| EvChat (p : prompt)
| EvSessionEnter
| EvCallTool (name : string) (arguments : gmap string json)
| EvSessionExit
| EvEmit (res : gmap string json).

Definition tell (e : event) : M (list event) unit :=
  fun tr => (Ok tt, (tr ++ [e])%list).

Section Engine.
Context `{PyLib} (env : Env).

(** The module-level locale set-up: Turkish names if one of the two
    locale names is installed, the default locale otherwise. *)
Definition module_locale : lc_time :=
  if setlocale_ok env "tr_TR.UTF-8" then LC_tr_TR
  else if setlocale_ok env "Turkish_Turkey.1254" then LC_tr_TR
  else LC_C.

Definition nl : string := String "010" EmptyString.
Definition indent : string := "        ".

(** The text of the grounding block for the three instants. *)
Definition time_context_text (lc : lc_time) (now tomorrow next_week : datetime)
  : string :=
  nl ++ indent ++ "REFERANS ZAMAN BİLGİLERİ (Buna Kesinlikle Uy):"
  ++ nl ++ indent ++ "- BUGÜNÜN TARİHİ: " ++ strftime_Ymd now
       ++ " (" ++ strftime_A lc now ++ ")"
  ++ nl ++ indent ++ "- ŞU ANKİ SAAT: " ++ strftime_HM now
  ++ nl ++ indent ++ "- YARININ TARİHİ: " ++ strftime_Ymd tomorrow
       ++ " (" ++ strftime_A lc tomorrow ++ ")"
  ++ nl ++ indent ++ "- HAFTAYA BUGÜN: " ++ strftime_Ymd next_week
  ++ nl ++ indent ++ "- BULUNDUĞUMUZ YIL: " ++ pretty (year now)
  ++ nl ++ indent.

(** [BaseAIEngine._get_time_context] *)
Definition _get_time_context {S} : M S string :=
  let now := now env in
  tomorrow ← lift (datetime_add now 1 0);
  next_week ← lift (datetime_add now 7 0);
  mret (time_context_text module_locale now tomorrow next_week).

Definition summary_fallback (e : exn) : json :=
  JObj {[ "summary" := JStr "Hata";
          "draft_reply" := JStr ("Hata: " ++ exc_str e);
          "detected_date" := JNull;
          "meeting_title" := JStr "Hata" ]}.

(** [OllamaClient.generate_summary_and_reply] *)
Definition generate_summary_and_reply (email_content : string)
  : M (list event) json :=
  time_context ← _get_time_context;
  let prompt := Prompt SummaryReply time_context (JStr email_content) in
  try_except
    (tell (EvChat prompt);;
     response ← lift (ollama_chat env prompt);
     result ← _clean_and_parse_json response;
     if truthy result then mret result
     else raise (Exn ValueError "Boş Yanıt"))
    Exception
    (fun e => mret (summary_fallback e)).

Definition action_fallback (draft : string) : json :=
  JObj {[ "target_name" := JNull;
          "draft_text" := JStr draft;
          "extracted_date" := JNull;
          "meeting_title" := JStr "Hata" ]}.

(** [OllamaClient.decide_action] *)
Definition decide_action (user_query : json) : M (list event) json :=
  time_context ← _get_time_context;
  let prompt := Prompt ActionDecision time_context user_query in
  try_except
    (tell (EvChat prompt);;
     response ← lift (ollama_chat env prompt);
     result ← _clean_and_parse_json response;
     if negb (truthy result) then
       mret (action_fallback "AI yanıtı anlaşılamadı.")
     else mret result)
    Exception
    (fun _ => mret (action_fallback "Sistem hatası.")).

End Engine.

End ai_engine.

(* ===================================================================== *)
(** * Part III.  server.py                                                *)
(* ===================================================================== *)

Module server.

(** An entry of the Drive listing ([fields="files(id, name)"]). *)
Record drive_file := { file_id : string; file_name : string }.

(** The body sent to [events().insert]. *)
Record calendar_event := {
  ev_summary : string;
  ev_start : string;      (* start.dateTime *)
  ev_end : string;        (* end.dateTime *)
  ev_timeZone : string    (* the timeZone of both *)
}.

(** The Google services as the managers observe them; each field is the
    outcome of [.execute()] on the request named. *)
Record Google := {
  drive_files_list : result (list drive_file);
  (** [files().create(...)], then [.get('id')] *)
  drive_files_create : result (option string);
  sheets_values_update : option string -> result unit;
  (** [values().get(spreadsheetId, range='A:B')], then [.get('values', [])] *)
  sheets_values_get : string -> result (list (list string));
  calendar_events_insert : calendar_event -> result unit
}.

(** The mutable attribute of [ContactManager]. *)
Record ContactManager := { _cached_sheet_id : option string }.

(** Truth value of an [Optional[str]]. *)
Definition nonempty (o : option string) : bool :=
  match o with
  | Some s => negb (String.eqb s "")
  | None => false
  end.

Definition Qltb (a b : Q) : bool := negb (Qle_bool b a).

Section Managers.
Context `{PyLib} (google : Google).

(** [ContactManager._create_sheet] *)
Definition _create_sheet : M ContactManager (option string) :=
  try_except
    (new_id ← lift (drive_files_create google);
     lift (sheets_values_update google new_id);;
     put {| _cached_sheet_id := new_id |};;
     mret new_id)
    Exception
    (fun _ => mret None).

(** [ContactManager._get_sheet_id].  The inner [option] of the [try]
    block is its early [return]. *)
Definition _get_sheet_id : M ContactManager (option string) :=
  self ← get;
  if nonempty (_cached_sheet_id self) then mret (_cached_sheet_id self)
  else
    returned ← try_except
      (files ← lift (drive_files_list google);
       match files with
       | f :: _ =>
           put {| _cached_sheet_id := Some (file_id f) |};;
           mret (Some (Some (file_id f)))
       | [] => mret None
       end)
      Exception
      (fun _ => mret None);
    match returned with
    | Some sheet_id => mret sheet_id
    | None => _create_sheet
    end.

(** The [for row in rows[1:]] loop of [find_email] with its two
    accumulators, and the [return] after it. *)
Fixpoint scan_rows (target : string) (rows : list (list string))
    (best_match : option string) (highest_score : Q) : string :=
  match rows with
  | [] => if nonempty best_match then default "" best_match else "BULUNAMADI"
  | row :: rest =>
      match row with
      | name :: email :: _ =>
          let contact_name := strip (lower name) in
          let contact_email := strip email in
          if contains target contact_name then contact_email
          else
            let score := SequenceMatcher_ratio target contact_name in
            if Qltb (6 # 10) score && Qltb highest_score score
            then scan_rows target rest (Some contact_email) score
            else scan_rows target rest best_match highest_score
      | _ => scan_rows target rest best_match highest_score
      end
  end.

(** [ContactManager.find_email] *)
Definition find_email (name : string) : M ContactManager string :=
  sheet_id ← _get_sheet_id;
  if negb (nonempty sheet_id) then mret "HATA: Rehber erişilemedi."
  else
    try_except
      (rows ← lift (sheets_values_get google (default "" sheet_id));
       if (length rows <? 2)%nat then mret "Rehber boş."
       else
         let target := strip (lower name) in
         mret (scan_rows target (tail rows) None 0%Q))
      Exception
      (fun e => mret ("HATA: " ++ exc_str e)).

(** [t.isoformat()] *)
Definition isoformat (t : datetime) : string :=
  strftime_Ymd t ++ "T" ++ strftime_HM t ++ ":" ++ zfill 2 (second t)
  ++ (if (microsecond t =? 0)%Z then "" else "." ++ zfill 6 (microsecond t))
  ++ match utcoffset t with
     | None => ""
     | Some off =>
         let a := Z.abs off in
         (if (off <? 0)%Z then "-" else "+")
         ++ zfill 2 (a / 3600) ++ ":" ++ zfill 2 ((a mod 3600) / 60)
         ++ (if (a mod 60 =? 0)%Z then "" else ":" ++ zfill 2 (a mod 60))
     end.

(** [events().insert(calendarId='primary', body=event).execute()]; the
    state is the list of events the calendar has accepted. *)
Definition events_insert (event : calendar_event)
  : M (list calendar_event) unit :=
  fun cal => match calendar_events_insert google event with
             | Ok _ => (Ok tt, (cal ++ [event])%list)
             | Raise e => (Raise e, cal)
             end.

(** [CalendarManager.schedule] *)
Definition schedule (summary iso_datetime : string)
  : M (list calendar_event) string :=
  try_except
    (if String.eqb iso_datetime "" then mret "Tarih hatası"
     else
       let clean_date := replace "Z" "" iso_datetime in
       start_dt ← lift (fromisoformat clean_date);
       end_dt ← lift (datetime_add start_dt 0 3600);
       let event := {| ev_summary := summary;
                       ev_start := isoformat start_dt;
                       ev_end := isoformat end_dt;
                       ev_timeZone := "Europe/Istanbul" |} in
       events_insert event;;
       mret ("Takvime Eklendi: " ++ strftime_HM start_dt))
    Exception
    (fun e => mret ("Takvim Hatası: " ++ exc_str e)).

End Managers.

(** ** [EmailManager] *)

(** A header of a Gmail message. *)
Record gmail_header := { header_name : string; header_value : string }.

(** A message as [messages().get(format='full')] returns it. *)
Record gmail_message := {
  payload_headers : list gmail_header;   (* msg['payload']['headers'] *)
  snippet : option string                (* msg.get('snippet') *)
}.

(** The Gmail service as [EmailManager] observes it; each field is the
    outcome of [.execute()] on the request named. *)
Record Gmail := {
  (** [messages().list(userId='me', maxResults=1, labelIds=['INBOX'])],
      then [.get('messages', [])]: the ids *)
  messages_list : result (list string);
  messages_get : string -> result gmail_message;
  (** [messages().send(userId='me', body={'raw': raw})] *)
  messages_send : string -> result unit
}.

Definition newline : string := String "010" EmptyString.

(** [next((h['value'] for h in headers if h['name'] == name), default)] *)
Definition first_header (name default : string) (headers : list gmail_header)
  : string :=
  match List.find (fun h => String.eqb (header_name h) name) headers with
  | Some h => header_value h
  | None => default
  end.

Section Mail.
Context `{PyEmail} (gmail : Gmail).

(** [EmailManager.get_latest] *)
Definition get_latest {S} : M S string :=
  try_except
    (msgs ← lift (messages_list gmail);
     match msgs with
     | [] => mret "Gelen kutusu boş."
     | id :: _ =>
         msg ← lift (messages_get gmail id);
         let headers := payload_headers msg in
         let subj := first_header "Subject" "(Yok)" headers in
         let sender := first_header "From" "(Bilinmiyor)" headers in
         sender_email ←
           (if contains "<" sender then
              after ← lift (index (split "<" sender) 1);
              lift (index (split ">" after) 0)
            else mret sender);
         mret ("From: " ++ sender ++ newline
               ++ "SenderEmail: " ++ sender_email ++ newline
               ++ "Subject: " ++ subj ++ newline
               ++ "Content: " ++ default "" (snippet msg))
     end)
    Exception
    (fun e => mret ("Hata: " ++ exc_str e)).

(** [messages().send(...).execute()]; the state is the list of raw
    messages Gmail has accepted. *)
Definition send_execute (raw : string) : M (list string) unit :=
  fun sent => match messages_send gmail raw with
              | Ok _ => (Ok tt, (sent ++ [raw])%list)
              | Raise e => (Raise e, sent)
              end.

(** [EmailManager.send] *)
Definition send (to subject content : string) : M (list string) string :=
  try_except
    (to ← (if contains "<" to then
             after ← lift (index (split "<" to) 1);
             mret (replace ">" "" after)
           else mret to);
     raw ← lift (urlsafe_b64 {| mime_to := to;
                                mime_subject := subject;
                                mime_content := content |});
     send_execute raw;;
     mret "Mail Gönderildi!")
    Exception
    (fun e => mret ("Hata: " ++ exc_str e)).

End Mail.

End server.

(* ===================================================================== *)
(** * Part IV.  gui_app.py                                                *)
(* ===================================================================== *)

Module gui_app.
Import ai_engine.

(** The character class [[\w\.-]] of the sender pattern, on ASCII. *)
Definition is_addr_char (c : ascii) : bool :=
  let n := nat_of_ascii c in
  ((48 <=? n) && (n <=? 57) || (65 <=? n) && (n <=? 90)
   || (97 <=? n) && (n <=? 122) || (n =? 95) || (n =? 46) || (n =? 45))%nat.

(** The longest prefix of class characters, and the rest. *)
Fixpoint span_addr (s : string) : string * string :=
  match s with
  | String c r =>
      if is_addr_char c then let '(a, b) := span_addr r in (String c a, b)
      else (EmptyString, s)
  | EmptyString => (EmptyString, EmptyString)
  end.

(** A match of [([\w\.-]+@[\w\.-]+)] at the start of [s]. *)
Definition match_address (s : string) : option string :=
  let '(user, rest) := span_addr s in
  match user, rest with
  | String _ _, String "@" rest' =>
      match span_addr rest' with
      | (String c d, _) => Some (user ++ "@" ++ String c d)
      | _ => None
      end
  | _, _ => None
  end.

(** [re.search(r"SenderEmail: ([\w\.-]+@[\w\.-]+)", raw_mail)], group 1 *)
Fixpoint search_sender (s : string) : option string :=
  match (if startswith "SenderEmail: " s
         then match_address (drop_chars 13 s) else None) with
  | Some a => Some a
  | None => match s with
            | String _ r => search_sender r
            | EmptyString => None
            end
  end.

Section Worker.
Context `{PyLib} (env : Env).

(** [await session.call_tool(name, arguments=arguments)], giving the
    texts of [res.content]. *)
Definition call_tool (name : string) (arguments : gmap string json)
  : M (list event) (list string) :=
  tell (EvCallTool name arguments);;
  lift (session_call_tool env name arguments).

(** The body of the two [async with] blocks: the task router.  A task
    kind no branch names falls through and returns [None]. *)
Definition task_router (task : string) (payload : gmap string json)
  : M (list event) json :=
  if String.eqb task "analyze_last_mail" then
    content ← call_tool "get_latest_email" ∅;
    raw_mail ← lift (index content 0);
    let sender_email :=
      match search_sender raw_mail with
      | Some a => JStr a
      | None => JNull
      end in
    ai_res ← generate_summary_and_reply env raw_mail;
    d ← lift (dict_merge {[ "status" := JStr "success";
                            "raw_mail" := JStr raw_mail;
                            "sender" := sender_email ]} ai_res);
    mret (JObj d)
  else if String.eqb task "process_command" then
    let cmd := dict_get payload "command" in
    ai_res ← decide_action env cmd;
    target_name ← lift (value_get ai_res "target_name");
    found_email ←
      (if truthy target_name then
         content ← call_tool "find_email_by_name" {[ "name" := target_name ]};
         reply ← lift (index content 0);
         if contains "@" reply then mret (JStr reply) else mret JNull
       else mret JNull);
    d ← lift (dict_merge {[ "status" := JStr "command_processed";
                            "found_email" := found_email ]} ai_res);
    mret (JObj d)
  else if String.eqb task "send_reply" then
    call_tool "send_email_action" payload;;
    mret (JObj {[ "status" := JStr "sent" ]})
  else if String.eqb task "add_calendar" then
    content ← call_tool "schedule_meeting" payload;
    msg ← lift (index content 0);
    mret (JObj {[ "status" := JStr "calendar_added"; "msg" := JStr msg ]})
  else mret JNull.

(** [async with ... as session: await session.initialize(); body]: the
    session is left on every path once entered, and an exception raised
    while leaving replaces the outcome of the body. *)
Definition then_exit {A} (body : M (list event) A) : M (list event) A :=
  fun tr =>
    let '(r, tr') := body tr in
    let tr'' := (tr' ++ [EvSessionExit])%list in
    match session_exit env with
    | Ok _ => (r, tr'')
    | Raise e => (Raise e, tr'')
    end.

Definition with_session {A} (body : M (list event) A) : M (list event) A :=
  tell EvSessionEnter;;
  lift (session_enter env);;
  then_exit body.

(** [Worker._run_async] *)
Definition _run_async (task : string) (payload : gmap string json)
  : M (list event) json :=
  with_session (task_router task payload).

(** [self.finished.emit(res)] on a [pyqtSignal(dict)]: an argument that
    is not a dict is refused with [TypeError]. *)
Definition finished_emit (res : json) : M (list event) unit :=
  match res with
  | JObj d => tell (EvEmit d)
  | _ => raise (Exn TypeError "argument 1 has unexpected type")
  end.

(** [Worker.run].  Creating and closing the event loop is left out. *)
Definition run (task : string) (payload : gmap string json)
  : M (list event) unit :=
  try_except
    (res ← _run_async task payload;
     finished_emit res)
    Exception
    (fun e => finished_emit (JObj {[ "status" := JStr "error";
                                     "msg" := JStr (exc_str e) ]})).

(** The results a trace delivered to the [finished] signal. *)
Definition emitted (tr : list event) : list (gmap string json) :=
  omap (fun e => match e with EvEmit d => Some d | _ => None end) tr.

(** The tool calls of a trace. *)
Definition tool_calls (tr : list event) : list string :=
  omap (fun e => match e with EvCallTool n _ => Some n | _ => None end) tr.

End Worker.

(** *** The main window *)

(** The slots connected to the [finished] signal of a worker. *)
Inductive slot :=
| on_analysis_done_slot
| on_command_done_slot
| send_done_slot        (* lambda: QMessageBox.information(..., "Mail Gönderildi!") *)
| calendar_done_slot.   (* lambda x: QMessageBox.information(..., x.get("msg")) *)

(** A worker as the window creates it: [Worker(task, payload)], the slot
    connected and the thread started. *)
Record Worker := {
  worker_task : string;
  worker_payload : gmap string json;
  worker_slot : slot
}.

Inductive box_kind := Critical | Information.

(** A message box shown to the user. *)
Record message_box := {
  box_icon : box_kind;
  box_title : string;
  box_text : string
}.

(** The attributes of [AI_Mail_Assistant] and what its widgets show. *)
Record AI_Mail_Assistant := {
  current_sender : json;
  detected_date : json;
  meeting_title : json;
  btn_analyze_enabled : bool;
  btn_send_enabled : bool;
  status_lbl : string;
  txt_summary : string;        (* the text given to the widget *)
  txt_draft : string;          (* the text given to the widget, or typed *)
  lbl_to : string;
  card_calendar_visible : bool;
  lbl_cal_info : string;
  input_cmd : string;
  (** the workers started, oldest first *)
  workers : list Worker;
  (** the message boxes shown, oldest first *)
  boxes : list message_box
}.

Definition set_current_sender (v : json) (w : AI_Mail_Assistant)
  : AI_Mail_Assistant :=
  {| current_sender := v;
     detected_date := detected_date w;
     meeting_title := meeting_title w;
     btn_analyze_enabled := btn_analyze_enabled w;
     btn_send_enabled := btn_send_enabled w;
     status_lbl := status_lbl w;
     txt_summary := txt_summary w;
     txt_draft := txt_draft w;
     lbl_to := lbl_to w;
     card_calendar_visible := card_calendar_visible w;
     lbl_cal_info := lbl_cal_info w;
     input_cmd := input_cmd w;
     workers := workers w;
     boxes := boxes w |}.

Definition set_detected_date (v : json) (w : AI_Mail_Assistant)
  : AI_Mail_Assistant :=
  {| current_sender := current_sender w;
     detected_date := v;
     meeting_title := meeting_title w;
     btn_analyze_enabled := btn_analyze_enabled w;
     btn_send_enabled := btn_send_enabled w;
     status_lbl := status_lbl w;
     txt_summary := txt_summary w;
     txt_draft := txt_draft w;
     lbl_to := lbl_to w;
     card_calendar_visible := card_calendar_visible w;
     lbl_cal_info := lbl_cal_info w;
     input_cmd := input_cmd w;
     workers := workers w;
     boxes := boxes w |}.

Definition set_meeting_title (v : json) (w : AI_Mail_Assistant)
  : AI_Mail_Assistant :=
  {| current_sender := current_sender w;
     detected_date := detected_date w;
     meeting_title := v;
     btn_analyze_enabled := btn_analyze_enabled w;
     btn_send_enabled := btn_send_enabled w;
     status_lbl := status_lbl w;
     txt_summary := txt_summary w;
     txt_draft := txt_draft w;
     lbl_to := lbl_to w;
     card_calendar_visible := card_calendar_visible w;
     lbl_cal_info := lbl_cal_info w;
     input_cmd := input_cmd w;
     workers := workers w;
     boxes := boxes w |}.

Definition set_btn_analyze_enabled (v : bool) (w : AI_Mail_Assistant)
  : AI_Mail_Assistant :=
  {| current_sender := current_sender w;
     detected_date := detected_date w;
     meeting_title := meeting_title w;
     btn_analyze_enabled := v;
     btn_send_enabled := btn_send_enabled w;
     status_lbl := status_lbl w;
     txt_summary := txt_summary w;
     txt_draft := txt_draft w;
     lbl_to := lbl_to w;
     card_calendar_visible := card_calendar_visible w;
     lbl_cal_info := lbl_cal_info w;
     input_cmd := input_cmd w;
     workers := workers w;
     boxes := boxes w |}.

Definition set_btn_send_enabled (v : bool) (w : AI_Mail_Assistant)
  : AI_Mail_Assistant :=
  {| current_sender := current_sender w;
     detected_date := detected_date w;
     meeting_title := meeting_title w;
     btn_analyze_enabled := btn_analyze_enabled w;
     btn_send_enabled := v;
     status_lbl := status_lbl w;
     txt_summary := txt_summary w;
     txt_draft := txt_draft w;
     lbl_to := lbl_to w;
     card_calendar_visible := card_calendar_visible w;
     lbl_cal_info := lbl_cal_info w;
     input_cmd := input_cmd w;
     workers := workers w;
     boxes := boxes w |}.

Definition set_status_lbl (v : string) (w : AI_Mail_Assistant)
  : AI_Mail_Assistant :=
  {| current_sender := current_sender w;
     detected_date := detected_date w;
     meeting_title := meeting_title w;
     btn_analyze_enabled := btn_analyze_enabled w;
     btn_send_enabled := btn_send_enabled w;
     status_lbl := v;
     txt_summary := txt_summary w;
     txt_draft := txt_draft w;
     lbl_to := lbl_to w;
     card_calendar_visible := card_calendar_visible w;
     lbl_cal_info := lbl_cal_info w;
     input_cmd := input_cmd w;
     workers := workers w;
     boxes := boxes w |}.

Definition set_txt_summary (v : string) (w : AI_Mail_Assistant)
  : AI_Mail_Assistant :=
  {| current_sender := current_sender w;
     detected_date := detected_date w;
     meeting_title := meeting_title w;
     btn_analyze_enabled := btn_analyze_enabled w;
     btn_send_enabled := btn_send_enabled w;
     status_lbl := status_lbl w;
     txt_summary := v;
     txt_draft := txt_draft w;
     lbl_to := lbl_to w;
     card_calendar_visible := card_calendar_visible w;
     lbl_cal_info := lbl_cal_info w;
     input_cmd := input_cmd w;
     workers := workers w;
     boxes := boxes w |}.

Definition set_txt_draft (v : string) (w : AI_Mail_Assistant)
  : AI_Mail_Assistant :=
  {| current_sender := current_sender w;
     detected_date := detected_date w;
     meeting_title := meeting_title w;
     btn_analyze_enabled := btn_analyze_enabled w;
     btn_send_enabled := btn_send_enabled w;
     status_lbl := status_lbl w;
     txt_summary := txt_summary w;
     txt_draft := v;
     lbl_to := lbl_to w;
     card_calendar_visible := card_calendar_visible w;
     lbl_cal_info := lbl_cal_info w;
     input_cmd := input_cmd w;
     workers := workers w;
     boxes := boxes w |}.

Definition set_lbl_to (v : string) (w : AI_Mail_Assistant)
  : AI_Mail_Assistant :=
  {| current_sender := current_sender w;
     detected_date := detected_date w;
     meeting_title := meeting_title w;
     btn_analyze_enabled := btn_analyze_enabled w;
     btn_send_enabled := btn_send_enabled w;
     status_lbl := status_lbl w;
     txt_summary := txt_summary w;
     txt_draft := txt_draft w;
     lbl_to := v;
     card_calendar_visible := card_calendar_visible w;
     lbl_cal_info := lbl_cal_info w;
     input_cmd := input_cmd w;
     workers := workers w;
     boxes := boxes w |}.

Definition set_card_calendar_visible (v : bool) (w : AI_Mail_Assistant)
  : AI_Mail_Assistant :=
  {| current_sender := current_sender w;
     detected_date := detected_date w;
     meeting_title := meeting_title w;
     btn_analyze_enabled := btn_analyze_enabled w;
     btn_send_enabled := btn_send_enabled w;
     status_lbl := status_lbl w;
     txt_summary := txt_summary w;
     txt_draft := txt_draft w;
     lbl_to := lbl_to w;
     card_calendar_visible := v;
     lbl_cal_info := lbl_cal_info w;
     input_cmd := input_cmd w;
     workers := workers w;
     boxes := boxes w |}.

Definition set_lbl_cal_info (v : string) (w : AI_Mail_Assistant)
  : AI_Mail_Assistant :=
  {| current_sender := current_sender w;
     detected_date := detected_date w;
     meeting_title := meeting_title w;
     btn_analyze_enabled := btn_analyze_enabled w;
     btn_send_enabled := btn_send_enabled w;
     status_lbl := status_lbl w;
     txt_summary := txt_summary w;
     txt_draft := txt_draft w;
     lbl_to := lbl_to w;
     card_calendar_visible := card_calendar_visible w;
     lbl_cal_info := v;
     input_cmd := input_cmd w;
     workers := workers w;
     boxes := boxes w |}.

Definition set_input_cmd (v : string) (w : AI_Mail_Assistant)
  : AI_Mail_Assistant :=
  {| current_sender := current_sender w;
     detected_date := detected_date w;
     meeting_title := meeting_title w;
     btn_analyze_enabled := btn_analyze_enabled w;
     btn_send_enabled := btn_send_enabled w;
     status_lbl := status_lbl w;
     txt_summary := txt_summary w;
     txt_draft := txt_draft w;
     lbl_to := lbl_to w;
     card_calendar_visible := card_calendar_visible w;
     lbl_cal_info := lbl_cal_info w;
     input_cmd := v;
     workers := workers w;
     boxes := boxes w |}.

Definition set_workers (v : list Worker) (w : AI_Mail_Assistant)
  : AI_Mail_Assistant :=
  {| current_sender := current_sender w;
     detected_date := detected_date w;
     meeting_title := meeting_title w;
     btn_analyze_enabled := btn_analyze_enabled w;
     btn_send_enabled := btn_send_enabled w;
     status_lbl := status_lbl w;
     txt_summary := txt_summary w;
     txt_draft := txt_draft w;
     lbl_to := lbl_to w;
     card_calendar_visible := card_calendar_visible w;
     lbl_cal_info := lbl_cal_info w;
     input_cmd := input_cmd w;
     workers := v;
     boxes := boxes w |}.

Definition set_boxes (v : list message_box) (w : AI_Mail_Assistant)
  : AI_Mail_Assistant :=
  {| current_sender := current_sender w;
     detected_date := detected_date w;
     meeting_title := meeting_title w;
     btn_analyze_enabled := btn_analyze_enabled w;
     btn_send_enabled := btn_send_enabled w;
     status_lbl := status_lbl w;
     txt_summary := txt_summary w;
     txt_draft := txt_draft w;
     lbl_to := lbl_to w;
     card_calendar_visible := card_calendar_visible w;
     lbl_cal_info := lbl_cal_info w;
     input_cmd := input_cmd w;
     workers := workers w;
     boxes := v |}.

(** [AI_Mail_Assistant.__init__] with [init_ui]. *)
Definition __init__ : AI_Mail_Assistant := {|
  current_sender := JNull;
  detected_date := JNull;
  meeting_title := JStr "Toplantı";
  btn_analyze_enabled := true;
  btn_send_enabled := false;
  status_lbl := "Sistem hazır.";
  txt_summary := "";
  txt_draft := "";
  lbl_to := "Kime: -";
  card_calendar_visible := false;
  lbl_cal_info := "";
  input_cmd := "";
  workers := [];
  boxes := [] |}.

(** A [str] argument of a Qt method: PyQt refuses any other value with
    [TypeError]. *)
Definition qt_str (v : json) : result string :=
  match v with
  | JStr s => Ok s
  | _ => Raise (Exn TypeError "argument 1 has unexpected type")
  end.

(** [res.get("status") == "error"] *)
Definition status_is_error (res : gmap string json) : bool :=
  match dict_get res "status" with
  | JStr s => String.eqb s "error"
  | _ => false
  end.

Definition modify (f : AI_Mail_Assistant -> AI_Mail_Assistant)
  : M AI_Mail_Assistant unit :=
  fun w => (Ok tt, f w).

(** [QMessageBox.critical] and [QMessageBox.information]. *)
Definition message (icon : box_kind) (title : string) (text : json)
  : M AI_Mail_Assistant unit :=
  s ← lift (qt_str text);
  modify (fun w => set_boxes (boxes w ++ [ {| box_icon := icon;
                                              box_title := title;
                                              box_text := s |} ])%list w).

(** [self.worker = Worker(task, payload)], [finished.connect(slot)] and
    [start()]; [Worker.__init__] keeps [payload or {}]. *)
Definition start_worker (task : string) (payload : option (gmap string json))
    (s : slot) : M AI_Mail_Assistant unit :=
  modify (fun w => set_workers (workers w ++ [ {| worker_task := task;
                                                  worker_payload := default ∅ payload;
                                                  worker_slot := s |} ])%list w).

Section Assistant.
Context `{GuiLib}.

(** The builtin [str], which the f-strings of the window apply. *)
Definition str (v : json) : string :=
  match v with
  | JNull => "None"
  | JBool true => "True"
  | JBool false => "False"
  | JNum z => pretty z
  | JStr s => s
  | _ => py_repr v
  end.

(** [AI_Mail_Assistant._set_processing_state] *)
Definition _set_processing_state (processing : bool) (msg : string)
  : M AI_Mail_Assistant unit :=
  modify (set_btn_analyze_enabled (negb processing));;
  modify (set_btn_send_enabled false);;
  modify (set_status_lbl msg);;
  if processing then
    modify (set_txt_summary "");;
    modify (set_txt_draft "");;
    modify (set_card_calendar_visible false)
  else mret tt.

(** [AI_Mail_Assistant.start_analysis] *)
Definition start_analysis : M AI_Mail_Assistant unit :=
  _set_processing_state true "⏳ Son mail analiz ediliyor...";;
  start_worker "analyze_last_mail" None on_analysis_done_slot.

(** [AI_Mail_Assistant.run_custom_command] *)
Definition run_custom_command : M AI_Mail_Assistant unit :=
  w ← get;
  let cmd := input_cmd w in
  if String.eqb cmd "" then mret tt
  else
    modify (set_status_lbl ("⚙️ İşleniyor: " ++ cmd));;
    modify (set_input_cmd "");;
    modify (set_card_calendar_visible false);;
    start_worker "process_command" (Some {[ "command" := JStr cmd ]})
      on_command_done_slot.

(** [AI_Mail_Assistant.update_draft_area] *)
Definition update_draft_area (text to_email date title : json)
  : M AI_Mail_Assistant unit :=
  s ← lift (qt_str text);
  modify (set_txt_draft s);;
  modify (set_lbl_to (if truthy to_email then "Kime: " ++ str to_email
                      else "Kime: (Rehberde Bulunamadı)"));;
  modify (set_btn_send_enabled (truthy to_email));;
  if truthy date then
    modify (set_detected_date date);;
    modify (set_meeting_title title);;
    modify (set_card_calendar_visible true);;
    modify (set_lbl_cal_info ("Başlık: " ++ str title ++ String "010" ""
                              ++ "Tarih: " ++ str date))
  else mret tt.

(** [AI_Mail_Assistant.on_analysis_done] *)
Definition on_analysis_done (res : gmap string json)
  : M AI_Mail_Assistant unit :=
  modify (set_btn_analyze_enabled true);;
  if status_is_error res then
    message Critical "Hata" (dict_get res "msg");;
    modify (set_status_lbl "❌ Hata.")
  else
    modify (set_status_lbl "✅ Analiz tamamlandı.");;
    s ← lift (qt_str (dict_get res "summary"));
    modify (set_txt_summary s);;
    update_draft_area (dict_get res "draft_reply") (dict_get res "sender")
      (dict_get res "detected_date") (dict_get res "meeting_title").

(** [AI_Mail_Assistant.on_command_done] *)
Definition on_command_done (res : gmap string json)
  : M AI_Mail_Assistant unit :=
  if status_is_error res then mret tt
  else
    let email := dict_get res "found_email" in
    modify (set_status_lbl
              (if truthy email
               then "✅ Kişi: " ++ str (dict_get res "target_name")
                    ++ " (" ++ str email ++ ")"
               else "⚠️ Kişi bulunamadı"));;
    modify (set_current_sender email);;
    update_draft_area (dict_get res "draft_text") email
      (dict_get res "extracted_date") (dict_get res "meeting_title").

(** [AI_Mail_Assistant.send_mail] *)
Definition send_mail : M AI_Mail_Assistant unit :=
  w ← get;
  start_worker "send_reply"
    (Some {[ "to_email" := current_sender w;
             "subject" := JStr ("Konu: " ++ str (meeting_title w));
             "content" := JStr (toPlainText (txt_draft w)) ]})
    send_done_slot.

(** [AI_Mail_Assistant.add_to_calendar] *)
Definition add_to_calendar : M AI_Mail_Assistant unit :=
  w ← get;
  start_worker "add_calendar"
    (Some {[ "summary" := meeting_title w;
             "iso_datetime" := detected_date w ]})
    calendar_done_slot.

(** The slot of a worker, called with the result it emitted. *)
Definition deliver (s : slot) (res : gmap string json)
  : M AI_Mail_Assistant unit :=
  match s with
  | on_analysis_done_slot => on_analysis_done res
  | on_command_done_slot => on_command_done res
  | send_done_slot => message Information "Bilgi" (JStr "Mail Gönderildi!")
  | calendar_done_slot => message Information "Takvim" (dict_get res "msg")
  end.

(** What can happen to the window: a signal of a widget the user can
    reach calls its slot, a worker delivers a result, the user types. *)
Inductive gui_step : AI_Mail_Assistant -> AI_Mail_Assistant -> Prop :=
| step_start_analysis w :
    btn_analyze_enabled w = true -> gui_step w (snd (start_analysis w))
| step_run_custom_command w :
    gui_step w (snd (run_custom_command w))
| step_send_mail w :
    btn_send_enabled w = true -> gui_step w (snd (send_mail w))
| step_add_to_calendar w :
    card_calendar_visible w = true -> gui_step w (snd (add_to_calendar w))
| step_finished w s res :
    gui_step w (snd (deliver s res w))
| step_type_command w text :
    gui_step w (set_input_cmd text w)
| step_edit_draft w text :
    gui_step w (set_txt_draft text w).

(** The windows a session of the application can show. *)
Inductive reachable : AI_Mail_Assistant -> Prop :=
| reachable_init : reachable __init__
| reachable_step w w' : reachable w -> gui_step w w' -> reachable w'.

End Assistant.

End gui_app.

(* ===================================================================== *)
(** * Part V.  A reference instance of the library functions              *)
(* ===================================================================== *)

(** Executable models of the four library functions, used to evaluate
    the modules on concrete inputs.  They follow CPython on the inputs
    they cover: JSON without fractions, exponents and [\u] escapes;
    [lower] on ASCII letters; [SequenceMatcher] on sequences shorter than
    the 200 elements at which its popularity heuristic starts;
    [fromisoformat] on [YYYY-MM-DD] and [YYYY-MM-DD?HH:MM[:SS]]. *)
Module CPython.

(** *** [str.lower] *)

Definition lower_char (c : ascii) : ascii :=
  let n := nat_of_ascii c in
  if ((65 <=? n) && (n <=? 90))%nat then ascii_of_nat (n + 32) else c.

Fixpoint lower (s : string) : string :=
  match s with
  | String c r => String (lower_char c) (lower r)
  | EmptyString => EmptyString
  end.

(** *** [json.loads] *)

Definition decode_error {A} : result A :=
  Raise (Exn JSONDecodeError "Expecting value").

Definition recursion_error {A} : result A :=
  Raise (Exn RecursionError
           "maximum recursion depth exceeded while decoding a JSON document").

Definition is_json_ws (c : ascii) : bool :=
  let n := nat_of_ascii c in
  ((n =? 32) || (n =? 9) || (n =? 10) || (n =? 13))%nat.

Fixpoint skip_ws (s : string) : string :=
  match s with
  | String c r => if is_json_ws c then skip_ws r else s
  | EmptyString => EmptyString
  end.

Definition digit (c : ascii) : option Z :=
  let n := nat_of_ascii c in
  if ((48 <=? n) && (n <=? 57))%nat then Some (Z.of_nat (n - 48)) else None.

(** The digits at the start of [s], accumulated on [acc]. *)
Fixpoint scan_digits (acc : Z) (s : string) : Z * string :=
  match s with
  | String c r =>
      match digit c with
      | Some d => scan_digits (acc * 10 + d) r
      | None => (acc, s)
      end
  | EmptyString => (acc, s)
  end.

(** An integer literal without sign: [0] or a digit 1..9 and digits. *)
Definition scan_int (s : string) : option (Z * string) :=
  match s with
  | String c r =>
      match digit c with
      | Some 0%Z => Some (0%Z, r)
      | Some d => Some (scan_digits d r)
      | None => None
      end
  | EmptyString => None
  end.

Definition starts_fraction (s : string) : bool :=
  match s with
  | String "." _ | String "e" _ | String "E" _ => true
  | _ => false
  end.

Definition dquote : ascii := "034".

Definition unescape (c : ascii) : option ascii :=
  match c with
  | "034" => Some "034" | "\" => Some "\" | "/" => Some "/"
  | "b" => Some "008" | "f" => Some "012" | "n" => Some "010"
  | "r" => Some "013" | "t" => Some "009"
  | _ => None
  end%char.

(** The body of a string literal, after its opening quote: the decoded
    text and what follows the closing quote. *)
Fixpoint scan_string (s : string) : option (string * string) :=
  match s with
  | EmptyString => None
  | String c r =>
      if Ascii.eqb c dquote then Some (EmptyString, r)
      else if Ascii.eqb c "\" then
        match r with
        | String e r' =>
            match unescape e, scan_string r' with
            | Some u, Some (t, rest) => Some (String u t, rest)
            | _, _ => None
            end
        | EmptyString => None
        end
      else if (nat_of_ascii c <? 32)%nat then None
      else match scan_string r with
           | Some (t, rest) => Some (String c t, rest)
           | None => None
           end
  end.

(** One JSON value at the start of [s]; [depth] is the nesting the
    interpreter still allows. *)
Fixpoint parse_value (depth : nat) (s : string) {struct depth}
  : result (json * string) :=
  match s with
  | String "[" r =>
      match depth with
      | O => recursion_error
      | S depth' =>
          match skip_ws r with
          | String "]" r' => Ok (JArr [], r')
          | r0 =>
              (fix elems (n : nat) (acc : list json) (s : string) {struct n}
                 : result (json * string) :=
                 match n with
                 | O => decode_error
                 | S n' =>
                     match parse_value depth' s with
                     | Raise e => Raise e
                     | Ok (v, s1) =>
                         match skip_ws s1 with
                         | String "," s2 => elems n' (v :: acc) (skip_ws s2)
                         | String "]" s2 => Ok (JArr (rev (v :: acc)), s2)
                         | _ => decode_error
                         end
                     end
                 end) (String.length r0) [] r0
          end
      end
  | String "{" r =>
      match depth with
      | O => recursion_error
      | S depth' =>
          match skip_ws r with
          | String "}" r' => Ok (JObj ∅, r')
          | r0 =>
              (fix members (n : nat) (acc : gmap string json) (s : string)
                 {struct n} : result (json * string) :=
                 match n, s with
                 | S n', String "034" s0 =>
                     match scan_string s0 with
                     | None => decode_error
                     | Some (k, s1) =>
                         match skip_ws s1 with
                         | String ":" s2 =>
                             match parse_value depth' (skip_ws s2) with
                             | Raise e => Raise e
                             | Ok (v, s3) =>
                                 match skip_ws s3 with
                                 | String "," s4 =>
                                     members n' (<[k := v]> acc) (skip_ws s4)
                                 | String "}" s4 =>
                                     Ok (JObj (<[k := v]> acc), s4)
                                 | _ => decode_error
                                 end
                             end
                         | _ => decode_error
                         end
                     end
                 | _, _ => decode_error
                 end) (String.length r0) ∅ r0
          end
      end
  | String "034" r =>
      match scan_string r with
      | Some (t, rest) => Ok (JStr t, rest)
      | None => decode_error
      end
  | String "-" r =>
      match scan_int r with
      | Some (z, rest) =>
          if starts_fraction rest then decode_error else Ok (JNum (- z), rest)
      | None => decode_error
      end
  | _ =>
      if startswith "null" s then Ok (JNull, drop_chars 4 s)
      else if startswith "true" s then Ok (JBool true, drop_chars 4 s)
      else if startswith "false" s then Ok (JBool false, drop_chars 5 s)
      else match scan_int s with
           | Some (z, rest) =>
               if starts_fraction rest then decode_error else Ok (JNum z, rest)
           | None => decode_error
           end
  end.

(** [sys.getrecursionlimit()] by default. *)
Definition recursion_limit : nat := 1000.

Definition json_loads (s : string) : result json :=
  match parse_value recursion_limit (skip_ws s) with
  | Raise e => Raise e
  | Ok (v, rest) =>
      match skip_ws rest with
      | EmptyString => Ok v
      | _ => Raise (Exn JSONDecodeError "Extra data")
      end
  end.

(** *** [difflib.SequenceMatcher(None, a, b).ratio()] *)

Fixpoint common_prefix (a b : list ascii) : nat :=
  match a, b with
  | x :: a', y :: b' => if Ascii.eqb x y then S (common_prefix a' b') else O
  | _, _ => O
  end.

(** The longest block starting at the head of [a], over the suffixes of
    [b] from index [j] on; [best] is replaced by longer blocks only. *)
Fixpoint best_in_b (a b : list ascii) (i j : nat) (best : nat * nat * nat)
  : nat * nat * nat :=
  match b with
  | [] => best
  | _ :: b' =>
      let k := common_prefix a b in
      let best := if (snd best <? k)%nat then (i, j, k) else best in
      best_in_b a b' i (S j) best
  end.

Fixpoint best_in_a (a b : list ascii) (i : nat) (best : nat * nat * nat)
  : nat * nat * nat :=
  match a with
  | [] => best
  | _ :: a' => best_in_a a' b (S i) (best_in_b a b i 0 best)
  end.

(** [find_longest_match]: the longest common block, the earliest in [a]
    among the longest, the earliest in [b] among those. *)
Definition find_longest_match (a b : list ascii) : nat * nat * nat :=
  best_in_a a b 0 (0, 0, 0)%nat.

(** The sum of the sizes of [get_matching_blocks()]. *)
Fixpoint matches (fuel : nat) (a b : list ascii) : nat :=
  match fuel with
  | O => O
  | S fuel' =>
      let '(i, j, k) := find_longest_match a b in
      if (k =? 0)%nat then O
      else (matches fuel' (take i a) (take j b) + k
            + matches fuel' (drop (i + k) a) (drop (j + k) b))%nat
  end.

Definition ratio (a b : string) : Q :=
  let la := list_ascii_of_string a in
  let lb := list_ascii_of_string b in
  let len := (length la + length lb)%nat in
  if (len =? 0)%nat then 1%Q
  else (2 * Z.of_nat (matches (S (length la)) la lb) # Pos.of_nat len)%Q.

(** *** [datetime.fromisoformat] *)

Definition value_error {A} : result A :=
  Raise (Exn ValueError "Invalid isoformat string").

(** Exactly [n] digits at the start of [s]. *)
Fixpoint fixed_digits (n : nat) (acc : Z) (s : string) : option (Z * string) :=
  match n with
  | O => Some (acc, s)
  | S n' =>
      match s with
      | String c r =>
          match digit c with
          | Some d => fixed_digits n' (acc * 10 + d) r
          | None => None
          end
      | EmptyString => None
      end
  end.

Definition expect (c : ascii) (s : string) : option string :=
  match s with
  | String c' r => if Ascii.eqb c c' then Some r else None
  | EmptyString => None
  end.

Definition parse_date (s : string) : option (Z * Z * Z * string) :=
  '(y, s) ← fixed_digits 4 0 s;
  s ← expect "-" s;
  '(m, s) ← fixed_digits 2 0 s;
  s ← expect "-" s;
  '(d, s) ← fixed_digits 2 0 s;
  if ((1 <=? y) && (1 <=? m) && (m <=? 12) && (1 <=? d)
      && (d <=? _days_in_month y m))%Z
  then Some (y, m, d, s) else None.

Definition parse_time (s : string) : option (Z * Z * Z) :=
  '(h, s) ← fixed_digits 2 0 s;
  s ← expect ":" s;
  '(mi, s) ← fixed_digits 2 0 s;
  '(se, s) ← match s with
             | EmptyString => Some (0%Z, s)
             | _ => s ← expect ":" s; fixed_digits 2 0 s
             end;
  match s with
  | EmptyString =>
      if ((h <? 24) && (mi <? 60) && (se <? 60))%Z then Some (h, mi, se)
      else None
  | _ => None
  end.

Definition fromisoformat (s : string) : result datetime :=
  match parse_date s with
  | Some (y, m, d, EmptyString) => Ok (DateTime y m d 0 0 0 0 None)
  | Some (y, m, d, String _ rest) =>
      match parse_time rest with
      | Some (h, mi, se) => Ok (DateTime y m d h mi se 0 None)
      | None => value_error
      end
  | None => value_error
  end.

Definition lib : PyLib := Build_PyLib json_loads lower ratio fromisoformat.

(** JSON text is written below with ['] for the double quote. *)
Fixpoint qq (s : string) : string :=
  match s with
  | String c r => String (if Ascii.eqb c "'" then dquote else c) (qq r)
  | EmptyString => EmptyString
  end.

End CPython.

(* ===================================================================== *)
(** * Part VI.  Definitions used to state the properties                  *)
(* ===================================================================== *)

Module Spec.
Import ai_engine server gui_app.

(** ** Texts *)

(** [n] opening brackets: the text ['[' * n]. *)
Fixpoint brackets (n : nat) : string :=
  match n with
  | O => EmptyString
  | S n' => String "[" (brackets n')
  end.

(** A record as the model writes it, and one whose text holds a fence. *)
Definition record_plain : string :=
  CPython.qq "{'summary': 'ok', 'detected_date': null}".
Definition record_ticks : string :=
  CPython.qq "{'summary': 'use ``` here'}".

(** ** The sanitizer *)

(** The text the second pass of the sanitizer decodes, before trimming:
    the interior of the first fenced block, or the text itself. *)
Definition recovered (text : string) : result string :=
  if contains fence_json text then
    match index (split fence_json text) 1 with
    | Ok seg => index (split fence seg) 0
    | Raise e => Raise e
    end
  else if contains fence text then
    match index (split fence text) 1 with
    | Ok seg => index (split fence seg) 0
    | Raise e => Raise e
    end
  else Ok text.

(** ** The calendar *)

Definition valid_date (y m d : Z) : Prop :=
  (1 <= y <= 9999 /\ 1 <= m <= 12 /\ 1 <= d <= _days_in_month y m)%Z.

(** A [datetime] as Python constructs them. *)
Definition valid_datetime (t : datetime) : Prop :=
  valid_date (year t) (month t) (day t)
  /\ (0 <= hour t < 24 /\ 0 <= minute t < 60 /\ 0 <= second t < 60)%Z.

(** The day after, on the calendar. *)
Definition next_day (ymd : Z * Z * Z) : Z * Z * Z :=
  let '(y, m, d) := ymd in
  if (d <? _days_in_month y m)%Z then (y, m, (d + 1)%Z)
  else if (m <? 12)%Z then (y, (m + 1)%Z, 1%Z)
  else ((y + 1)%Z, 1%Z, 1%Z).

(** The month and day from the day of the year, as [_ord2ymd] ends. *)
Definition month_day (leapyear : bool) (n : Z) : Z * Z :=
  let m := Z.shiftr (n + 50) 5 in
  let preceding :=
    (_DAYS_BEFORE_MONTH m + (if (2 <? m)%Z && leapyear then 1 else 0))%Z in
  if (n <? preceding)%Z then
    let m := (m - 1)%Z in
    let preceding :=
      (preceding
       - (_DAYS_IN_MONTH m + (if (m =? 2)%Z && leapyear then 1 else 0)))%Z in
    (m, (n - preceding + 1)%Z)
  else (m, (n - preceding + 1)%Z).

(** [t] moved [k] days ahead on the calendar, the time of day kept. *)
Definition plus_days (t : datetime) (k : nat) : datetime :=
  let '(y, m, d) := Nat.iter k next_day (year t, month t, day t) in
  {| year := y; month := m; day := d;
     hour := hour t; minute := minute t; second := second t;
     microsecond := microsecond t; utcoffset := utcoffset t |}.

(** Seconds from midnight. *)
Definition seconds_of_day (t : datetime) : Z :=
  (hour t * 3600 + minute t * 60 + second t)%Z.

(** Seconds on the time line of [t]'s own zone. *)
Definition timestamp (t : datetime) : Z :=
  (toordinal t * 86400 + seconds_of_day t)%Z.

(** ** The grounding block, as the specification words it *)

(** The decimal digit [n], for [n] in 0..9. *)
Definition digit_char (n : Z) : ascii := ascii_of_nat (48 + Z.to_nat n).

Definition two_digits (n : Z) : string :=
  String (digit_char (n / 10)) (String (digit_char (n mod 10)) "").

Definition four_digits (n : Z) : string :=
  String (digit_char (n / 1000))
    (String (digit_char (n / 100 mod 10)) (two_digits (n mod 100))).

(** The date of [t] as [YYYY-MM-DD] and its time of day as [HH:MM]. *)
Definition iso_date (t : datetime) : string :=
  four_digits (year t) ++ "-" ++ two_digits (month t)
  ++ "-" ++ two_digits (day t).

Definition clock_time (t : datetime) : string :=
  two_digits (hour t) ++ ":" ++ two_digits (minute t).

(** A block of lines: each on a line of its own behind eight spaces,
    and a last line of eight spaces. *)
Definition margin : string := String "010" "        ".

Fixpoint lined (lines : list string) : string :=
  match lines with
  | [] => margin
  | l :: rest => margin ++ l ++ lined rest
  end.


(** ** Environments *)

(** A clock sample: Sunday 4 January 2026, 09:00. *)
Definition sample_2026_01_04 : datetime := DateTime 2026 1 4 9 0 0 0 None.

(** No Turkish locale, an unreachable model, a session that works. *)
Definition env0 : Env := {|
  setlocale_ok := fun _ => false;
  now := sample_2026_01_04;
  ollama_chat := fun _ => Raise (Exn RuntimeError "connection refused");
  session_enter := Ok tt;
  session_call_tool := fun _ _ => Ok [];
  session_exit := Ok tt |}.

(** ** The intent engines *)

(** The clock is at least seven days before the last representable day. *)
Definition clock_ok (env : Env) : Prop :=
  valid_datetime (now env) /\ (toordinal (now env) + 7 <= _MAXORDINAL)%Z.

(** The grounding block of [env]. *)
Definition grounding (env : Env) : string :=
  time_context_text (module_locale env) (now env)
    (plus_days (now env) 1) (plus_days (now env) 7).

(** The backend call on prompt [p] raises, or the sanitizer finds no
    record in the text it returns. *)
Inductive no_result `{PyLib} (env : Env) (p : prompt) : Prop :=
| backend_raises (e : exn) :
    ollama_chat env p = Raise e -> no_result env p
| sanitizer_fails (text : string) :
    ollama_chat env p = Ok text ->
    fst (_clean_and_parse_json text tt) = Ok JNull ->
    no_result env p.

(** The keys of the two result shapes. *)
Definition SummaryReply_keys : gset string :=
  {[ "summary"; "draft_reply"; "detected_date"; "meeting_title" ]}.
Definition ActionDecision_keys : gset string :=
  {[ "target_name"; "draft_text"; "extracted_date"; "meeting_title" ]}.

(** ** The contact resolver, as the specification words it *)

Record ContactRecord := { display_name : string; email : string }.

Definition NOT_FOUND : string := "BULUNAMADI".

(** The records of the data rows: a row needs both cells; the email is
    taken without the white space around it. *)
Definition records_of (rows : list (list string)) : list ContactRecord :=
  omap (fun row => match row with
                   | name :: email :: _ =>
                       Some {| display_name := name; email := strip email |}
                   | _ => None
                   end) rows.

Section TwoPass.
Context `{PyLib}.

(** Lower case, trimmed. *)
Definition normalize (s : string) : string := strip (lower s).

(** First pass: the first record whose name contains the query. *)
Definition first_containing (q : string) (records : list ContactRecord)
  : option ContactRecord :=
  List.find (fun r => contains q (normalize (display_name r))) records.

(** Second pass: a record of maximal similarity and its score; of two
    records with the same score the one seen first is kept. *)
Fixpoint most_similar (q : string) (records : list ContactRecord)
  : option (ContactRecord * Q) :=
  match records with
  | [] => None
  | r :: rest =>
      let s := SequenceMatcher_ratio q (normalize (display_name r)) in
      match most_similar q rest with
      | Some (r', s') => if Qltb s s' then Some (r', s') else Some (r, s)
      | None => Some (r, s)
      end
  end.

(** The two passes. *)
Definition find_reference (records : list ContactRecord) (name : string)
  : string :=
  let q := normalize name in
  match first_containing q records with
  | Some r => email r
  | None =>
      match most_similar q records with
      | Some (r, s) => if Qltb (6 # 10) s then email r else NOT_FOUND
      | None => NOT_FOUND
      end
  end.

(** The two passes with the test the code ends on: a best fuzzy match
    whose email is blank counts as no match. *)
Definition find_two_pass (records : list ContactRecord) (name : string)
  : string :=
  let q := normalize name in
  match first_containing q records with
  | Some r => email r
  | None =>
      match most_similar q records with
      | Some (r, s) =>
          if Qltb (6 # 10) s && negb (String.eqb (email r) "")
          then email r else NOT_FOUND
      | None => NOT_FOUND
      end
  end.

End TwoPass.

(** What the loop of [find_email] returns after its last row. *)
Definition finish (best_match : option string) : string :=
  if nonempty best_match then default "" best_match else NOT_FOUND.

(** ** Sheets *)

(** A Google account whose contact sheet holds [rows]. *)
Definition google_with_rows (rows : list (list string)) : Google := {|
  drive_files_list := Ok [ {| file_id := "sheet-1";
                              file_name := "Specter_Contact_List" |} ];
  drive_files_create := Raise (Exn RuntimeError "quota");
  sheets_values_update := fun _ => Ok tt;
  sheets_values_get := fun _ => Ok rows;
  calendar_events_insert := fun _ => Ok tt |}.

Definition header : list string := ["İsim Soyisim"; "E-Posta Adresi"].

(** Ten contacts, as in the example of the specification. *)
Definition ten_contacts : list (list string) :=
  [ header;
    ["Ayşe Yılmaz"; "ayse@x.com"]; ["Mehmet Demir"; "mehmet@x.com"];
    ["Engin Vardar"; "engin@x.com"]; ["Zeynep Kaya"; "zeynep@x.com"];
    ["Ali Can"; "ali@x.com"]; ["Fatma Şahin"; "fatma@x.com"];
    ["Burak Aydın"; "burak@x.com"]; ["Selin Koç"; "selin@x.com"];
    ["Deniz Arslan"; "deniz@x.com"]; ["Hakan Polat"; "hakan@x.com"] ].

(** A sheet whose only contact has a blank email cell. *)
Definition blank_email_sheet : list (list string) :=
  [ header; ["Engin Vardar"; " "] ].

Definition fresh_manager : ContactManager := {| _cached_sheet_id := None |}.

(** ** The calendar manager *)

(** [s] without one trailing ["Z"]: [s[:-1] if s.endswith("Z") else s]. *)
Fixpoint strip_trailing_Z (s : string) : string :=
  match s with
  | String "Z" EmptyString => EmptyString
  | String c r => String c (strip_trailing_Z r)
  | EmptyString => EmptyString
  end.

(** The event [schedule] sends for a start and an end. *)
Definition meeting (summary : string) (start_dt end_dt : datetime)
  : calendar_event :=
  {| ev_summary := summary;
     ev_start := isoformat start_dt;
     ev_end := isoformat end_dt;
     ev_timeZone := "Europe/Istanbul" |}.

(** ** The task router *)

(** The four task kinds. *)
Definition task_kinds : list string :=
  ["analyze_last_mail"; "process_command"; "send_reply"; "add_calendar"].

(** The result [Worker.run] delivers for an exception. *)
Definition error_result (e : exn) : gmap string json :=
  {[ "status" := JStr "error"; "msg" := JStr (exc_str e) ]}.

(** The result [Worker.run] delivers for an outcome of [_run_async]. *)
Definition delivered (r : result json) : gmap string json :=
  match r with
  | Ok (JObj d) => d
  | Ok _ => error_result (Exn TypeError "argument 1 has unexpected type")
  | Raise e => error_result e
  end.

(** A computation that only appends to the trace, with a result that
    does not depend on the trace it starts from. *)
Definition logs {A} (m : M (list event) A) : Prop :=
  forall tr, m tr = (fst (m []), (tr ++ snd (m []))%list).

(** A computation that delivers nothing to the [finished] signal. *)
Definition silent {A} (m : M (list event) A) : Prop :=
  emitted (snd (m [])) = [].

(** Both: what every step of [_run_async] is. *)
Definition quiet {A} (m : M (list event) A) : Prop := logs m /\ silent m.

(** The result and the events of a computation started on the empty
    trace. *)
Definition value {A} (m : M (list event) A) : result A := fst (m []).
Definition trace {A} (m : M (list event) A) : list event := snd (m []).

Section Outcomes.
Context `{PyLib} (env : Env).

(** What the two engine operations return, whatever the trace. *)
Definition summarized (raw_mail : string) : result json :=
  value (generate_summary_and_reply env raw_mail).
Definition decided (cmd : json) : result json :=
  value (decide_action env cmd).

(** What [_run_async] returns, and the events it adds. *)
Definition outcome (task : string) (payload : gmap string json)
  : result json :=
  value (_run_async env task payload).
Definition events_of (task : string) (payload : gmap string json)
  : list event :=
  trace (_run_async env task payload).

(** [ai] is the record the intent engine returns in a run of [task]:
    for the latest mail in [analyze_last_mail], for the command of the
    payload in [process_command]; the other tasks do not call it. *)
Definition engine_record (task : string) (payload ai : gmap string json)
  : Prop :=
  (task = "analyze_last_mail"
   /\ exists raw_mail rest,
        session_call_tool env "get_latest_email" ∅ = Ok (raw_mail :: rest)
        /\ summarized raw_mail = Ok (JObj ai))
  \/ (task = "process_command"
      /\ decided (dict_get payload "command") = Ok (JObj ai)).

End Outcomes.

(** The fields the router sets before merging the engine's record. *)
Definition analysis_fields (raw_mail : string) : gmap string json :=
  {[ "status" := JStr "success";
     "raw_mail" := JStr raw_mail;
     "sender" := match search_sender raw_mail with
                 | Some a => JStr a
                 | None => JNull
                 end ]}.

Definition command_fields (found_email : json) : gmap string json :=
  {[ "status" := JStr "command_processed"; "found_email" := found_email ]}.

(** What the router keeps of the resolver's reply. *)
Definition accepted (reply : string) : json :=
  if contains "@" reply then JStr reply else JNull.

(** The resolver step of [process_command] for a decided name: the
    router's [found_email], or the exception of the call. *)
Definition resolved (env : Env) (target_name : json) : result json :=
  if truthy target_name then
    match session_call_tool env "find_email_by_name"
            {[ "name" := target_name ]} with
    | Raise e => Raise e
    | Ok content =>
        match index content 0 with
        | Raise e => Raise e
        | Ok reply => Ok (accepted reply)
        end
    end
  else Ok JNull.

(** ** More environments *)

(** The latest mail as [get_latest_email] formats it. *)
Definition mail_text : string :=
  "From: Engin Vardar <engin@x.com>" ++ nl ++ "SenderEmail: engin@x.com" ++ nl
  ++ "Subject: Toplantı" ++ nl ++ "Content: Yarın 10:00 uygun mu?".

(** The tool server of the examples: the mail above and a resolver that
    knows nobody. *)
Definition tools (name : string) (arguments : gmap string json)
  : result (list string) :=
  if String.eqb name "get_latest_email" then Ok [mail_text]
  else if String.eqb name "find_email_by_name" then Ok ["BULUNAMADI"]
  else Ok ["ok"].

(** An environment whose model answers with [text]. *)
Definition env_answering (text : string) : Env := {|
  setlocale_ok := fun _ => false;
  now := sample_2026_01_04;
  ollama_chat := fun _ => Ok text;
  session_enter := Ok tt;
  session_call_tool := tools;
  session_exit := Ok tt |}.

(** A model answer that names the router's own keys. *)
Definition answer_with_status : string :=
  CPython.qq "{'summary': 'ok', 'status': 'error', 'sender': 'x@evil.com'}".
Definition record_with_status : gmap string json :=
  {[ "summary" := JStr "ok"; "status" := JStr "error";
     "sender" := JStr "x@evil.com" ]}.
Definition answer_with_found_email : string :=
  CPython.qq
    "{'target_name': 'Ali', 'found_email': 'ali@evil.com', 'status': 'error'}".
Definition answer_plain : string :=
  CPython.qq "{'target_name': 'Ali', 'draft_text': 'Merhaba'}".

(** The gateway process ends before the session is up; the exception
    carries no text. *)
Definition env_closed : Env := {|
  setlocale_ok := fun _ => false;
  now := sample_2026_01_04;
  ollama_chat := fun _ => Ok "{}";
  session_enter := Raise (Exn RuntimeError "");
  session_call_tool := tools;
  session_exit := Ok tt |}.

(** ** The mail manager, the session and the window *)

(** The text before the first occurrence of [sep], or all of [s]:
    [s.split(sep)[0]]. *)
Definition before (sep s : string) : string :=
  match partition sep s with
  | Some (a, _) => a
  | None => s
  end.

(** Every character is of the class [[\w\.-]]. *)
Fixpoint all_addr_chars (s : string) : bool :=
  match s with
  | String c r => is_addr_char c && all_addr_chars r
  | EmptyString => true
  end.

(** A non-empty text of class characters. *)
Definition addr_part (s : string) : bool :=
  negb (String.eqb s "") && all_addr_chars s.

(** The address [get_latest] writes on the [SenderEmail] line. *)
Definition sender_address (sender : string) : string :=
  match partition "<" sender with
  | Some (_, b) => before ">" (before "<" b)
  | None => sender
  end.

(** [to.split("<")[1]]: what follows the first ["<"], up to the next. *)
Definition sender_tail (to : string) : string :=
  match partition "<" to with
  | Some (_, b) => before "<" b
  | None => to
  end.

(** The text [get_latest] returns for a message. *)
Definition latest_text (msg : gmail_message) : string :=
  let sender := first_header "From" "(Bilinmiyor)" (payload_headers msg) in
  "From: " ++ sender ++ newline
  ++ "SenderEmail: " ++ sender_address sender ++ newline
  ++ "Subject: " ++ first_header "Subject" "(Yok)" (payload_headers msg)
  ++ newline
  ++ "Content: " ++ default "" (snippet msg).

(** A Google account none of whose services answers. *)
Definition google_down : Google := {|
  drive_files_list := Raise (Exn RuntimeError "unreachable");
  drive_files_create := Raise (Exn RuntimeError "unreachable");
  sheets_values_update := fun _ => Raise (Exn RuntimeError "unreachable");
  sheets_values_get := fun _ => Raise (Exn RuntimeError "unreachable");
  calendar_events_insert := fun _ => Raise (Exn RuntimeError "unreachable") |}.

(** An inbox whose latest message has the given [From] header. *)
Definition inbox_from (sender : string) : Gmail := {|
  messages_list := Ok ["m1"];
  messages_get := fun _ =>
    Ok {| payload_headers :=
            [ {| header_name := "Subject"; header_value := "Toplantı" |};
              {| header_name := "From"; header_value := sender |} ];
          snippet := Some "Yarın 10:00 uygun mu?" |};
  messages_send := fun _ => Ok tt |}.

(** An encoder standing in for MIME and base64 in the examples: the
    three fields, one per line. *)
Definition lines_encoder : PyEmail := {|
  urlsafe_b64 := fun m =>
    Ok (mime_to m ++ newline ++ mime_subject m ++ newline ++ mime_content m) |}.

(** The session events of a trace. *)
Definition is_session_event (e : event) : bool :=
  match e with
  | EvSessionEnter | EvSessionExit => true
  | _ => false
  end.

Definition session_events (tr : list event) : list event :=
  List.filter is_session_event tr.

(** A computation that only adds model requests and tool calls to the
    trace. *)
Definition calm {A} (m : M (list event) A) : Prop :=
  logs m /\ session_events (snd (m [])) = [].

(** A tool server that refuses every request with an error text. *)
Definition env_refusing : Env := {|
  setlocale_ok := fun _ => false;
  now := sample_2026_01_04;
  ollama_chat := fun _ => Ok "{}";
  session_enter := Ok tt;
  session_call_tool := fun _ _ => Ok ["Hata: quota exceeded"];
  session_exit := Ok tt |}.

(** A clock in the last week of the year 9999. *)
Definition env_late : Env := {|
  setlocale_ok := fun _ => false;
  now := DateTime 9999 12 28 9 0 0 0 None;
  ollama_chat := fun _ => Ok "{}";
  session_enter := Ok tt;
  session_call_tool := tools;
  session_exit := Ok tt |}.

(** A contact sheet that cannot be read; the text of the exception
    names an account. *)
Definition google_denied : Google := {|
  drive_files_list := Ok [ {| file_id := "sheet-1";
                              file_name := "Specter_Contact_List" |} ];
  drive_files_create := Raise (Exn RuntimeError "quota");
  sheets_values_update := fun _ => Ok tt;
  sheets_values_get := fun _ =>
    Raise (Exn RuntimeError "access denied for bot@x.iam.example.com");
  calendar_events_insert := fun _ => Ok tt |}.

(** The gateway in front of [google_denied]: the resolver tool answers
    with the text [find_email] returns. *)
Definition env_denied `{PyLib} (text : string) : Env := {|
  setlocale_ok := fun _ => false;
  now := sample_2026_01_04;
  ollama_chat := fun _ => Ok text;
  session_enter := Ok tt;
  session_call_tool := fun name arguments =>
    match arguments !! "name" with
    | Some (JStr n) =>
        match fst (find_email google_denied n fresh_manager) with
        | Ok answer => Ok [answer]
        | Raise e => Raise e
        end
    | _ => Ok []
    end;
  session_exit := Ok tt |}.

(** Every character is in the ASCII range. *)
Fixpoint is_ascii_text (s : string) : bool :=
  match s with
  | String c r => (nat_of_ascii c <? 128)%nat && is_ascii_text r
  | EmptyString => true
  end.

(** A mail in ASCII, as [get_latest_email] formats it. *)
Definition mail_text_ascii : string :=
  "From: Engin Vardar <engin@x.com>" ++ nl ++ "SenderEmail: engin@x.com" ++ nl
  ++ "Subject: Meeting" ++ nl ++ "Content: Is 10:00 fine?".

(** The window library of the examples: text is shown as typed; the
    examples print no float, list or dict. *)
Definition plain_gui : GuiLib := {|
  py_repr := fun _ => "";
  toPlainText := fun s => s |}.

(** A result of [analyze_last_mail] as the router builds it. *)
Definition analysis_result : gmap string json :=
  {[ "status" := JStr "success";
     "raw_mail" := JStr mail_text;
     "sender" := JStr "engin@x.com";
     "summary" := JStr "Toplantı isteği";
     "draft_reply" := JStr "Uygun.";
     "detected_date" := JStr "2026-01-05T10:00:00";
     "meeting_title" := JStr "Toplantı: Engin" ]}.

(** A result of [process_command] with an address and a date. *)
Definition command_result : gmap string json :=
  {[ "status" := JStr "command_processed";
     "found_email" := JStr "ali@x.com";
     "target_name" := JStr "Ali";
     "draft_text" := JStr "Merhaba";
     "extracted_date" := JStr "2026-01-05T09:00:00";
     "meeting_title" := JStr "Toplantı: Ali" ]}.

(** The calendar card is shown only with a date to schedule, and every
    [add_calendar] worker was given one. *)
Definition dated (w : AI_Mail_Assistant) : Prop :=
  (card_calendar_visible w = true -> truthy (detected_date w) = true)
  /\ Forall (fun wk => worker_task wk = "add_calendar" ->
                       truthy (dict_get (worker_payload wk) "iso_datetime")
                       = true)
       (workers w).

(** [s] without the character [c]. *)
Fixpoint remove_char (c : ascii) (s : string) : string :=
  match s with
  | String x r => if Ascii.eqb c x then remove_char c r
                  else String x (remove_char c r)
  | EmptyString => EmptyString
  end.

End Spec.
Import Spec.

(* ===================================================================== *)
(** * Part VII.  Properties                                               *)
(* ===================================================================== *)

Import ai_engine server gui_app.

(** ** Strings *)
Section StringFacts.

Lemma string_app_assoc (a b c : string) : (a ++ b) ++ c = a ++ b ++ c.
Proof.
  induction a as [|x a IH]; [reflexivity|].
  change ((String x a ++ b) ++ c) with (String x ((a ++ b) ++ c)).
  change (String x a ++ b ++ c) with (String x (a ++ b ++ c)).
  now rewrite IH.
Qed.

Lemma startswith_app p q s :
  startswith (p ++ q) s = true -> startswith p s = true.
Proof.
  revert s. induction p as [|a p IH]; intros s; [reflexivity|].
  change (String a p ++ q) with (String a (p ++ q)).
  destruct s as [|b s]; cbn [startswith]; [discriminate|].
  intros [Hab Hs]%andb_prop. rewrite Hab. exact (IH _ Hs).
Qed.

Lemma startswith_fence_json_fence s :
  startswith fence_json s = true -> startswith fence s = true.
Proof. apply (startswith_app fence "json"). Qed.

(** A line feed after [s] cannot complete a fence that [s] only starts. *)
Lemma startswith_fence_app_nl s t :
  startswith fence s = false ->
  startswith fence (s ++ String "010" t) = false.
Proof.
  unfold fence.
  destruct s as [|c1 [|c2 [|c3 s]]]; simpl; intros Hs;
    repeat (destruct (Ascii.eqb _ "`"); simpl in *; try discriminate);
    auto.
Qed.

Lemma contains_false_inv sub c s :
  contains sub (String c s) = false ->
  startswith sub (String c s) = false /\ contains sub s = false.
Proof. cbn [contains]. intros Hc. now apply orb_false_elim in Hc. Qed.

Lemma partition_fence_closing s :
  contains fence s = false ->
  partition fence (s ++ nl ++ fence) = Some (s ++ nl, "").
Proof.
  induction s as [|c s IH]; intros Hs.
  - reflexivity.
  - apply contains_false_inv in Hs as [Hhd Htl].
    change ((String c s ++ nl ++ fence)) with (String c (s ++ nl ++ fence)).
    cbn [partition].
    change (String c (s ++ nl ++ fence))
      with (String c s ++ String "010" fence).
    rewrite (startswith_fence_app_nl _ _ Hhd).
    change (s ++ String "010" fence) with (s ++ nl ++ fence).
    now rewrite (IH Htl).
Qed.

Lemma contains_fence_json_closing s :
  contains fence s = false ->
  contains fence_json (s ++ nl ++ fence) = false.
Proof.
  induction s as [|c s IH]; intros Hs.
  - reflexivity.
  - apply contains_false_inv in Hs as [Hhd Htl].
    change ((String c s ++ nl ++ fence)) with (String c (s ++ nl ++ fence)).
    cbn [contains]. rewrite (IH Htl), orb_false_r.
    destruct (startswith fence_json (String c (s ++ nl ++ fence))) eqn:E;
      [|reflexivity].
    apply startswith_fence_json_fence in E.
    change (String c (s ++ nl ++ fence))
      with (String c s ++ String "010" fence) in E.
    now rewrite (startswith_fence_app_nl _ _ Hhd) in E.
Qed.

Lemma partition_none sep s : contains sep s = false -> partition sep s = None.
Proof.
  induction s as [|c s IH]; intros Hs.
  - cbn in *. now rewrite orb_false_r in Hs; rewrite Hs.
  - apply contains_false_inv in Hs as [Hhd Htl].
    cbn [partition]. now rewrite Hhd, (IH Htl).
Qed.

Lemma contains_app_nl_fence s :
  contains fence s = false -> contains fence (s ++ nl) = false.
Proof.
  induction s as [|c s IH]; intros Hs.
  - reflexivity.
  - apply contains_false_inv in Hs as [Hhd Htl].
    change (String c s ++ nl) with (String c (s ++ nl)).
    cbn [contains]. rewrite (IH Htl), orb_false_r.
    change (String c (s ++ nl)) with (String c s ++ String "010" "").
    now apply startswith_fence_app_nl.
Qed.

Lemma split_fuel_none n sep s :
  partition sep s = None -> split_fuel n sep s = [s].
Proof. intros Hp. destruct n; simpl; now rewrite Hp. Qed.

Lemma split_fuel_first n sep s a b :
  partition sep s = Some (a, b) -> index (split_fuel n sep s) 0 = Ok a.
Proof. intros Hp. destruct n; simpl; now rewrite Hp. Qed.

Lemma split_fuel_second_last n sep s a b :
  partition sep s = Some (a, b) -> partition sep b = None ->
  index (split_fuel n sep s) 1 = Ok b.
Proof.
  intros Hp Hb. destruct n; simpl; rewrite Hp; [reflexivity|].
  now rewrite (split_fuel_none _ _ _ Hb).
Qed.

Lemma split_fuel_second n sep s a b c d :
  partition sep s = Some (a, b) -> partition sep b = Some (c, d) ->
  index (split_fuel (S n) sep s) 1 = Ok c.
Proof.
  intros Hp Hb. simpl. rewrite Hp.
  destruct n; simpl; now rewrite Hb.
Qed.

(** *** [strip] *)

Lemma rstrip_app_nl s : rstrip (s ++ nl) = rstrip s.
Proof.
  induction s as [|c s IH]; [reflexivity|].
  change (String c s ++ nl) with (String c (s ++ nl)).
  cbn [rstrip]. now rewrite IH.
Qed.

Lemma strip_app_nl s : strip (s ++ nl) = strip s.
Proof.
  unfold strip. induction s as [|c s IH]; [reflexivity|].
  change (String c s ++ nl) with (String c (s ++ nl)).
  cbn [lstrip]. destruct (is_space c); [exact IH|].
  change (String c (s ++ nl)) with (String c s ++ nl).
  apply rstrip_app_nl.
Qed.

Lemma strip_nl_app_nl s : strip (nl ++ s ++ nl) = strip s.
Proof. change (nl ++ s ++ nl) with (String "010" (s ++ nl)).
  unfold strip at 1. cbn [lstrip]. change (is_space "010") with true. cbn iota.
  apply strip_app_nl. Qed.

(** *** [split] is the inverse of [join], and its fuel suffices *)

Lemma length_app (a b : string) :
  String.length (a ++ b) = (String.length a + String.length b)%nat.
Proof.
  induction a as [|c a IH]; [reflexivity|].
  change (String c a ++ b) with (String c (a ++ b)).
  cbn [String.length]. now rewrite IH.
Qed.

Lemma startswith_drop (p s : string) :
  startswith p s = true -> s = p ++ drop_chars (String.length p) s.
Proof.
  revert s. induction p as [|a p IH]; intros [|b s]; cbn; try discriminate;
    try reflexivity.
  intros [Hab Hp]%andb_prop. apply Ascii.eqb_eq in Hab as ->.
  change (String b p ++ drop_chars (String.length p) s)
    with (String b (p ++ drop_chars (String.length p) s)).
  now rewrite <- (IH s Hp).
Qed.

(** [partition] cuts [s] around an occurrence of the separator. *)
Lemma partition_Some (sep s a b : string) :
  partition sep s = Some (a, b) -> s = a ++ sep ++ b.
Proof.
  revert a b. induction s as [|c s IH]; intros a b; cbn [partition].
  - destruct (startswith sep "") eqn:E; [|discriminate].
    intros [= <- <-]. now apply startswith_drop.
  - destruct (startswith sep (String c s)) eqn:E.
    + intros [= <- <-]. now apply startswith_drop.
    + destruct (partition sep s) as [[a' b']|]; [|discriminate].
      intros [= <- <-]. rewrite (IH a' b' eq_refl) at 1. reflexivity.
Qed.

Lemma partition_shorter (sep s a b : string) :
  sep <> "" -> partition sep s = Some (a, b) ->
  (String.length b < String.length s)%nat.
Proof.
  intros Hsep Hp. apply partition_Some in Hp. subst s.
  rewrite !length_app. destruct sep; [congruence|]. cbn [String.length]. lia.
Qed.

(** More fuel than the length of the text changes nothing. *)
Lemma split_fuel_enough (sep : string) (n m : nat) (s : string) :
  sep <> "" -> (String.length s <= n)%nat -> (String.length s <= m)%nat ->
  split_fuel n sep s = split_fuel m sep s.
Proof.
  intros Hsep. revert m s. induction n as [|n IH]; intros m s Hn Hm.
  - destruct m; [reflexivity|]. cbn [split_fuel].
    destruct (partition sep s) as [[a b]|] eqn:Hp; [|reflexivity].
    pose proof (partition_shorter _ _ _ _ Hsep Hp). lia.
  - cbn [split_fuel].
    destruct (partition sep s) as [[a b]|] eqn:Hp;
      [|now destruct m; cbn [split_fuel]; rewrite Hp].
    pose proof (partition_shorter _ _ _ _ Hsep Hp).
    destruct m; [lia|]. cbn [split_fuel]. rewrite Hp.
    f_equal. apply IH; lia.
Qed.

(** [sep.join(s.split(sep)) == s] *)
Lemma join_split (sep s : string) : sep <> "" -> join sep (split sep s) = s.
Proof.
  intros Hsep. unfold split.
  remember (String.length s) as n eqn:Hn.
  assert (Hle : (String.length s <= n)%nat) by lia. clear Hn.
  revert s Hle. induction n as [|n IH]; intros s Hle; cbn [split_fuel].
  - destruct (partition sep s) as [[a b]|] eqn:Hp; [|reflexivity].
    pose proof (partition_shorter _ _ _ _ Hsep Hp). lia.
  - destruct (partition sep s) as [[a b]|] eqn:Hp; [|reflexivity].
    pose proof (partition_shorter _ _ _ _ Hsep Hp) as Hlt.
    specialize (IH b ltac:(lia)).
    apply partition_Some in Hp. subst s.
    destruct (split_fuel n sep b) as [|p ps] eqn:Hsp.
    + destruct n; cbn [split_fuel] in Hsp;
        destruct (partition sep b) as [[? ?]|]; discriminate.
    + cbn [join]. cbn [join] in IH. now rewrite IH.
Qed.

End StringFacts.

(** ** The response sanitizer *)

(** The interior of a fenced block, as the second pass cuts it out. *)
Lemma recovered_fenced_json (text : string) :
  contains fence text = false ->
  recovered (fence_json ++ nl ++ text ++ nl ++ fence) = Ok (nl ++ text ++ nl).
Proof.
  intros Hf. unfold recovered.
  assert (Hin : contains fence_json (fence_json ++ nl ++ text ++ nl ++ fence)
                = true) by reflexivity.
  rewrite Hin.
  assert (H1 : index (split fence_json
                        (fence_json ++ nl ++ text ++ nl ++ fence)) 1
               = Ok (nl ++ text ++ nl ++ fence)).
  { unfold split. apply (split_fuel_second_last _ _ _ ""); [reflexivity|].
    apply partition_none.
    change (nl ++ text ++ nl ++ fence)
      with (String "010" (text ++ nl ++ fence)).
    cbn [contains]. rewrite (contains_fence_json_closing _ Hf).
    reflexivity. }
  rewrite H1.
  unfold split. apply (split_fuel_first _ _ _ _ "").
  change (nl ++ text ++ nl ++ fence)
    with (String "010" (text ++ nl ++ fence)).
  cbn [partition]. change (startswith fence (String "010" _)) with false.
  cbn iota. now rewrite (partition_fence_closing _ Hf).
Qed.

Lemma recovered_fenced_plain (text : string) :
  contains fence text = false ->
  recovered (fence ++ nl ++ text ++ nl ++ fence) = Ok (nl ++ text ++ nl).
Proof.
  intros Hf. unfold recovered.
  assert (Hbody : contains fence (text ++ nl) = false)
    by now apply contains_app_nl_fence.
  assert (Hnj : contains fence_json (fence ++ nl ++ text ++ nl ++ fence)
                = false).
  { change (fence ++ nl ++ text ++ nl ++ fence)
      with (String "`" (String "`" (String "`"
              (String "010" (text ++ nl ++ fence))))).
    cbn [contains startswith Ascii.eqb Bool.eqb andb orb fence_json].
    now rewrite (contains_fence_json_closing _ Hf). }
  rewrite Hnj.
  assert (Hin : contains fence (fence ++ nl ++ text ++ nl ++ fence) = true)
    by reflexivity.
  rewrite Hin.
  assert (H1 : index (split fence (fence ++ nl ++ text ++ nl ++ fence)) 1
               = Ok (nl ++ text ++ nl)).
  { unfold split.
    change (String.length (fence ++ nl ++ text ++ nl ++ fence))
      with (S (String.length
                 (String "`" (String "`" (nl ++ text ++ nl ++ fence))))).
    apply (split_fuel_second _ _ _ "" (nl ++ text ++ nl ++ fence) _ "");
      [reflexivity|].
    change (nl ++ text ++ nl ++ fence)
      with (String "010" (text ++ nl ++ fence)).
    cbn [partition]. change (startswith fence (String "010" _)) with false.
    cbn iota. now rewrite (partition_fence_closing _ Hf). }
  rewrite H1.
  unfold split. rewrite split_fuel_none; [reflexivity|].
  apply partition_none.
  change (nl ++ text ++ nl) with (String "010" (text ++ nl)).
  cbn [contains]. now rewrite Hbody.
Qed.

Section SanitizerFacts.
Context `{PyLib} {St : Type}.

(** Unfolding of the monad operations on a state. *)
Ltac run_monad :=
  unfold _clean_and_parse_json, try_except, lift, mbind, mret, M_bind, M_ret,
    bind, ret, raise, Exception in *.

(** Valid structured data is returned as decoded. *)
Lemma parse_valid (text : string) (j : json) (s : St) :
  json_loads text = Ok j -> _clean_and_parse_json text s = (Ok j, s).
Proof. intros Hj. run_monad. now rewrite Hj. Qed.

(** An exception of the first decoding that is not a [JSONDecodeError]
    leaves the sanitizer. *)
Lemma parse_propagates (text : string) (e : exn) (s : St) :
  json_loads text = Raise e -> is_JSONDecodeError e = false ->
  _clean_and_parse_json text s = (Raise e, s).
Proof. intros He Hc. run_monad. now rewrite He, Hc. Qed.

(** After a [JSONDecodeError] the sanitizer returns what the second pass
    decodes from the recovered text, and [None] if that pass fails. *)
Lemma parse_second_pass (text : string) (e : exn) (s : St) :
  json_loads text = Raise e -> is_JSONDecodeError e = true ->
  _clean_and_parse_json text s
  = (Ok match recovered text with
        | Ok text' =>
            match json_loads (strip text') with
            | Ok v => v
            | Raise _ => JNull
            end
        | Raise _ => JNull
        end, s).
Proof.
  intros He Hc. run_monad. rewrite He, Hc. unfold recovered.
  repeat match goal with
  | |- context [if ?b then _ else _] => destruct b
  | |- context [match index ?l ?i with _ => _ end] => destruct (index l i)
  | |- context [match json_loads ?t with _ => _ end] => destruct (json_loads t)
  end; reflexivity.
Qed.

(** Text that is no JSON and holds no fenced JSON gives [None]. *)
Lemma parse_no_result (text : string) (e : exn) (s : St) :
  json_loads text = Raise e -> is_JSONDecodeError e = true ->
  (forall text', recovered text = Ok text' ->
                 is_ok (json_loads (strip text')) = false) ->
  _clean_and_parse_json text s = (Ok JNull, s).
Proof.
  intros He Hc Hno. rewrite (parse_second_pass text e s He Hc).
  destruct (recovered text) as [text'|]; [|reflexivity].
  specialize (Hno text' eq_refl).
  now destruct (json_loads (strip text')).
Qed.

(** A fenced block, with the tag [json] or without. *)
Lemma parse_fenced (text : string) (tag : string) (e : exn) (s : St) :
  tag = fence_json \/ tag = fence ->
  contains fence text = false ->
  json_loads (tag ++ nl ++ text ++ nl ++ fence) = Raise e ->
  is_JSONDecodeError e = true ->
  _clean_and_parse_json (tag ++ nl ++ text ++ nl ++ fence) s
  = (Ok match json_loads (strip text) with
        | Ok v => v
        | Raise _ => JNull
        end, s).
Proof.
  intros Htag Hf He Hc. rewrite (parse_second_pass _ e s He Hc).
  destruct Htag as [-> | ->].
  - now rewrite (recovered_fenced_json text Hf), strip_nl_app_nl.
  - now rewrite (recovered_fenced_plain text Hf), strip_nl_app_nl.
Qed.

End SanitizerFacts.

(** The reference decoder rejects a text that starts with a backtick. *)
Lemma cpython_loads_backtick (rest : string) :
  CPython.json_loads (String "`" rest)
  = Raise (Exn JSONDecodeError "Expecting value").
Proof. reflexivity. Qed.

(** C4, as amended.  A text that [json.loads] decodes to [j] is parsed
    to [j].  If moreover the text holds no triple backtick, then the text
    inside a fenced block, tagged [json] or not, is parsed to [j] as
    well; here [json.loads] is taken to reject a text that starts with a
    backtick and to decode the trimmed text to [j], as JSON decoding
    does. *)
Theorem parse_roundtrip `{PyLib} (text : string) (j : json) :
  json_loads text = Ok j ->
  _clean_and_parse_json text tt = (Ok j, tt)
  /\ (contains fence text = false ->
      json_loads (strip text) = Ok j ->
      (forall rest, exists e, json_loads (String "`" rest) = Raise e
                              /\ is_JSONDecodeError e = true) ->
      _clean_and_parse_json (fence_json ++ nl ++ text ++ nl ++ fence) tt
      = (Ok j, tt)
      /\ _clean_and_parse_json (fence ++ nl ++ text ++ nl ++ fence) tt
         = (Ok j, tt)).
Proof.
  intros Hj. split; [now apply parse_valid|]. intros Hf Hs Hb. split.
  - destruct (Hb (String "`" (String "`" ("json" ++ nl ++ text ++ nl ++ fence))))
      as (e & He & Hc).
    rewrite (parse_fenced text fence_json e tt (or_introl eq_refl) Hf He Hc).
    now rewrite Hs.
  - destruct (Hb (String "`" (String "`" (nl ++ text ++ nl ++ fence))))
      as (e & He & Hc).
    rewrite (parse_fenced text fence e tt (or_intror eq_refl) Hf He Hc).
    now rewrite Hs.
Qed.

Lemma parse_roundtrip_witness :
  exists j,
    CPython.json_loads record_plain = Ok j
    /\ @_clean_and_parse_json CPython.lib unit record_plain tt = (Ok j, tt)
    /\ @_clean_and_parse_json CPython.lib unit
         (fence_json ++ nl ++ record_plain ++ nl ++ fence) tt = (Ok j, tt)
    /\ @_clean_and_parse_json CPython.lib unit
         (fence ++ nl ++ record_plain ++ nl ++ fence) tt = (Ok j, tt).
Proof.
  eexists. split; [vm_compute; reflexivity|].
  destruct (@parse_roundtrip CPython.lib record_plain _
              ltac:(vm_compute; reflexivity)) as [Hplain Hfenced].
  split; [exact Hplain|]. apply Hfenced.
  - vm_compute; reflexivity.
  - vm_compute; reflexivity.
  - intros rest. eexists. split; [apply cpython_loads_backtick | reflexivity].
Defined.

(** A record whose text holds a triple backtick inside a string: the
    record is valid JSON, and its fenced form is parsed to [None]. *)
Lemma fenced_backticks_not_recovered :
  exists j : json,
    CPython.json_loads record_ticks = Ok j
    /\ j <> JNull
    /\ @_clean_and_parse_json CPython.lib unit
         (fence_json ++ nl ++ record_ticks ++ nl ++ fence) tt = (Ok JNull, tt).
Proof.
  eexists. split; [vm_compute; reflexivity|]. split; [discriminate|].
  vm_compute; reflexivity.
Qed.

(** ** The reference decoder and deep nesting *)

Lemma parse_value_too_deep (limit n : nat) :
  (limit < n)%nat ->
  CPython.parse_value limit (brackets n) = CPython.recursion_error.
Proof.
  revert n. induction limit as [|limit IH]; intros n Hn.
  - destruct n as [|n]; [lia|]. reflexivity.
  - destruct n as [|[|n]]; [lia | lia |].
    specialize (IH (S n) ltac:(lia)).
    change (brackets (S (S n)))
      with (String "[" (brackets (S n))).
    cbn [CPython.parse_value].
    change (CPython.skip_ws (brackets (S n)))
      with (brackets (S n)).
    change (brackets (S n)) with (String "[" (brackets n)) at 1.
    cbv iota beta.
    change (String "[" (brackets n)) with (brackets (S n)).
    change (String.length (brackets (S n)))
      with (S (String.length (brackets n))).
    cbv iota beta. now rewrite IH.
Qed.

(** Nesting beyond the recursion limit: [RecursionError]. *)
Lemma loads_too_deep (n : nat) :
  (CPython.recursion_limit < n)%nat ->
  CPython.json_loads (brackets n) = CPython.recursion_error.
Proof.
  intros Hn. unfold CPython.json_loads.
  destruct n as [|n]; [lia|].
  change (CPython.skip_ws (brackets (S n)))
    with (brackets (S n)).
  now rewrite parse_value_too_deep.
Qed.

(** C5.  The sanitizer on the text ['[' * 100000]: the first decoding
    raises [RecursionError], which the handler for [JSONDecodeError]
    does not catch, and the exception leaves the sanitizer.  (After a
    [JSONDecodeError] the sanitizer does return, [parse_second_pass],
    and returns [None] when nothing can be recovered,
    [parse_no_result].) *)
Theorem parse_raises_on_deep_nesting :
  @_clean_and_parse_json CPython.lib unit (brackets (N.to_nat 100000)) tt
  = (Raise (Exn RecursionError
       "maximum recursion depth exceeded while decoding a JSON document"), tt).
Proof.
  apply (@parse_propagates CPython.lib); [|reflexivity].
  apply loads_too_deep. unfold CPython.recursion_limit. lia.
Qed.

(** ** The calendar *)

Section Calendar.
Local Open Scope Z_scope.

Lemma is_leap_spec y :
  _is_leap y = true <-> (y mod 4 = 0 /\ (y mod 100 <> 0 \/ y mod 400 = 0)).
Proof.
  unfold _is_leap.
  rewrite andb_true_iff, orb_true_iff, negb_true_iff, !Z.eqb_eq, Z.eqb_neq.
  tauto.
Qed.

Ltac month_cases m Hm :=
  assert (m = 1 \/ m = 2 \/ m = 3 \/ m = 4 \/ m = 5 \/ m = 6 \/ m = 7
          \/ m = 8 \/ m = 9 \/ m = 10 \/ m = 11 \/ m = 12) as Hcases by lia;
  destruct Hcases as [->|[->|[->|[->|[->|[->|[->|[->|[->|[->|[->| ->]]]]]]]]]]].

Lemma days_before_year_succ y :
  _days_before_year (y + 1)
  = _days_before_year y + 365 + (if _is_leap y then 1 else 0).
Proof.
  unfold _days_before_year.
  replace (y + 1 - 1) with y by lia.
  destruct (_is_leap y) eqn:E.
  - apply is_leap_spec in E. Z.div_mod_to_equations. lia.
  - assert (~ (y mod 4 = 0 /\ (y mod 100 <> 0 \/ y mod 400 = 0)))
      by (rewrite <- is_leap_spec; congruence).
    Z.div_mod_to_equations. lia.
Qed.

Lemma ymd2ord_next_day y m d :
  valid_date y m d ->
  let '(y', m', d') := next_day (y, m, d) in
  _ymd2ord y' m' d' = _ymd2ord y m d + 1.
Proof.
  intros (Hy & Hm & Hd). unfold next_day.
  destruct (d <? _days_in_month y m) eqn:E1.
  - unfold _ymd2ord. lia.
  - apply Z.ltb_ge in E1. assert (d = _days_in_month y m) as -> by lia.
    destruct (m <? 12) eqn:E2.
    + apply Z.ltb_lt in E2. unfold _ymd2ord, _days_before_month, _days_in_month.
      month_cases m Hm; try lia; destruct (_is_leap y); simpl; lia.
    + apply Z.ltb_ge in E2. assert (m = 12) as -> by lia.
      unfold _ymd2ord. rewrite days_before_year_succ.
      unfold _days_before_month, _days_in_month.
      destruct (_is_leap y); cbn; lia.
Qed.

Lemma month_day_spec (leap : bool) (m d : Z) :
  1 <= m <= 12 ->
  1 <= d <= (if (m =? 2) && leap then 29 else _DAYS_IN_MONTH m) ->
  month_day leap
    (_DAYS_BEFORE_MONTH m + (if (2 <? m) && leap then 1 else 0) + d - 1)
  = (m, d).
Proof.
  intros Hm Hd. unfold month_day. rewrite Z.shiftr_div_pow2 by lia.
  change (2 ^ 5) with 32.
  month_cases m Hm; destruct leap; cbn [Z.eqb Z.ltb Z.compare Pos.compare Pos.compare_cont Pos.eqb andb _DAYS_BEFORE_MONTH _DAYS_IN_MONTH] in *;
  match goal with
  | |- context [(?e + 50) / 32] =>
      let q := fresh "q" in
      remember ((e + 50) / 32) as q eqn:Hq;
      assert (Hq' : q = 1 \/ q = 2 \/ q = 3 \/ q = 4 \/ q = 5 \/ q = 6 \/ q = 7
          \/ q = 8 \/ q = 9 \/ q = 10 \/ q = 11 \/ q = 12)
        by (subst q; Z.div_mod_to_equations; lia);
      destruct Hq' as [->|[->|[->|[->|[->|[->|[->|[->|[->|[->|[->| ->]]]]]]]]]]];
      try (exfalso; Z.div_mod_to_equations; lia)
  end;
  cbn [Z.eqb Z.ltb Z.compare Pos.compare Pos.compare_cont Pos.eqb andb _DAYS_BEFORE_MONTH _DAYS_IN_MONTH Z.sub Z.add Z.opp Z.pos_sub Pos.add Pos.succ Pos.pred_double Z.double Z.succ_double Z.pred_double];
  match goal with
  | |- context [?a <? ?b] =>
      destruct (a <? b) eqn:E;
      [apply Z.ltb_lt in E | apply Z.ltb_ge in E]
  end;
  try (exfalso; Z.div_mod_to_equations; lia);
  simpl; f_equal; lia.
Qed.

Lemma ord2ymd_unfold n :
  _ord2ymd n =
  let n := n - 1 in
  let n400 := n / _DI400Y in
  let n := n mod _DI400Y in
  let n100 := n / _DI100Y in
  let n := n mod _DI100Y in
  let n4 := n / _DI4Y in
  let n := n mod _DI4Y in
  let n1 := n / 365 in
  let n := n mod 365 in
  let y := n400 * 400 + 1 + n100 * 100 + n4 * 4 + n1 in
  if (n1 =? 4) || (n100 =? 4) then (y - 1, 12, 31)
  else
    let '(m, d) :=
      month_day ((n1 =? 3) && (negb (n4 =? 24) || (n100 =? 3))) n in
    (y, m, d).
Proof.
  unfold _ord2ymd, month_day. cbv zeta.
  destruct (_ =? 4); [reflexivity|]. destruct (_ =? 4); [reflexivity|].
  cbn [orb]. now destruct (_ <? _).
Qed.

Lemma ord2ymd_of_year y doy :
  1 <= y ->
  0 <= doy < 365 + (if _is_leap y then 1 else 0) ->
  _ord2ymd (_days_before_year y + doy + 1)
  = if doy =? 365 then (y, 12, 31)
    else let '(m, d) := month_day (_is_leap y) doy in (y, m, d).
Proof.
  intros Hy Hdoy. rewrite ord2ymd_unfold. cbv zeta.
  unfold _DI400Y, _DI100Y, _DI4Y.
  replace (_days_before_year y + doy + 1 - 1)
    with (_days_before_year y + doy) by lia.
  pose (a := (y - 1) / 400). pose (b := ((y - 1) mod 400) / 100).
  pose (c := ((y - 1) mod 100) / 4). pose (e := (y - 1) mod 4).
  assert (Hdec : y - 1 = 400 * a + 100 * b + 4 * c + e
                 /\ 0 <= a /\ 0 <= b < 4 /\ 0 <= c < 25 /\ 0 <= e < 4).
  { subst a b c e. Z.div_mod_to_equations. lia. }
  assert (Hdby : _days_before_year y
                 = 146097 * a + 36524 * b + 1461 * c + 365 * e).
  { unfold _days_before_year. cbv zeta. subst a b c e.
    Z.div_mod_to_equations. lia. }
  assert (Hleap : _is_leap y = true <-> (e = 3 /\ (c <> 24 \/ b = 3))).
  { rewrite is_leap_spec. subst a b c e. Z.div_mod_to_equations. lia. }
  rewrite Hdby. destruct Hdec as (Hyd & Ha & Hb & Hc & He).
  clearbody a b c e.
  assert (Hdoy' : doy <= 364 \/ (doy = 365 /\ e = 3 /\ (c <> 24 \/ b = 3))).
  { destruct (_is_leap y); [|lia].
    destruct (proj1 Hleap eq_refl) as [? ?]. lia. }
  set (n := 146097 * a + 36524 * b + 1461 * c + 365 * e + doy).
  assert (H400 : n / 146097 = a
                 /\ n mod 146097 = 36524 * b + 1461 * c + 365 * e + doy).
  { subst n. Z.div_mod_to_equations. lia. }
  destruct H400 as [-> ->].
  set (r1 := 36524 * b + 1461 * c + 365 * e + doy).
  destruct (Z.eq_dec doy 365) as [Hlast|Hnl].
  - (* 31 December of a leap year *)
    rewrite (proj2 (Z.eqb_eq doy 365) Hlast).
    destruct Hdoy' as [?|(_ & -> & Hcb)]; [lia|]. subst doy.
    assert (Hsp : (r1 mod 36524 mod 1461 / 365 =? 4) || (r1 / 36524 =? 4)
                  = true).
    { apply orb_true_iff. rewrite !Z.eqb_eq. subst r1.
      Z.div_mod_to_equations. lia. }
    rewrite Hsp. do 2 f_equal.
    apply orb_true_iff in Hsp. rewrite !Z.eqb_eq in Hsp. subst r1.
    Z.div_mod_to_equations. lia.
  - rewrite (proj2 (Z.eqb_neq doy 365) Hnl).
    assert (Hdoy365 : doy <= 364 \/ False) by lia.
    assert (H100 : r1 / 36524 = b /\ r1 mod 36524 = 1461 * c + 365 * e + doy).
    { subst r1. destruct Hdoy' as [?|[? _]]; [|lia].
      Z.div_mod_to_equations. lia. }
    destruct H100 as [-> ->].
    assert (H4 : (1461 * c + 365 * e + doy) / 1461 = c
                 /\ (1461 * c + 365 * e + doy) mod 1461 = 365 * e + doy).
    { destruct Hdoy' as [?|[? _]]; [|lia]. Z.div_mod_to_equations. lia. }
    destruct H4 as [-> ->].
    assert (H1 : (365 * e + doy) / 365 = e /\ (365 * e + doy) mod 365 = doy).
    { destruct Hdoy' as [?|[? _]]; [|lia]. Z.div_mod_to_equations. lia. }
    destruct H1 as [-> ->].
    assert (He4 : (e =? 4) = false) by (apply Z.eqb_neq; lia).
    assert (Hb4 : (b =? 4) = false) by (apply Z.eqb_neq; lia).
    rewrite He4, Hb4. cbn [orb].
    assert (Hflag : (e =? 3) && (negb (c =? 24) || (b =? 3)) = _is_leap y).
    { destruct (_is_leap y) eqn:El.
      - destruct (proj1 Hleap eq_refl) as [He3 Hcb].
        apply andb_true_iff. rewrite orb_true_iff, negb_true_iff.
        rewrite !Z.eqb_eq, Z.eqb_neq. tauto.
      - destruct ((e =? 3) && (negb (c =? 24) || (b =? 3))) eqn:Ef;
          [|reflexivity].
        apply andb_true_iff in Ef.
        rewrite orb_true_iff, negb_true_iff, !Z.eqb_eq, Z.eqb_neq in Ef.
        apply Hleap in Ef. congruence. }
    rewrite Hflag.
    replace (a * 400 + 1 + b * 100 + c * 4 + e) with y by lia.
    reflexivity.
Qed.

Lemma day_of_year_bounds y m d :
  1 <= m <= 12 -> 1 <= d <= _days_in_month y m ->
  0 <= _days_before_month y m + d - 1 < 365 + (if _is_leap y then 1 else 0).
Proof.
  intros Hm. unfold _days_before_month, _days_in_month.
  month_cases m Hm; destruct (_is_leap y); simpl; lia.
Qed.

(** [date.fromordinal(date(y, m, d).toordinal())] is the date itself. *)
Lemma ord2ymd_ymd2ord y m d :
  valid_date y m d -> _ord2ymd (_ymd2ord y m d) = (y, m, d).
Proof.
  intros (Hy & Hm & Hd). unfold _ymd2ord.
  pose proof (day_of_year_bounds y m d Hm Hd) as Hdoy.
  replace (_days_before_year y + _days_before_month y m + d)
    with (_days_before_year y + (_days_before_month y m + d - 1) + 1) by lia.
  rewrite ord2ymd_of_year by lia.
  destruct (_ =? 365) eqn:E.
  - apply Z.eqb_eq in E. revert E Hd Hdoy.
    unfold _days_before_month, _days_in_month.
    month_cases m Hm; destruct (_is_leap y); simpl; intros;
      try lia; repeat f_equal; lia.
  - unfold _days_before_month, _days_in_month in *.
    replace (_DAYS_BEFORE_MONTH m + (if (2 <? m) && _is_leap y then 1 else 0)
             + d - 1)
      with (_DAYS_BEFORE_MONTH m + (if (2 <? m) && _is_leap y then 1 else 0)
            + d - 1) by reflexivity.
    rewrite month_day_spec; [reflexivity | lia | exact Hd].
Qed.

Lemma days_before_year_mono y : 10000 <= y -> _MAXORDINAL <= _days_before_year y.
Proof.
  intros Hy. unfold _days_before_year, _MAXORDINAL. cbv zeta.
  Z.div_mod_to_equations. lia.
Qed.

Lemma days_before_year_pos y : 1 <= y -> 0 <= _days_before_year y.
Proof.
  intros Hy. unfold _days_before_year. cbv zeta.
  Z.div_mod_to_equations. lia.
Qed.

Lemma ymd2ord_pos y m d : valid_date y m d -> 1 <= _ymd2ord y m d.
Proof.
  intros (Hy & Hm & Hd). unfold _ymd2ord.
  pose proof (days_before_year_pos y ltac:(lia)).
  pose proof (day_of_year_bounds y m d Hm Hd). lia.
Qed.

Lemma next_day_valid y m d :
  valid_date y m d -> _ymd2ord y m d < _MAXORDINAL ->
  let '(y', m', d') := next_day (y, m, d) in valid_date y' m' d'.
Proof.
  intros Hv Hlt. pose proof (ymd2ord_next_day y m d Hv) as Hn.
  destruct Hv as (Hy & Hm & Hd). unfold next_day in *.
  destruct (d <? _days_in_month y m) eqn:E1.
  - apply Z.ltb_lt in E1. unfold valid_date. lia.
  - destruct (m <? 12) eqn:E2.
    + apply Z.ltb_lt in E2. unfold valid_date, _days_in_month.
      repeat split; try lia.
      month_cases m Hm; try lia; destruct (_is_leap y); simpl; lia.
    + unfold valid_date. repeat split; try lia.
      * destruct (Z_le_gt_dec (y + 1) 9999) as [?|Hbig]; [lia|].
        pose proof (days_before_year_mono (y + 1) ltac:(lia)).
        unfold _ymd2ord at 1 in Hn. unfold _days_before_month in Hn.
        simpl in Hn. lia.
      * unfold _days_in_month. simpl. lia.
Qed.

(** [date.fromordinal(n).toordinal()] is [n], on a valid date. *)
Lemma ymd2ord_ord2ymd n :
  1 <= n <= _MAXORDINAL ->
  let '(y, m, d) := _ord2ymd n in valid_date y m d /\ _ymd2ord y m d = n.
Proof.
  intros [Hlo Hhi]. revert Hhi.
  pattern n. apply (Zlt_lower_bound_ind _ 1); [|exact Hlo].
  clear n Hlo. intros n IH Hlo Hhi.
  destruct (Z.eq_dec n 1) as [->|Hn1].
  - vm_compute. repeat split; congruence.
  - specialize (IH (n - 1) ltac:(lia) ltac:(lia)).
    destruct (_ord2ymd (n - 1)) as [[y m] d] eqn:E. destruct IH as [Hv Ho].
    pose proof (ymd2ord_next_day y m d Hv) as Hnext.
    pose proof (next_day_valid y m d Hv ltac:(lia)) as Hvn.
    destruct (next_day (y, m, d)) as [[y' m'] d'].
    assert (Hn : n = _ymd2ord y' m' d') by lia.
    assert (E' : _ord2ymd n = (y', m', d'))
      by (rewrite Hn; now apply ord2ymd_ymd2ord).
    rewrite E'. split; [exact Hvn|lia].
Qed.

End Calendar.

(** ** [datetime] arithmetic *)

Section DatetimeAdd.
Local Open Scope Z_scope.

Lemma iter_next_day y m d (k : nat) :
  valid_date y m d -> _ymd2ord y m d + Z.of_nat k <= _MAXORDINAL ->
  let '(y', m', d') := Nat.iter k next_day (y, m, d) in
  valid_date y' m' d' /\ _ymd2ord y' m' d' = _ymd2ord y m d + Z.of_nat k.
Proof.
  intros Hv. induction k as [|k IH]; intros Hk.
  - simpl. split; [exact Hv | lia].
  - change (Nat.iter (S k) next_day (y, m, d))
      with (next_day (Nat.iter k next_day (y, m, d))).
    assert (Hk' : _ymd2ord y m d + Z.of_nat k <= _MAXORDINAL) by lia.
    specialize (IH Hk').
    destruct (Nat.iter k next_day (y, m, d)) as [[y1 m1] d1].
    destruct IH as [Hv1 Ho1].
    pose proof (ymd2ord_next_day y1 m1 d1 Hv1) as Hn.
    assert (Hlt : _ymd2ord y1 m1 d1 < _MAXORDINAL) by lia.
    pose proof (next_day_valid y1 m1 d1 Hv1 Hlt) as Hvn.
    destruct (next_day (y1, m1, d1)) as [[y2 m2] d2]. split; [exact Hvn|lia].
Qed.

Lemma time_of_day_fields h mi s :
  0 <= h < 24 -> 0 <= mi < 60 -> 0 <= s < 60 ->
  let total := h * 3600 + mi * 60 + s in
  total / 86400 = 0 /\ (total mod 86400) / 3600 = h
  /\ ((total mod 86400) mod 3600) / 60 = mi /\ (total mod 86400) mod 60 = s.
Proof. intros. cbv zeta. Z.div_mod_to_equations. lia. Qed.

(** Adding whole days to a valid [datetime] moves it on the calendar. *)
Lemma datetime_add_days (t : datetime) (k : nat) :
  valid_datetime t -> toordinal t + Z.of_nat k <= _MAXORDINAL ->
  datetime_add t (Z.of_nat k) 0 = Ok (plus_days t k).
Proof.
  intros [Hd (Hh & Hm & Hs)] Hk. unfold datetime_add, plus_days, toordinal in *.
  pose proof (time_of_day_fields _ _ _ Hh Hm Hs) as (H0 & H1 & H2 & H3).
  cbv zeta in *. rewrite Z.add_0_r, H0, H1, H2, H3, Z.add_0_r.
  pose proof (iter_next_day _ _ _ k Hd Hk) as Hit.
  pose proof (ymd2ord_pos _ _ _ Hd) as Hpos.
  destruct (Nat.iter k next_day _) as [[y1 m1] d1]. destruct Hit as [Hv1 Ho1].
  rewrite <- Ho1, (ord2ymd_ymd2ord _ _ _ Hv1).
  assert (Hr : (0 <? _ymd2ord y1 m1 d1) && (_ymd2ord y1 m1 d1 <=? _MAXORDINAL)
               = true).
  { apply andb_true_iff. rewrite Z.ltb_lt, Z.leb_le. lia. }
  now rewrite Hr.
Qed.

Lemma weekday_plus_days (t : datetime) (k : nat) :
  valid_datetime t -> toordinal t + Z.of_nat k <= _MAXORDINAL ->
  weekday (plus_days t k) = (weekday t + Z.of_nat k) mod 7.
Proof.
  intros [Hd _] Hk. unfold weekday, plus_days, toordinal in *.
  pose proof (iter_next_day _ _ _ k Hd Hk) as Hit.
  destruct (Nat.iter k next_day _) as [[y1 m1] d1]. destruct Hit as [_ Ho1].
  cbn [year month day]. rewrite Ho1.
  Z.div_mod_to_equations. lia.
Qed.

(** What [datetime_add] returns lies [days] days and [seconds] seconds
    later on the time line. *)
Lemma datetime_add_timestamp (t t' : datetime) (days seconds : Z) :
  datetime_add t days seconds = Ok t' ->
  timestamp t' = timestamp t + days * 86400 + seconds
  /\ microsecond t' = microsecond t /\ utcoffset t' = utcoffset t.
Proof.
  unfold datetime_add. cbv zeta.
  set (n := toordinal t + days
            + (hour t * 3600 + minute t * 60 + second t + seconds) / 86400).
  destruct (_ && _) eqn:Hr; [|discriminate].
  apply andb_true_iff in Hr. rewrite Z.ltb_lt, Z.leb_le in Hr.
  assert (Hn : 1 <= n <= _MAXORDINAL) by lia.
  pose proof (ymd2ord_ord2ymd n Hn) as Hround.
  destruct (_ord2ymd n) as [[y m] d]. destruct Hround as [_ Ho].
  intros [= <-]. unfold timestamp, seconds_of_day, toordinal.
  cbn [year month day hour minute second microsecond utcoffset].
  rewrite Ho. repeat split. subst n. unfold toordinal.
  Z.div_mod_to_equations. lia.
Qed.

End DatetimeAdd.

(** ** The temporal grounding block *)

(** With the clock in range, the block is the grounding text. *)
Lemma get_time_context_ok (env : Env) {St : Type} (s : St) :
  clock_ok env -> _get_time_context env s = (Ok (grounding env), s).
Proof.
  intros [Hv Hk].
  unfold _get_time_context, grounding, lift, mbind, mret, M_bind, M_ret,
    bind, ret.
  change (datetime_add (now env) 1 0)
    with (datetime_add (now env) (Z.of_nat 1) 0).
  change (datetime_add (now env) 7 0)
    with (datetime_add (now env) (Z.of_nat 7) 0).
  rewrite (datetime_add_days (now env) 1 Hv ltac:(lia)).
  now rewrite (datetime_add_days (now env) 7 Hv ltac:(lia)).
Qed.

(** ** Decimal digits *)

Section Digits.
Local Open Scope Z_scope.

Lemma pretty_N_char_digit (d : N) :
  (d < 10)%N -> pretty_N_char d = digit_char (Z.of_N d).
Proof.
  intros Hd.
  assert (Hc : (d = 0 \/ d = 1 \/ d = 2 \/ d = 3 \/ d = 4 \/ d = 5 \/ d = 6
                \/ d = 7 \/ d = 8 \/ d = 9)%N) by lia.
  repeat (destruct Hc as [->|Hc]; [reflexivity|]). now subst d.
Qed.

(** The digits of [n] written before [s], last digit first. *)
Lemma pretty_N_go_digit (n : Z) (s : string) :
  0 < n ->
  pretty_N_go (Z.to_N n) s
  = pretty_N_go (Z.to_N (n / 10)) (String (digit_char (n mod 10)) s).
Proof.
  intros Hn. rewrite pretty_N_go_step by lia.
  rewrite pretty_N_char_digit by (apply N.mod_lt; discriminate).
  rewrite N2Z.inj_mod, Z2N.id by lia.
  change 10%N with (Z.to_N 10). now rewrite <- Z2N.inj_div by lia.
Qed.

Lemma pretty_N_digits (n : Z) :
  0 < n -> pretty (Z.to_N n) = pretty_N_go (Z.to_N n) "".
Proof.
  intros Hn. unfold pretty, pretty_N.
  destruct (decide (Z.to_N n = 0%N)) as [E|_]; [lia|reflexivity].
Qed.

Ltac digits :=
  repeat (rewrite pretty_N_go_digit by (Z.div_mod_to_equations; lia));
  match goal with
  | |- context [pretty_N_go (Z.to_N ?q) _] =>
      replace q with 0 by (Z.div_mod_to_equations; lia)
  end;
  change (Z.to_N 0) with 0%N; rewrite pretty_N_go_0;
  cbn [String.length Nat.sub zeros];
  repeat match goal with
         | |- context [String ?c ?s ++ ?t] =>
             change (String c s ++ t) with (String c (s ++ t))
         | |- context [EmptyString ++ ?t] => change (EmptyString ++ t) with t
         end;
  change "0"%char with (digit_char 0);
  repeat match goal with
         | |- String _ _ = String _ _ => apply (f_equal2 String)
         end;
  try reflexivity; apply (f_equal digit_char);
  Z.div_mod_to_equations; lia.

Lemma zfill_two_digits (n : Z) : 0 <= n < 100 -> zfill 2 n = two_digits n.
Proof.
  intros Hn. unfold zfill, two_digits.
  destruct (Z.eq_dec n 0) as [->|Hz]; [reflexivity|].
  rewrite pretty_N_digits by lia.
  destruct (Z_lt_le_dec n 10); [digits | digits].
Qed.

Lemma zfill_four_digits (n : Z) : 0 <= n < 10000 -> zfill 4 n = four_digits n.
Proof.
  intros Hn. unfold zfill, four_digits, two_digits.
  destruct (Z.eq_dec n 0) as [->|Hz]; [reflexivity|].
  rewrite pretty_N_digits by lia.
  destruct (Z_lt_le_dec n 10); [digits|].
  destruct (Z_lt_le_dec n 100); [digits|].
  destruct (Z_lt_le_dec n 1000); [digits | digits].
Qed.

Lemma pretty_four_digits (n : Z) :
  1000 <= n < 10000 -> pretty n = four_digits n.
Proof.
  intros Hn. rewrite <- (zfill_four_digits n) by lia.
  unfold zfill, four_digits, two_digits.
  destruct n as [|p|p]; try lia.
  change (pretty (Z.pos p)) with (pretty (Z.to_N (Z.pos p))).
  rewrite pretty_N_digits by lia.
  digits.
Qed.

End Digits.

Section Block.
Local Open Scope Z_scope.

Lemma plus_days_valid (t : datetime) (k : nat) :
  valid_datetime t -> toordinal t + Z.of_nat k <= _MAXORDINAL ->
  valid_datetime (plus_days t k).
Proof.
  intros [Hd Ht] Hk. unfold plus_days, toordinal in *.
  pose proof (iter_next_day _ _ _ k Hd Hk) as Hit.
  destruct (Nat.iter k next_day _) as [[y1 m1] d1]. destruct Hit as [Hv1 _].
  split; [exact Hv1 | exact Ht].
Qed.

Lemma strftime_Ymd_iso_date (t : datetime) :
  valid_datetime t -> strftime_Ymd t = iso_date t.
Proof.
  intros [(Hy & Hm & Hd) _]. unfold strftime_Ymd, iso_date.
  assert (Hd31 : _days_in_month (year t) (month t) <= 31).
  { unfold _days_in_month. destruct (_ && _); [lia|].
    generalize (month t) Hm. intros m Hm'.
    assert (Hc : m = 1 \/ m = 2 \/ m = 3 \/ m = 4 \/ m = 5 \/ m = 6 \/ m = 7
                 \/ m = 8 \/ m = 9 \/ m = 10 \/ m = 11 \/ m = 12) by lia.
    repeat (destruct Hc as [->|Hc]; [simpl; lia|]). subst m. simpl. lia. }
  now rewrite zfill_four_digits, !zfill_two_digits by lia.
Qed.

Lemma strftime_HM_clock_time (t : datetime) :
  valid_datetime t -> strftime_HM t = clock_time t.
Proof.
  intros [_ (Hh & Hm & _)]. unfold strftime_HM, clock_time.
  now rewrite !zfill_two_digits by lia.
Qed.

End Block.

(** C8.  For a clock sample [t] of a year from 1000 on, at least seven
    days before the last representable day, the block is these six
    lines: the heading; the date of [t] as [YYYY-MM-DD] with the name of
    its weekday; its time of day as [HH:MM]; the date and the weekday
    name of the calendar day after [t]; the date of the seventh calendar
    day after [t]; the year of [t].  The weekday of tomorrow follows
    today's and the weekday a week later is today's; and the text
    depends on nothing but the sample and the locale of the process. *)
Theorem time_context_of_sample (env : Env) {St : Type} (s : St) :
  valid_datetime (now env) ->
  (1000 <= year (now env))%Z ->
  (toordinal (now env) + 7 <= _MAXORDINAL)%Z ->
  let t := now env in
  let lc := module_locale env in
  _get_time_context env s
  = (Ok (lined
           [ "REFERANS ZAMAN BİLGİLERİ (Buna Kesinlikle Uy):";
             "- BUGÜNÜN TARİHİ: " ++ iso_date t
               ++ " (" ++ day_name lc (weekday t) ++ ")";
             "- ŞU ANKİ SAAT: " ++ clock_time t;
             "- YARININ TARİHİ: " ++ iso_date (plus_days t 1)
               ++ " (" ++ day_name lc (weekday (plus_days t 1)) ++ ")";
             "- HAFTAYA BUGÜN: " ++ iso_date (plus_days t 7);
             "- BULUNDUĞUMUZ YIL: " ++ four_digits (year t) ]), s)
  /\ weekday (plus_days t 1) = ((weekday t + 1) mod 7)%Z
  /\ weekday (plus_days t 7) = weekday t
  /\ (forall (env' : Env) (s' : St),
        now env' = now env -> module_locale env' = module_locale env ->
        fst (_get_time_context env' s') = fst (_get_time_context env s)).
Proof.
  intros Hv Hy Hk t lc. split; [|split; [|split]].
  - rewrite (get_time_context_ok env s (conj Hv Hk)).
    unfold grounding, time_context_text, strftime_A. fold t lc.
    assert (H1 : valid_datetime (plus_days t 1))
      by (apply plus_days_valid; [exact Hv | unfold t; simpl; lia]).
    assert (H7 : valid_datetime (plus_days t 7))
      by (apply plus_days_valid; [exact Hv | unfold t; simpl; lia]).
    rewrite !strftime_Ymd_iso_date, strftime_HM_clock_time by assumption.
    rewrite pretty_four_digits by (destruct Hv as [(? & _) _]; unfold t; lia).
    unfold lined. rewrite !string_app_assoc. reflexivity.
  - unfold t. now rewrite (weekday_plus_days _ 1 Hv ltac:(lia)).
  - unfold t. rewrite (weekday_plus_days _ 7 Hv ltac:(lia)).
    unfold weekday. change (Z.of_nat 7) with 7%Z.
    Z.div_mod_to_equations. lia.
  - intros env' s' Hn Hl.
    assert (Hc' : clock_ok env') by (unfold clock_ok; rewrite Hn; now split).
    rewrite (get_time_context_ok env' s' Hc').
    rewrite (get_time_context_ok env s (conj Hv Hk)).
    unfold grounding. now rewrite Hn, Hl.
Qed.

Lemma time_context_of_sample_witness :
  fst (@_get_time_context env0 unit tt)
  = Ok (lined
          [ "REFERANS ZAMAN BİLGİLERİ (Buna Kesinlikle Uy):";
            "- BUGÜNÜN TARİHİ: 2026-01-04 (Sunday)";
            "- ŞU ANKİ SAAT: 09:00";
            "- YARININ TARİHİ: 2026-01-05 (Monday)";
            "- HAFTAYA BUGÜN: 2026-01-11";
            "- BULUNDUĞUMUZ YIL: 2026" ]).
Proof.
  refine (f_equal fst (proj1 (@time_context_of_sample env0 unit tt _ _ _))).
  - unfold valid_datetime, valid_date; vm_compute; intuition congruence.
  - vm_compute; congruence.
  - vm_compute; congruence.
Defined.

(** ** The intent engines *)

Section EngineFacts.
Context `{PyLib} (env : Env).

Ltac run_monad :=
  unfold generate_summary_and_reply, decide_action, tell,
    try_except, lift, mbind, mret, M_bind, M_ret,
    bind, ret, raise, Exception in *.

(** The sanitizer neither reads nor changes the state. *)
Lemma parse_state {St : Type} (text : string) (s : St) :
  _clean_and_parse_json text s = (fst (_clean_and_parse_json text tt), s).
Proof.
  unfold _clean_and_parse_json, try_except, lift, mbind, mret, M_bind, M_ret,
    bind, ret, raise, Exception.
  repeat match goal with
  | |- context [if ?b then _ else _] => destruct b
  | |- context [match index ?l ?i with _ => _ end] => destruct (index l i)
  | |- context [match json_loads ?t with _ => _ end] => destruct (json_loads t)
  end; reflexivity.
Qed.

(** What [generate_summary_and_reply] returns, by the outcome of the
    backend and of the sanitizer. *)
Lemma generate_summary_and_reply_eq (email_content : string)
    (tr : list event) :
  clock_ok env ->
  let p := Prompt SummaryReply (grounding env) (JStr email_content) in
  generate_summary_and_reply env email_content tr
  = (Ok match ollama_chat env p with
        | Raise e => summary_fallback e
        | Ok text =>
            match fst (_clean_and_parse_json text tt) with
            | Raise e => summary_fallback e
            | Ok v => if truthy v then v
                      else summary_fallback (Exn ValueError "Boş Yanıt")
            end
        end, (tr ++ [EvChat p])%list).
Proof.
  intros Hc p. run_monad. rewrite (get_time_context_ok env _ Hc).
  fold p. destruct (ollama_chat env p) as [text|e]; [|reflexivity].
  rewrite parse_state.
  destruct (fst (_clean_and_parse_json text tt)) as [v|e]; [|reflexivity].
  now destruct (truthy v).
Qed.

Lemma decide_action_eq (user_query : json) (tr : list event) :
  clock_ok env ->
  let p := Prompt ActionDecision (grounding env) user_query in
  decide_action env user_query tr
  = (Ok match ollama_chat env p with
        | Raise e => action_fallback "Sistem hatası."
        | Ok text =>
            match fst (_clean_and_parse_json text tt) with
            | Raise e => action_fallback "Sistem hatası."
            | Ok v => if truthy v then v
                      else action_fallback "AI yanıtı anlaşılamadı."
            end
        end, (tr ++ [EvChat p])%list).
Proof.
  intros Hc p. run_monad. rewrite (get_time_context_ok env _ Hc).
  fold p. destruct (ollama_chat env p) as [text|e]; [|reflexivity].
  rewrite parse_state.
  destruct (fst (_clean_and_parse_json text tt)) as [v|e]; [|reflexivity].
  now destruct (truthy v).
Qed.

Lemma summary_fallback_shape (e : exn) :
  exists d, summary_fallback e = JObj d
    /\ dom d = SummaryReply_keys
    /\ d !! "summary" = Some (JStr "Hata")
    /\ d !! "meeting_title" = Some (JStr "Hata")
    /\ d !! "detected_date" = Some JNull.
Proof.
  eexists. split; [reflexivity|]. split; [|repeat split].
  unfold SummaryReply_keys. rewrite !dom_insert_L, dom_singleton_L.
  set_solver.
Qed.

Lemma action_fallback_shape (draft : string) :
  exists d, action_fallback draft = JObj d
    /\ dom d = ActionDecision_keys
    /\ d !! "meeting_title" = Some (JStr "Hata")
    /\ d !! "extracted_date" = Some JNull
    /\ d !! "target_name" = Some JNull.
Proof.
  eexists. split; [reflexivity|]. split; [|repeat split].
  unfold ActionDecision_keys. rewrite !dom_insert_L, dom_singleton_L.
  set_solver.
Qed.

End EngineFacts.

(** C2.  When the backend call raises or the sanitizer finds no record,
    each engine operation returns the fallback record of its shape: the
    summary and the title are the sentinel ["Hata"] and the date is
    [None]. *)
Theorem intent_engine_fallback `{PyLib} (env : Env)
    (email_content : string) (user_query : json) (tr : list event) :
  clock_ok env ->
  (no_result env (Prompt SummaryReply (grounding env) (JStr email_content)) ->
   exists d,
     fst (generate_summary_and_reply env email_content tr) = Ok (JObj d)
     /\ dom d = SummaryReply_keys
     /\ d !! "summary" = Some (JStr "Hata")
     /\ d !! "meeting_title" = Some (JStr "Hata")
     /\ d !! "detected_date" = Some JNull)
  /\
  (no_result env (Prompt ActionDecision (grounding env) user_query) ->
   exists d,
     fst (decide_action env user_query tr) = Ok (JObj d)
     /\ dom d = ActionDecision_keys
     /\ d !! "meeting_title" = Some (JStr "Hata")
     /\ d !! "extracted_date" = Some JNull
     /\ d !! "target_name" = Some JNull).
Proof.
  intros Hc. split; intros Hno.
  - rewrite (generate_summary_and_reply_eq env _ _ Hc). cbn [fst].
    destruct Hno as [e He | text Ht Hp].
    + rewrite He.
      destruct (summary_fallback_shape e) as (d & -> & Hd). eauto.
    + rewrite Ht, Hp. cbn [truthy].
      destruct (summary_fallback_shape (Exn ValueError "Boş Yanıt"))
        as (d & -> & Hd). eauto.
  - rewrite (decide_action_eq env _ _ Hc). cbn [fst].
    destruct Hno as [e He | text Ht Hp].
    + rewrite He.
      destruct (action_fallback_shape "Sistem hatası.") as (d & -> & Hd). eauto.
    + rewrite Ht, Hp. cbn [truthy].
      destruct (action_fallback_shape "AI yanıtı anlaşılamadı.")
        as (d & -> & Hd). eauto.
Qed.

Lemma clock_ok_env0 : clock_ok env0.
Proof. split; [unfold valid_datetime, valid_date|]; vm_compute; intuition congruence. Qed.

Lemma intent_engine_fallback_witness :
  exists d,
    fst (@generate_summary_and_reply CPython.lib env0 "Merhaba" []) = Ok (JObj d)
    /\ d !! "summary" = Some (JStr "Hata")
    /\ d !! "detected_date" = Some JNull.
Proof.
  destruct (proj1 (@intent_engine_fallback CPython.lib env0 "Merhaba" JNull []
                     clock_ok_env0))
    as (d & Hd & _ & Hs & _ & Hdate).
  - exact (backend_raises env0 _ (Exn RuntimeError "connection refused") eq_refl).
  - exists d. auto.
Defined.

(** ** The contact resolver *)

Section Order.

Lemma Qltb_lt (a b : Q) : Qltb a b = true <-> (a < b)%Q.
Proof.
  unfold Qltb. rewrite negb_true_iff. split.
  - intros Hle. apply Qnot_le_lt. intros Hba.
    apply Qle_bool_iff in Hba. congruence.
  - intros Hlt. destruct (Qle_bool b a) eqn:E; [|reflexivity].
    apply Qle_bool_iff in E. exfalso. exact (Qlt_not_le _ _ Hlt E).
Qed.

Lemma Qltb_ge (a b : Q) : Qltb a b = false <-> (b <= a)%Q.
Proof.
  unfold Qltb. rewrite negb_false_iff. apply Qle_bool_iff.
Qed.

End Order.

Section ResolverFacts.
Context `{PyLib}.

(** The loop against the two passes, from any state of its accumulators. *)
Lemma scan_rows_two_pass (q : string) (rows : list (list string))
    (best_match : option string) (highest_score : Q) :
  scan_rows q rows best_match highest_score
  = match first_containing q (records_of rows) with
    | Some r => email r
    | None =>
        match most_similar q (records_of rows) with
        | Some (r, s) =>
            if Qltb (6 # 10) s && Qltb highest_score s
            then finish (Some (email r)) else finish best_match
        | None => finish best_match
        end
    end.
Proof.
  revert best_match highest_score.
  induction rows as [|row rows IH]; intros best hs; [reflexivity|].
  destruct row as [|name [|mail cells]]; try exact (IH best hs).
  cbn [scan_rows records_of omap list_omap first_containing List.find
       most_similar display_name email].
  fold (records_of rows). fold (normalize name).
  destruct (contains q (normalize name)) eqn:Hin; [reflexivity|].
  fold (first_containing q (records_of rows)).
  set (s := SequenceMatcher_ratio q (normalize name)).
  destruct (Qltb (6 # 10) s && Qltb hs s) eqn:Hs; rewrite IH;
    destruct (first_containing q (records_of rows)); try reflexivity;
    destruct (most_similar q (records_of rows)) as [[r' s']|];
    rewrite ?Hs; try reflexivity.
  - apply andb_true_iff in Hs as [H6 Hh]. apply Qltb_lt in H6, Hh.
    destruct (Qltb s s') eqn:Hss.
    + apply Qltb_lt in Hss.
      assert (H1 : Qltb (6 # 10) s' = true)
        by (apply Qltb_lt; eapply Qlt_trans; eauto).
      assert (H2 : Qltb hs s' = true)
        by (apply Qltb_lt; eapply Qlt_trans; eauto).
      now rewrite H1, H2.
    + rewrite andb_false_r.
      assert (H1 : Qltb (6 # 10) s = true) by now apply Qltb_lt.
      assert (H2 : Qltb hs s = true) by now apply Qltb_lt.
      now rewrite H1, H2.
  - destruct (Qltb s s') eqn:Hss; [reflexivity|]. rewrite Hs.
    apply Qltb_ge in Hss.
    destruct (Qltb (6 # 10) s' && Qltb hs s') eqn:Hs'; [|reflexivity].
    apply andb_true_iff in Hs' as [H6 Hh]. apply Qltb_lt in H6, Hh.
    assert (H1 : Qltb (6 # 10) s = true)
      by (apply Qltb_lt; eapply Qlt_le_trans; eauto).
    assert (H2 : Qltb hs s = true)
      by (apply Qltb_lt; eapply Qlt_le_trans; eauto).
    rewrite H1, H2 in Hs. discriminate.
Qed.

Lemma first_containing_In q records r :
  first_containing q records = Some r -> In r records.
Proof. intros Hf. now apply List.find_some in Hf. Qed.

Lemma most_similar_In q records r s :
  most_similar q records = Some (r, s) -> In r records.
Proof.
  revert r s. induction records as [|r0 rest IH]; intros r s; [discriminate|].
  cbn [most_similar].
  destruct (most_similar q rest) as [[r' s']|].
  - destruct (Qltb _ s'); intros [= <- <-];
      [right; exact (IH _ _ eq_refl) | now left].
  - intros [= <- <-]. now left.
Qed.

(** From the first accumulators. *)
Lemma scan_rows_find_two_pass (name : string) (rows : list (list string)) :
  scan_rows (strip (lower name)) rows None 0%Q
  = find_two_pass (records_of rows) name.
Proof.
  rewrite scan_rows_two_pass. unfold find_two_pass. fold (normalize name).
  destruct (first_containing _ _); [reflexivity|].
  destruct (most_similar _ _) as [[r s]|]; [|reflexivity].
  destruct (Qltb (6 # 10) s) eqn:H6; [|reflexivity].
  assert (H0 : Qltb 0 s = true).
  { apply Qltb_lt in H6. apply Qltb_lt. eapply Qlt_trans; [|exact H6].
    reflexivity. }
  rewrite H0. cbn [andb]. unfold finish, nonempty. cbn [default].
  now destruct (String.eqb (email r) "").
Qed.

(** The two passes of the code against those of the specification. *)
Lemma find_two_pass_reference (records : list ContactRecord) (name : string) :
  find_two_pass records name = find_reference records name
  \/ (find_reference records name = ""
      /\ find_two_pass records name = NOT_FOUND).
Proof.
  unfold find_two_pass, find_reference.
  destruct (first_containing _ _); [now left|].
  destruct (most_similar _ _) as [[r s]|]; [|now left].
  destruct (Qltb (6 # 10) s); [|now left]. cbn [andb].
  destruct (String.eqb (email r) "") eqn:E; [|now left].
  apply String.eqb_eq in E. right. now rewrite E.
Qed.

Lemma find_two_pass_emails (records : list ContactRecord) (name : string) :
  Forall (fun r => email r <> "") records ->
  find_two_pass records name = find_reference records name.
Proof.
  intros Hne. unfold find_two_pass, find_reference.
  destruct (first_containing _ _); [reflexivity|].
  destruct (most_similar _ _) as [[r s]|] eqn:Hm; [|reflexivity].
  assert (Hr : email r <> "").
  { apply most_similar_In in Hm. rewrite Forall_forall in Hne.
    apply Hne. now apply list_elem_of_In. }
  apply String.eqb_neq in Hr. rewrite Hr. now rewrite andb_true_r.
Qed.

End ResolverFacts.

(** ** [find_email] *)

Section FindEmailFacts.
Context `{PyLib} (google : Google).

Ltac run_monad :=
  unfold find_email, _get_sheet_id, _create_sheet, get, put,
    try_except, lift, mbind, mret, M_bind, M_ret,
    bind, ret, raise, Exception in *.

(** Resolving the sheet handle returns, with or without a handle. *)
Lemma get_sheet_id_total (self : ContactManager) :
  exists sheet_id self', _get_sheet_id google self = (Ok sheet_id, self').
Proof.
  run_monad. destruct (nonempty (_cached_sheet_id self)); [eauto|].
  destruct (drive_files_list google) as [[|f files]|e]; cbn; eauto;
    destruct (drive_files_create google) as [new_id|e']; cbn; eauto;
    destruct (sheets_values_update google new_id); cbn; eauto.
Qed.

(** [find_email] by the outcome of its two requests. *)
Lemma find_email_eq (name : string) (self self' : ContactManager)
    (sheet_id : option string) :
  _get_sheet_id google self = (Ok sheet_id, self') ->
  find_email google name self
  = (Ok (if negb (nonempty sheet_id) then "HATA: Rehber erişilemedi."
         else match sheets_values_get google (default "" sheet_id) with
              | Raise e => "HATA: " ++ exc_str e
              | Ok rows =>
                  if (length rows <? 2)%nat then "Rehber boş."
                  else scan_rows (strip (lower name)) (tail rows) None 0%Q
              end), self').
Proof.
  intros Hid. unfold find_email, mbind, M_bind, bind at 1. rewrite Hid.
  destruct (negb (nonempty sheet_id)); [reflexivity|].
  unfold try_except, lift, mbind, mret, M_bind, M_ret, bind, ret, Exception.
  destruct (sheets_values_get google _) as [rows|e]; [|reflexivity].
  now destruct (length rows <? 2)%nat.
Qed.

End FindEmailFacts.

(** C7.  [find_email] returns a text on every path: the error sentinel
    when no sheet handle is resolved, the "empty" sentinel when the
    table has fewer than two rows, whatever the similarity measure, and
    the text of the exception when reading the table raises. *)
Theorem find_email_never_raises `{PyLib} (google : Google)
    (self : ContactManager) (name : string) :
  exists (answer : string) (sheet_id : option string) (self' : ContactManager),
    _get_sheet_id google self = (Ok sheet_id, self')
    /\ find_email google name self = (Ok answer, self')
    /\ (nonempty sheet_id = false -> answer = "HATA: Rehber erişilemedi.")
    /\ (forall rows,
          nonempty sheet_id = true ->
          sheets_values_get google (default "" sheet_id) = Ok rows ->
          (length rows < 2)%nat -> answer = "Rehber boş.")
    /\ (forall e,
          nonempty sheet_id = true ->
          sheets_values_get google (default "" sheet_id) = Raise e ->
          answer = "HATA: " ++ exc_str e).
Proof.
  destruct (get_sheet_id_total google self) as (sheet_id & self' & Hid).
  eexists _, sheet_id, self'. split; [exact Hid|].
  split; [exact (find_email_eq google name self self' sheet_id Hid)|].
  split; [|split].
  - now intros ->.
  - intros rows -> -> Hlen. cbn [negb].
    now rewrite (proj2 (Nat.ltb_lt _ _) Hlen).
  - now intros e -> ->.
Qed.

(** The resolver over a sheet that holds the header row only. *)
Example find_email_header_only :
  fst (@find_email CPython.lib (google_with_rows [header]) "anything"
         fresh_manager)
  = Ok "Rehber boş.".
Proof. reflexivity. Qed.

(** C3, as amended.  On a fetched table with a header row,
    [find_email] returns the "empty" sentinel when there is no data row,
    and otherwise what the two passes return on the records of the data
    rows: the email of the first record whose name contains the query,
    else the email of the first record of maximal similarity if that
    similarity exceeds 0.6 and that email is not blank, else the "not
    found" sentinel.  These two passes return what those of the
    specification return unless the latter return the blank email of
    the best fuzzy match, for which the code returns the "not found"
    sentinel; they agree whenever no record has a blank email. *)
Theorem find_email_two_pass `{PyLib} (google : Google)
    (self self' : ContactManager) (sheet_id name : string)
    (header_row : list string) (data : list (list string)) :
  _get_sheet_id google self = (Ok (Some sheet_id), self') ->
  sheet_id <> "" ->
  sheets_values_get google sheet_id = Ok (header_row :: data) ->
  find_email google name self
  = (Ok (match data with
         | [] => "Rehber boş."
         | _ :: _ => find_two_pass (records_of data) name
         end), self')
  /\ (find_two_pass (records_of data) name
      = find_reference (records_of data) name
      \/ (find_reference (records_of data) name = ""
          /\ find_two_pass (records_of data) name = NOT_FOUND))
  /\ (Forall (fun r => email r <> "") (records_of data) ->
      find_two_pass (records_of data) name
      = find_reference (records_of data) name).
Proof.
  intros Hid Hsid Hrows. split; [|split].
  - rewrite (find_email_eq google name self self' _ Hid).
    unfold nonempty. rewrite (proj2 (String.eqb_neq _ _) Hsid). cbn [negb].
    change (default "" (Some sheet_id)) with sheet_id.
    rewrite Hrows. destruct data as [|row data]; [reflexivity|].
    cbn [length Nat.ltb Nat.leb tail]. now rewrite scan_rows_find_two_pass.
  - apply find_two_pass_reference.
  - apply find_two_pass_emails.
Qed.

Lemma find_email_two_pass_witness :
  fst (@find_email CPython.lib (google_with_rows ten_contacts) "Engin"
         fresh_manager)
  = Ok "engin@x.com".
Proof.
  refine (f_equal fst (proj1
    (@find_email_two_pass CPython.lib (google_with_rows ten_contacts)
       fresh_manager {| _cached_sheet_id := Some "sheet-1" |} "sheet-1"
       "Engin" header (tail ten_contacts) _ _ _))).
  - reflexivity.
  - discriminate.
  - reflexivity.
Defined.

(** A query far from every name of the ten contacts. *)
Example find_email_no_near_match :
  fst (@find_email CPython.lib (google_with_rows ten_contacts) "xyzzyzzz"
         fresh_manager)
  = Ok "BULUNAMADI".
Proof. vm_compute. reflexivity. Qed.

(** The best-scoring row has a blank email cell: the two passes return
    that email, the loop returns the "not found" sentinel. *)
Lemma find_email_blank_email :
  @most_similar CPython.lib (@normalize CPython.lib "Engin Vardarr")
    (records_of (tail blank_email_sheet))
  = Some ({| display_name := "Engin Vardar"; email := "" |}, (24 # 25)%Q)
  /\ Qltb (6 # 10) (24 # 25) = true
  /\ @find_reference CPython.lib (records_of (tail blank_email_sheet))
       "Engin Vardarr" = ""
  /\ fst (@find_email CPython.lib (google_with_rows blank_email_sheet)
            "Engin Vardarr" fresh_manager)
     = Ok "BULUNAMADI".
Proof. vm_compute. repeat split; reflexivity. Qed.

(** ** [CalendarManager.schedule] *)

Section ScheduleFacts.
Context `{PyLib} (google : Google).

(** [schedule] by the outcome of each step. *)
Lemma schedule_eq (summary iso_datetime : string)
    (cal : list calendar_event) :
  schedule google summary iso_datetime cal
  = if String.eqb iso_datetime "" then (Ok "Tarih hatası", cal)
    else
      match fromisoformat (replace "Z" "" iso_datetime) with
      | Raise e => (Ok ("Takvim Hatası: " ++ exc_str e), cal)
      | Ok start_dt =>
          match datetime_add start_dt 0 3600 with
          | Raise e => (Ok ("Takvim Hatası: " ++ exc_str e), cal)
          | Ok end_dt =>
              match calendar_events_insert google
                      (meeting summary start_dt end_dt) with
              | Raise e => (Ok ("Takvim Hatası: " ++ exc_str e), cal)
              | Ok _ => (Ok ("Takvime Eklendi: " ++ strftime_HM start_dt),
                         (cal ++ [meeting summary start_dt end_dt])%list)
              end
          end
      end.
Proof.
  unfold schedule, events_insert, try_except, lift, mbind, mret, M_bind, M_ret,
    bind, ret, Exception.
  destruct (String.eqb iso_datetime ""); [reflexivity|].
  destruct (fromisoformat _) as [start_dt|e]; [|reflexivity].
  destruct (datetime_add start_dt 0 3600) as [end_dt|e]; [|reflexivity].
  fold (meeting summary start_dt end_dt).
  now destruct (calendar_events_insert google _).
Qed.

End ScheduleFacts.


(** A meeting at 10:00 UTC notation: one event, 10:00 to 11:00. *)
Example schedule_ten_to_eleven :
  @schedule CPython.lib (google_with_rows []) "Toplantı: Ayşe"
    "2026-01-05T10:00:00Z" []
  = (Ok "Takvime Eklendi: 10:00",
     [ {| ev_summary := "Toplantı: Ayşe";
          ev_start := "2026-01-05T10:00:00";
          ev_end := "2026-01-05T11:00:00";
          ev_timeZone := "Europe/Istanbul" |} ]).
Proof. vm_compute. reflexivity. Qed.


(** ** Traces *)

Section TraceFacts.

Lemma emitted_app (tr tr' : list event) :
  emitted (tr ++ tr')%list = (emitted tr ++ emitted tr')%list.
Proof. apply omap_app. Qed.

Lemma tool_calls_app (tr tr' : list event) :
  tool_calls (tr ++ tr')%list = (tool_calls tr ++ tool_calls tr')%list.
Proof. apply omap_app. Qed.

Lemma logs_ret {A} (a : A) : logs (mret a).
Proof. intros tr. cbn. now rewrite app_nil_r. Qed.

Lemma logs_lift {A} (r : result A) : logs (lift r).
Proof. intros tr. cbn. now rewrite app_nil_r. Qed.

Lemma logs_raise {A} (e : exn) : logs (@raise (list event) A e).
Proof. intros tr. cbn. now rewrite app_nil_r. Qed.

Lemma logs_tell (e : event) : logs (tell e).
Proof. intros tr. reflexivity. Qed.

Lemma logs_bind {A B} (m : M (list event) A) (k : A -> M (list event) B) :
  logs m -> (forall a, logs (k a)) -> logs (m ≫= k).
Proof.
  intros Hm Hk tr. unfold mbind, M_bind, bind.
  rewrite (Hm tr). destruct (m []) as [[a|e] tr1]; cbn [fst snd].
  - rewrite (Hk a (tr ++ tr1)%list), (Hk a tr1). cbn [fst snd].
    now rewrite app_assoc.
  - reflexivity.
Qed.

Lemma logs_try_except {A} (body : M (list event) A) cls
    (handler : exn -> M (list event) A) :
  logs body -> (forall e, logs (handler e)) ->
  logs (try_except body cls handler).
Proof.
  intros Hb Hh tr. unfold try_except.
  rewrite (Hb tr). destruct (body []) as [[a|e] tr1]; cbn [fst snd].
  - reflexivity.
  - destruct (cls e); [|reflexivity].
    rewrite (Hh e (tr ++ tr1)%list), (Hh e tr1). cbn [fst snd].
    now rewrite app_assoc.
Qed.

Lemma logs_if {A} (b : bool) (m1 m2 : M (list event) A) :
  logs m1 -> logs m2 -> logs (if b then m1 else m2).
Proof. now destruct b. Qed.

Lemma silent_logs_bind {A B} (m : M (list event) A)
    (k : A -> M (list event) B) :
  logs m -> silent m -> (forall a, logs (k a)) -> (forall a, silent (k a)) ->
  silent (m ≫= k).
Proof.
  intros Hm Sm Hk Sk. unfold silent, mbind, M_bind, bind in *.
  destruct (m []) as [[a|e] tr1]; cbn [fst snd] in *; [|exact Sm].
  rewrite (Hk a tr1). cbn [snd]. rewrite emitted_app, Sm. apply Sk.
Qed.

Lemma silent_try_except {A} (body : M (list event) A) cls
    (handler : exn -> M (list event) A) :
  silent body -> (forall e, logs (handler e)) -> (forall e, silent (handler e)) ->
  silent (try_except body cls handler).
Proof.
  intros Sb Hh Sh. unfold silent, try_except in *.
  destruct (body []) as [[a|e] tr1]; cbn [fst snd] in *; [exact Sb|].
  destruct (cls e); [|exact Sb].
  rewrite (Hh e tr1). cbn [snd]. rewrite emitted_app, Sb. apply Sh.
Qed.

End TraceFacts.

(** ** The steps of the worker are quiet *)

Section QuietFacts.
Context `{PyLib} (env : Env).

Lemma quiet_logs {A} (m : M (list event) A) : quiet m -> logs m.
Proof. now intros [Hl _]. Qed.

Lemma quiet_ret {A} (a : A) : quiet (mret a : M (list event) A).
Proof. split; [apply logs_ret | reflexivity]. Qed.

Lemma quiet_lift {A} (r : result A) : quiet (lift r : M (list event) A).
Proof. split; [apply logs_lift | reflexivity]. Qed.

Lemma quiet_raise {A} (e : exn) : quiet (@raise (list event) A e).
Proof. split; [apply logs_raise | reflexivity]. Qed.

Lemma quiet_tell (e : event) :
  match e with EvEmit _ => False | _ => True end -> quiet (tell e).
Proof. intros He. split; [apply logs_tell|]. now destruct e. Qed.

Lemma quiet_bind {A B} (m : M (list event) A) (k : A -> M (list event) B) :
  quiet m -> (forall a, quiet (k a)) -> quiet (m ≫= k).
Proof.
  intros [Hm Sm] Hk. split.
  - apply logs_bind; [exact Hm | intros a; apply Hk].
  - apply silent_logs_bind; try assumption; intros a; apply Hk.
Qed.

Lemma quiet_try_except {A} (body : M (list event) A) cls
    (handler : exn -> M (list event) A) :
  quiet body -> (forall e, quiet (handler e)) ->
  quiet (try_except body cls handler).
Proof.
  intros [Hb Sb] Hh. split.
  - apply logs_try_except; [exact Hb | intros e; apply Hh].
  - apply silent_try_except; try assumption; intros e; apply Hh.
Qed.

Lemma quiet_if {A} (b : bool) (m1 m2 : M (list event) A) :
  quiet m1 -> quiet m2 -> quiet (if b then m1 else m2).
Proof. now destruct b. Qed.

Ltac quiet_step :=
  first
    [ apply quiet_ret | apply quiet_lift | apply quiet_raise
    | apply quiet_tell; exact I
    | apply quiet_bind; [|intros ?]
    | apply quiet_try_except; [|intros ?]
    | apply quiet_if ].

Lemma quiet_parse (text : string) :
  quiet (_clean_and_parse_json text : M (list event) json).
Proof. unfold _clean_and_parse_json. repeat quiet_step. Qed.

Lemma quiet_time_context : quiet (_get_time_context env : M (list event) string).
Proof. unfold _get_time_context. repeat quiet_step. Qed.

Lemma quiet_generate_summary_and_reply (email_content : string) :
  quiet (generate_summary_and_reply env email_content).
Proof.
  unfold generate_summary_and_reply.
  repeat first [apply quiet_time_context | apply quiet_parse | quiet_step].
Qed.

Lemma quiet_decide_action (user_query : json) :
  quiet (decide_action env user_query).
Proof.
  unfold decide_action.
  repeat first [apply quiet_time_context | apply quiet_parse | quiet_step].
Qed.

Lemma quiet_call_tool (name : string) (arguments : gmap string json) :
  quiet (call_tool env name arguments).
Proof. unfold call_tool. repeat quiet_step. Qed.

Lemma quiet_task_router (task : string) (payload : gmap string json) :
  quiet (task_router env task payload).
Proof.
  unfold task_router.
  repeat first [ apply quiet_generate_summary_and_reply
               | apply quiet_decide_action | apply quiet_call_tool
               | quiet_step ].
Qed.

Lemma quiet_then_exit {A} (body : M (list event) A) :
  quiet body -> quiet (then_exit env body).
Proof.
  intros [Hb Sb]. split.
  - intros tr. unfold then_exit. rewrite (Hb tr).
    destruct (body []) as [r tr1]. cbn [fst snd app].
    rewrite <- app_assoc. now destruct (session_exit env).
  - unfold silent, then_exit in *. destruct (body []) as [r tr1].
    cbn [snd] in *.
    assert (emitted (tr1 ++ [EvSessionExit])%list = [])
      by (rewrite emitted_app, Sb; reflexivity).
    now destruct (session_exit env).
Qed.

Lemma quiet_run_async (task : string) (payload : gmap string json) :
  quiet (_run_async env task payload).
Proof.
  unfold _run_async, with_session.
  repeat first [ apply quiet_then_exit; apply quiet_task_router | quiet_step ].
Qed.

(** [Worker.run]: the events of [_run_async], then one delivery. *)
Lemma run_eq (task : string) (payload : gmap string json) (tr : list event) :
  run env task payload tr
  = (Ok tt, (tr ++ events_of env task payload
             ++ [EvEmit (delivered (outcome env task payload))])%list).
Proof.
  destruct (quiet_run_async task payload) as [Hl _].
  unfold run, try_except, mbind, M_bind, bind, finished_emit, tell, raise,
    Exception, events_of, outcome, value, trace.
  rewrite (Hl tr).
  destruct (_run_async env task payload []) as [[v|e] tr1]; cbn [fst snd].
  - destruct v; cbn [delivered]; now rewrite <- app_assoc.
  - cbn [delivered]. now rewrite <- app_assoc.
Qed.

Lemma silent_events_of (task : string) (payload : gmap string json) :
  emitted (events_of env task payload) = [].
Proof. apply (quiet_run_async task payload). Qed.

(** The result values of the engines do not depend on the trace. *)
Lemma generate_summary_and_reply_value (raw_mail : string) (tr : list event) :
  fst (generate_summary_and_reply env raw_mail tr) = summarized env raw_mail.
Proof.
  now rewrite (proj1 (quiet_generate_summary_and_reply raw_mail) tr).
Qed.

Lemma decide_action_value (cmd : json) (tr : list event) :
  fst (decide_action env cmd tr) = decided env cmd.
Proof. now rewrite (proj1 (quiet_decide_action cmd) tr). Qed.

End QuietFacts.

(** Side conditions of the lemmas on [value] and [trace]. *)
Ltac quiet_solve :=
  intros;
  repeat first
    [ apply quiet_generate_summary_and_reply | apply quiet_decide_action
    | apply quiet_call_tool | apply quiet_task_router
    | apply quiet_ret | apply quiet_lift | apply quiet_raise
    | apply quiet_tell; exact I
    | apply quiet_bind; [|intros ?]
    | apply quiet_try_except; [|intros ?]
    | apply quiet_if ].

Ltac logs_solve := intros; apply quiet_logs; quiet_solve.

(** ** The value of a run *)

Section ValueFacts.
Context `{PyLib} (env : Env).

Lemma value_bind {A B} (m : M (list event) A) (k : A -> M (list event) B) :
  (forall a, logs (k a)) ->
  value (m ≫= k)
  = match value m with
    | Ok a => value (k a)
    | Raise e => Raise e
    end.
Proof.
  intros Hk. unfold value, mbind, M_bind, bind.
  destruct (m []) as [[a|e] tr1]; cbn [fst]; [|reflexivity].
  now rewrite (Hk a tr1).
Qed.

Lemma value_call_tool (name : string) (arguments : gmap string json) :
  value (call_tool env name arguments) = session_call_tool env name arguments.
Proof. reflexivity. Qed.

(** [_run_async]: the session is entered, the router runs, the session
    is left. *)
Lemma outcome_eq (task : string) (payload : gmap string json) :
  outcome env task payload
  = match session_enter env with
    | Raise e => Raise e
    | Ok _ =>
        match session_exit env with
        | Raise e => Raise e
        | Ok _ => value (task_router env task payload)
        end
    end.
Proof.
  unfold outcome, _run_async, with_session, value.
  unfold mbind, M_bind, bind, tell, lift.
  destruct (session_enter env) as [[]|e]; [|reflexivity].
  unfold then_exit.
  rewrite (proj1 (quiet_task_router env task payload) _).
  cbn [fst snd]. now destruct (session_exit env).
Qed.

Lemma router_send_reply (payload : gmap string json) :
  value (task_router env "send_reply" payload)
  = match session_call_tool env "send_email_action" payload with
    | Raise e => Raise e
    | Ok _ => Ok (JObj {[ "status" := JStr "sent" ]})
    end.
Proof.
  unfold task_router. cbn [String.eqb Ascii.eqb Bool.eqb andb].
  rewrite value_bind by logs_solve. rewrite value_call_tool.
  now destruct (session_call_tool env _ _).
Qed.

Lemma router_add_calendar (payload : gmap string json) :
  value (task_router env "add_calendar" payload)
  = match session_call_tool env "schedule_meeting" payload with
    | Raise e => Raise e
    | Ok content =>
        match index content 0 with
        | Raise e => Raise e
        | Ok msg => Ok (JObj {[ "status" := JStr "calendar_added";
                                "msg" := JStr msg ]})
        end
    end.
Proof.
  unfold task_router. cbn [String.eqb Ascii.eqb Bool.eqb andb].
  rewrite value_bind by logs_solve. rewrite value_call_tool.
  destruct (session_call_tool env _ _) as [content|e]; [|reflexivity].
  rewrite value_bind by logs_solve. unfold value at 1, lift. cbn [fst].
  now destruct (index content 0).
Qed.

Lemma router_analyze_last_mail (payload : gmap string json) :
  value (task_router env "analyze_last_mail" payload)
  = match session_call_tool env "get_latest_email" ∅ with
    | Raise e => Raise e
    | Ok content =>
        match index content 0 with
        | Raise e => Raise e
        | Ok raw_mail =>
            match summarized env raw_mail with
            | Raise e => Raise e
            | Ok ai_res =>
                match dict_merge (analysis_fields raw_mail) ai_res with
                | Raise e => Raise e
                | Ok d => Ok (JObj d)
                end
            end
        end
    end.
Proof.
  unfold task_router. cbn [String.eqb Ascii.eqb Bool.eqb andb].
  rewrite value_bind by logs_solve. rewrite value_call_tool.
  destruct (session_call_tool env _ _) as [content|e]; [|reflexivity].
  rewrite value_bind by logs_solve. unfold value at 1, lift. cbn [fst].
  destruct (index content 0) as [raw_mail|e]; [|reflexivity].
  rewrite value_bind by logs_solve. fold (summarized env raw_mail).
  destruct (summarized env raw_mail) as [ai_res|e]; [|reflexivity].
  rewrite value_bind by logs_solve. unfold value at 1, lift. cbn [fst].
  fold (analysis_fields raw_mail).
  now destruct (dict_merge _ ai_res).
Qed.

Lemma router_process_command (payload : gmap string json) :
  value (task_router env "process_command" payload)
  = match decided env (dict_get payload "command") with
    | Raise e => Raise e
    | Ok ai_res =>
        match value_get ai_res "target_name" with
        | Raise e => Raise e
        | Ok target_name =>
            match resolved env target_name with
            | Raise e => Raise e
            | Ok found_email =>
                match dict_merge (command_fields found_email) ai_res with
                | Raise e => Raise e
                | Ok d => Ok (JObj d)
                end
            end
        end
    end.
Proof.
  unfold task_router. cbn [String.eqb Ascii.eqb Bool.eqb andb].
  rewrite value_bind by logs_solve.
  fold (decided env (dict_get payload "command")).
  destruct (decided env _) as [ai_res|e]; [|reflexivity].
  rewrite value_bind by logs_solve. unfold value at 1, lift. cbn [fst].
  destruct (value_get ai_res "target_name") as [target_name|e]; [|reflexivity].
  rewrite value_bind by logs_solve.
  assert (Htail : forall found_email : json,
    value (d ← lift (dict_merge {[ "status" := JStr "command_processed";
                                   "found_email" := found_email ]} ai_res);
           mret (JObj d))
    = match dict_merge (command_fields found_email) ai_res with
      | Raise e => Raise e
      | Ok d => Ok (JObj d)
      end).
  { intros found_email. rewrite value_bind by logs_solve.
    unfold value at 1, lift. cbn [fst]. fold (command_fields found_email).
    now destruct (dict_merge _ ai_res). }
  unfold resolved. destruct (truthy target_name).
  - rewrite value_bind by logs_solve. rewrite value_call_tool.
    destruct (session_call_tool env _ _) as [content|e]; [|reflexivity].
    rewrite value_bind by logs_solve. unfold value at 1, lift. cbn [fst].
    destruct (index content 0) as [reply|e]; [|reflexivity].
    unfold accepted. destruct (contains "@" reply); apply Htail.
  - apply Htail.
Qed.

End ValueFacts.

(** ** [Worker.run] *)

Section RunFacts.
Context `{PyLib} (env : Env).

Lemma emitted_run (task : string) (payload : gmap string json)
    (tr : list event) :
  emitted (snd (run env task payload tr))
  = (emitted tr ++ [delivered (outcome env task payload)])%list.
Proof.
  rewrite run_eq. cbn [snd].
  now rewrite !emitted_app, silent_events_of.
Qed.

Lemma lookup_status_merge (ai base : gmap string json) (s0 : string) :
  base !! "status" = Some (JStr s0) -> s0 <> "error" ->
  (ai ∪ base) !! "status" = Some (JStr "error") ->
  ai !! "status" = Some (JStr "error").
Proof.
  intros Hb Hs [Hai|[_ Hbase]]%lookup_union_Some_raw; [exact Hai|].
  congruence.
Qed.

(** On the four task kinds the router returns a dict, and its status is
    ["error"] only if the record of the engine says so. *)
Lemma router_value (task : string) (payload : gmap string json) (v : json) :
  In task task_kinds ->
  value (task_router env task payload) = Ok v ->
  exists d, v = JObj d
    /\ (d !! "status" = Some (JStr "error") ->
        exists ai, engine_record env task payload ai
                   /\ ai !! "status" = Some (JStr "error")).
Proof.
  intros Hk. cbn in Hk.
  destruct Hk as [<-|[<-|[<-|[<-|[]]]]].
  - rewrite router_analyze_last_mail.
    destruct (session_call_tool env _ _) as [[|raw_mail rest]|] eqn:Hcall;
      try discriminate.
    cbn [index lookup list_lookup].
    destruct (summarized env raw_mail) as [ai_res|] eqn:Hai; [|discriminate].
    destruct ai_res as [| | | | | |ai]; try discriminate.
    cbn [dict_merge]. intros [= <-]. eexists. split; [reflexivity|].
    intros Hst. exists ai. split; [left; split; eauto|].
    now apply (lookup_status_merge ai (analysis_fields raw_mail) "success").
  - rewrite router_process_command.
    destruct (decided env _) as [ai_res|] eqn:Hai; [|discriminate].
    destruct (value_get ai_res "target_name") as [target|]; [|discriminate].
    destruct (resolved env target) as [found|]; [|discriminate].
    destruct ai_res as [| | | | | |ai]; try discriminate.
    cbn [dict_merge]. intros [= <-]. eexists. split; [reflexivity|].
    intros Hst. exists ai. split; [right; split; [reflexivity | exact Hai]|].
    now apply (lookup_status_merge ai (command_fields found)
                 "command_processed").
  - rewrite router_send_reply.
    destruct (session_call_tool env _ _); [|discriminate].
    intros [= <-]. eexists. split; [reflexivity|]. discriminate.
  - rewrite router_add_calendar.
    destruct (session_call_tool env _ _) as [content|]; [|discriminate].
    destruct (index content 0) as [msg|]; [|discriminate].
    intros [= <-]. eexists. split; [reflexivity|]. discriminate.
Qed.

End RunFacts.

(** C1, as amended.  A run on one of the four task kinds delivers
    exactly one result.  If [_run_async] raises, the result is
    [{"status": "error", "msg": str(e)}], whatever the text of [e];
    otherwise it is the dict the router returns, and its status is
    ["error"] only if the record of the intent engine has a ["status"]
    key with that value. *)
Theorem run_emits_exactly_once `{PyLib} (env : Env) (task : string)
    (payload : gmap string json) (tr : list event) :
  In task task_kinds ->
  exists d,
    run env task payload tr
    = (Ok tt, (tr ++ events_of env task payload ++ [EvEmit d])%list)
    /\ emitted (snd (run env task payload tr)) = (emitted tr ++ [d])%list
    /\ match outcome env task payload with
       | Raise e => d = error_result e
       | Ok v =>
           v = JObj d
           /\ (d !! "status" = Some (JStr "error") ->
               exists ai, engine_record env task payload ai
                          /\ ai !! "status" = Some (JStr "error"))
       end.
Proof.
  intros Hk. exists (delivered (outcome env task payload)).
  split; [apply run_eq|]. split; [apply emitted_run|].
  destruct (outcome env task payload) as [v|e] eqn:Ho; [|reflexivity].
  rewrite outcome_eq in Ho.
  destruct (session_enter env); [|discriminate].
  destruct (session_exit env); [|discriminate].
  destruct (router_value env task payload v Hk Ho) as (d & -> & Hd).
  cbn [delivered]. auto.
Qed.

Lemma run_emits_exactly_once_witness :
  emitted (snd (@run CPython.lib env0 "send_reply" ∅ []))
  = [ {[ "status" := JStr "sent" ]} ].
Proof.
  destruct (@run_emits_exactly_once CPython.lib env0 "send_reply" ∅ [])
    as (d & _ & Hem & Hout).
  - cbn. tauto.
  - rewrite Hem. vm_compute in Hout. destruct Hout as [Hd _].
    injection Hd as <-. reflexivity.
Defined.

(** A status ["error"] without any exception, and an error result
    without a message. *)
Lemma error_status_without_exception :
  (exists d,
     @outcome CPython.lib (env_answering answer_with_status)
       "analyze_last_mail" ∅ = Ok (JObj d)
     /\ emitted (snd (@run CPython.lib (env_answering answer_with_status)
                        "analyze_last_mail" ∅ [])) = [d]
     /\ d !! "status" = Some (JStr "error"))
  /\ emitted (snd (@run CPython.lib env_closed "send_reply" ∅ []))
     = [ {[ "status" := JStr "error"; "msg" := JStr "" ]} ].
Proof.
  split.
  - eexists. split; [vm_compute; reflexivity|]. split; vm_compute; reflexivity.
  - vm_compute. reflexivity.
Qed.

(** ** The events of a run *)

Section EventFacts.
Context `{PyLib} (env : Env).

Lemma trace_bind {A B} (m : M (list event) A) (k : A -> M (list event) B) :
  (forall a, logs (k a)) ->
  trace (m ≫= k)
  = match value m with
    | Ok a => (trace m ++ trace (k a))%list
    | Raise _ => trace m
    end.
Proof.
  intros Hk. unfold trace, value, mbind, M_bind, bind.
  destruct (m []) as [[a|e] tr1]; cbn [fst snd]; [|reflexivity].
  now rewrite (Hk a tr1).
Qed.

Lemma events_of_eq (task : string) (payload : gmap string json) :
  events_of env task payload
  = EvSessionEnter ::
    match session_enter env with
    | Raise _ => []
    | Ok _ => (trace (task_router env task payload) ++ [EvSessionExit])%list
    end.
Proof.
  unfold events_of, _run_async, with_session, trace.
  unfold mbind, M_bind, bind, tell, lift.
  destruct (session_enter env) as [[]|e]; [|reflexivity].
  unfold then_exit.
  rewrite (proj1 (quiet_task_router env task payload) _).
  cbn [fst snd app]. now destruct (session_exit env).
Qed.

(** The engine calls no tool. *)
Lemma tool_calls_decide_action (cmd : json) :
  tool_calls (trace (decide_action env cmd)) = [].
Proof.
  unfold trace, decide_action, _get_time_context, tell, try_except, lift,
    mbind, mret, M_bind, M_ret, bind, ret, Exception.
  destruct (datetime_add (now env) 1 0); [|reflexivity].
  destruct (datetime_add (now env) 7 0); [|reflexivity].
  destruct (ollama_chat env _) as [text|]; [|reflexivity].
  rewrite parse_state.
  destruct (fst (_clean_and_parse_json text tt)) as [v|]; [|reflexivity].
  now destruct (negb (truthy v)).
Qed.

(** Without a name to resolve, [process_command] adds the events of the
    engine and no other. *)
Lemma trace_process_command_no_target (payload ai : gmap string json) :
  decided env (dict_get payload "command") = Ok (JObj ai) ->
  truthy (dict_get ai "target_name") = false ->
  trace (task_router env "process_command" payload)
  = trace (decide_action env (dict_get payload "command")).
Proof.
  intros Hd Ht. unfold task_router. cbn [String.eqb Ascii.eqb Bool.eqb andb].
  rewrite trace_bind by logs_solve.
  fold (decided env (dict_get payload "command")). rewrite Hd.
  rewrite trace_bind by logs_solve. unfold value at 1, lift.
  cbn [fst value_get]. rewrite trace_bind by logs_solve. rewrite Ht.
  unfold value at 1. cbn [fst mret M_ret ret].
  rewrite trace_bind by logs_solve. unfold value at 1, lift.
  cbn [fst dict_merge]. unfold trace at 2 3 4 5. cbn [snd lift mret M_ret ret].
  now rewrite !app_nil_r.
Qed.

End EventFacts.

(** ** [process_command] *)

(** A key of the router's fields, after the engine record is merged. *)
Lemma lookup_merged (ai fields : gmap string json) (k : string) (v : json) :
  fields !! k = Some v -> (ai ∪ fields) !! k = Some (default v (ai !! k)).
Proof.
  intros Hk. apply lookup_union_Some_raw.
  destruct (ai !! k); cbn [default]; [now left | now right].
Qed.

(** C6, as amended.  In a [process_command] run whose engine returns
    the record [ai]: when [target_name] is falsy no tool is called,
    whatever the keys of [ai] and however the session opens and closes.
    When the session opens and closes, the result has the status of
    [ai] if [ai] has a ["status"] key and ["command_processed"]
    otherwise, and the [found_email] of [ai] if [ai] has that key;
    otherwise its [found_email] is [None] for a falsy [target_name] and,
    for a truthy one, the resolver's reply if the reply contains ["@"]
    and [None] if it does not. *)
Theorem process_command_found_email `{PyLib} (env : Env)
    (payload ai : gmap string json) (tr : list event) :
  decided env (dict_get payload "command") = Ok (JObj ai) ->
  (truthy (dict_get ai "target_name") = true ->
   session_enter env = Ok tt -> session_exit env = Ok tt ->
   forall reply rest,
     session_call_tool env "find_email_by_name"
       {[ "name" := dict_get ai "target_name" ]} = Ok (reply :: rest) ->
     exists d,
       emitted (snd (run env "process_command" payload tr))
       = (emitted tr ++ [d])%list
       /\ d !! "status"
          = Some (default (JStr "command_processed") (ai !! "status"))
       /\ d !! "found_email"
          = Some (default (accepted reply) (ai !! "found_email"))
       /\ (ai !! "found_email" = None ->
           contains "@" reply = false -> d !! "found_email" = Some JNull)
       /\ (ai !! "found_email" = None ->
           d !! "found_email" <> Some JNull -> contains "@" reply = true))
  /\
  (truthy (dict_get ai "target_name") = false ->
   tool_calls (snd (run env "process_command" payload tr)) = tool_calls tr
   /\ (session_enter env = Ok tt -> session_exit env = Ok tt ->
       exists d,
         emitted (snd (run env "process_command" payload tr))
         = (emitted tr ++ [d])%list
         /\ d !! "status"
            = Some (default (JStr "command_processed") (ai !! "status"))
         /\ d !! "found_email" = Some (default JNull (ai !! "found_email")))).
Proof.
  intros Hai.
  assert (Hmerge : forall found,
    (ai ∪ command_fields found) !! "status"
    = Some (default (JStr "command_processed") (ai !! "status"))
    /\ (ai ∪ command_fields found) !! "found_email"
       = Some (default found (ai !! "found_email"))).
  { intros found. split; now apply lookup_merged. }
  split.
  - intros Ht Hin Hout reply rest Hcall.
    exists (ai ∪ command_fields (accepted reply)).
    rewrite emitted_run, outcome_eq, Hin, Hout, router_process_command, Hai.
    cbn [value_get]. unfold resolved. rewrite Ht, Hcall.
    cbn [index lookup list_lookup dict_merge delivered].
    destruct (Hmerge (accepted reply)) as [H1 H2].
    repeat split; try assumption.
    + intros Hfe Hno. rewrite H2, Hfe. unfold accepted. now rewrite Hno.
    + intros Hfe Hne. rewrite H2, Hfe in Hne. unfold accepted in Hne.
      cbn [default] in Hne.
      destruct (contains "@" reply); [reflexivity | congruence].
  - intros Ht. split.
    + rewrite run_eq. cbn [snd]. rewrite events_of_eq.
      destruct (session_enter env) as [[]|e].
      * rewrite (trace_process_command_no_target env payload ai Hai Ht).
        rewrite !tool_calls_app. cbn [tool_calls omap list_omap app].
        rewrite !tool_calls_app, tool_calls_decide_action. cbn.
        now rewrite app_nil_r.
      * rewrite !tool_calls_app. cbn. now rewrite app_nil_r.
    + intros Hin Hout. exists (ai ∪ command_fields JNull).
      rewrite emitted_run, outcome_eq, Hin, Hout, router_process_command, Hai.
      cbn [value_get]. unfold resolved. rewrite Ht.
      cbn [dict_merge delivered].
      destruct (Hmerge JNull) as [H1 H2]. now repeat split.
Qed.

Lemma process_command_found_email_witness :
  exists d,
    emitted (snd (@run CPython.lib (env_answering answer_plain)
                    "process_command" ∅ [])) = [d]
    /\ d !! "status" = Some (JStr "command_processed")
    /\ d !! "found_email" = Some JNull.
Proof.
  destruct (@process_command_found_email CPython.lib
              (env_answering answer_plain) ∅
              {[ "target_name" := JStr "Ali"; "draft_text" := JStr "Merhaba" ]}
              []) as [Hcall _].
  - vm_compute. reflexivity.
  - destruct (Hcall eq_refl eq_refl eq_refl "BULUNAMADI" [] eq_refl)
      as (d & Hem & Hs & _ & Hno & _).
    exists d. split; [exact Hem|]. split; [exact Hs|].
    now apply Hno.
Defined.

(** The model names [found_email] and [status] itself: the resolver
    finds nobody, and the result carries an address and the status
    ["error"]. *)
Lemma process_command_keys_collide :
  exists d,
    emitted (snd (@run CPython.lib (env_answering answer_with_found_email)
                    "process_command" ∅ [])) = [d]
    /\ @decided CPython.lib (env_answering answer_with_found_email) JNull
       = Ok (JObj {[ "target_name" := JStr "Ali";
                     "found_email" := JStr "ali@evil.com";
                     "status" := JStr "error" ]})
    /\ tools "find_email_by_name" {[ "name" := JStr "Ali" ]}
       = Ok ["BULUNAMADI"]
    /\ contains "@" "BULUNAMADI" = false
    /\ d !! "found_email" = Some (JStr "ali@evil.com")
    /\ d !! "status" = Some (JStr "error").
Proof. eexists. repeat split; vm_compute; reflexivity. Qed.

(** ** Precedence of the engine record *)

(** C9.  In the results of [analyze_last_mail] and [process_command]
    every key of the engine record keeps the value the model gave it,
    also when the router sets the same key. *)
Theorem model_record_takes_precedence `{PyLib} (env : Env)
    (payload ai : gmap string json) (tr : list event) (k : string) (v : json) :
  session_enter env = Ok tt -> session_exit env = Ok tt ->
  ai !! k = Some v ->
  (forall raw_mail rest,
     session_call_tool env "get_latest_email" ∅ = Ok (raw_mail :: rest) ->
     summarized env raw_mail = Ok (JObj ai) ->
     exists d,
       emitted (snd (run env "analyze_last_mail" payload tr))
       = (emitted tr ++ [d])%list
       /\ d = ai ∪ analysis_fields raw_mail
       /\ d !! k = Some v)
  /\
  (forall found_email,
     decided env (dict_get payload "command") = Ok (JObj ai) ->
     resolved env (dict_get ai "target_name") = Ok found_email ->
     exists d,
       emitted (snd (run env "process_command" payload tr))
       = (emitted tr ++ [d])%list
       /\ d = ai ∪ command_fields found_email
       /\ d !! k = Some v).
Proof.
  intros Hin Hout Hk. split.
  - intros raw_mail rest Hcall Hai. eexists. split; [|split; [reflexivity|]].
    + rewrite emitted_run, outcome_eq, Hin, Hout, router_analyze_last_mail.
      rewrite Hcall. cbn [index lookup list_lookup]. rewrite Hai.
      reflexivity.
    + apply lookup_union_Some_raw. now left.
  - intros found Hai Hres. eexists. split; [|split; [reflexivity|]].
    + rewrite emitted_run, outcome_eq, Hin, Hout, router_process_command.
      rewrite Hai. cbn [value_get]. rewrite Hres. reflexivity.
    + apply lookup_union_Some_raw. now left.
Qed.

Lemma model_record_takes_precedence_witness :
  exists d,
    emitted (snd (@run CPython.lib (env_answering answer_with_status)
                    "analyze_last_mail" ∅ [])) = [d]
    /\ analysis_fields mail_text !! "status" = Some (JStr "success")
    /\ d !! "status" = Some (JStr "error").
Proof.
  assert (Hk : record_with_status !! "status" = Some (JStr "error"))
    by (vm_compute; reflexivity).
  destruct (proj1 (@model_record_takes_precedence CPython.lib
              (env_answering answer_with_status) ∅ record_with_status
              [] "status" (JStr "error") eq_refl eq_refl Hk)
            mail_text [] eq_refl)
    as (d & Hem & _ & Hs).
  - vm_compute. reflexivity.
  - exists d. split; [exact Hem|]. split; [reflexivity | exact Hs].
Defined.

(** The same for the other keys the router sets. *)
Example model_overrides_sender_and_found_email :
  (exists d,
     emitted (snd (@run CPython.lib (env_answering answer_with_status)
                     "analyze_last_mail" ∅ [])) = [d]
     /\ analysis_fields mail_text !! "sender" = Some (JStr "engin@x.com")
     /\ d !! "sender" = Some (JStr "x@evil.com"))
  /\
  (exists d,
     emitted (snd (@run CPython.lib (env_answering answer_with_found_email)
                     "process_command" ∅ [])) = [d]
     /\ d !! "found_email" = Some (JStr "ali@evil.com")).
Proof. split; eexists; repeat split; vm_compute; reflexivity. Qed.

(* ===================================================================== *)
(** * Part VIII.  Further properties of the three modules                 *)
(* ===================================================================== *)

(** ** More on strings *)

Section SplitFacts.

Lemma startswith_self (p s : string) : startswith p (p ++ s) = true.
Proof.
  induction p as [|a p IH]; [reflexivity|].
  change (String a p ++ s) with (String a (p ++ s)).
  cbn [startswith]. now rewrite Ascii.eqb_refl, IH.
Qed.

Lemma drop_chars_app (p s : string) :
  drop_chars (String.length p) (p ++ s) = s.
Proof.
  induction p as [|a p IH]; [now destruct s|].
  change (String a p ++ s) with (String a (p ++ s)). exact IH.
Qed.

(** The first occurrence of a separator that starts with [c], after a
    text without [c]. *)
Lemma partition_after_clean (c : ascii) (m a b : string) :
  contains (String c "") a = false ->
  partition (String c m) (a ++ String c m ++ b) = Some (a, b).
Proof.
  induction a as [|x a IH]; intros Ha.
  - change ("" ++ String c m ++ b) with (String c m ++ b).
    assert (Hs : startswith (String c m) (String c m ++ b) = true)
      by apply startswith_self.
    assert (Hd : drop_chars (String.length (String c m)) (String c m ++ b) = b)
      by apply drop_chars_app.
    destruct (String c m ++ b) as [|y r] eqn:E; [discriminate|].
    cbn [partition]. now rewrite Hs, Hd.
  - apply contains_false_inv in Ha as [Hhd Htl].
    change (String x a ++ String c m ++ b) with (String x (a ++ String c m ++ b)).
    cbn [startswith] in Hhd. rewrite andb_true_r in Hhd.
    cbn [partition startswith]. rewrite Hhd. cbn [andb].
    now rewrite (IH Htl).
Qed.

Lemma contains_clean_app (c : ascii) (m a s : string) :
  contains (String c "") a = false ->
  contains (String c m) (a ++ s) = contains (String c m) s.
Proof.
  induction a as [|x a IH]; intros Ha; [reflexivity|].
  apply contains_false_inv in Ha as [Hhd Htl].
  change (String x a ++ s) with (String x (a ++ s)).
  cbn [startswith] in Hhd. rewrite andb_true_r in Hhd.
  cbn [contains startswith]. rewrite Hhd. cbn [andb orb]. exact (IH Htl).
Qed.

Lemma contains_partition (sep s : string) :
  contains sep s = true -> exists a b, partition sep s = Some (a, b).
Proof.
  induction s as [|c s IH]; cbn [contains partition]; intros Hc.
  - rewrite orb_false_r in Hc. rewrite Hc. eauto.
  - destruct (startswith sep (String c s)); [eauto|].
    destruct (IH Hc) as (a & b & ->). eauto.
Qed.

Lemma index_split_0 (sep s : string) :
  index (split sep s) 0 = Ok (before sep s).
Proof.
  unfold split, before.
  destruct (partition sep s) as [[a b]|] eqn:Hp.
  - exact (split_fuel_first _ _ _ _ _ Hp).
  - now rewrite (split_fuel_none _ _ _ Hp).
Qed.

Lemma index_split_1 (sep s a b : string) :
  sep <> "" -> partition sep s = Some (a, b) ->
  index (split sep s) 1 = Ok (before sep b).
Proof.
  intros Hsep Hp. unfold split, before.
  pose proof (partition_shorter _ _ _ _ Hsep Hp) as Hlt.
  destruct (String.length s) as [|n]; [lia|].
  destruct (partition sep b) as [[c d]|] eqn:Hb.
  - exact (split_fuel_second _ _ _ _ _ _ _ Hp Hb).
  - exact (split_fuel_second_last _ _ _ _ _ Hp Hb).
Qed.

(** A text without [c] is what comes before [c]. *)
Lemma before_clean (c : ascii) (a b : string) :
  contains (String c "") a = false ->
  before (String c "") (a ++ String c b) = a.
Proof.
  intros Ha. unfold before.
  change (a ++ String c b) with (a ++ String c "" ++ b).
  now rewrite (partition_after_clean c "" a b Ha).
Qed.

Lemma before_none (sep s : string) :
  contains sep s = false -> before sep s = s.
Proof. intros Hs. unfold before. now rewrite (partition_none _ _ Hs). Qed.

Lemma string_app_nil_r (s : string) : s ++ "" = s.
Proof.
  induction s as [|c s IH]; [reflexivity|].
  change (String c s ++ "") with (String c (s ++ "")). now rewrite IH.
Qed.

End SplitFacts.

(** ** A fenced block inside prose *)

Section ProseFacts.

Lemma contains_clean (c : ascii) (m a : string) :
  contains (String c "") a = false -> contains (String c m) a = false.
Proof.
  induction a as [|x a IH]; intros Ha.
  - cbn [contains startswith]. now destruct m.
  - apply contains_false_inv in Ha as [Hhd Htl].
    cbn [startswith] in Hhd. rewrite andb_true_r in Hhd.
    cbn [contains startswith]. now rewrite Hhd, (IH Htl).
Qed.

Lemma startswith_clean (c : ascii) (m a : string) :
  contains (String c "") a = false -> startswith (String c m) a = false.
Proof.
  destruct a as [|x a]; [reflexivity|].
  intros [Hhd _]%contains_false_inv.
  cbn [startswith] in *. rewrite andb_true_r in Hhd. now rewrite Hhd.
Qed.

(** The closing fence is the first fence after a body without one. *)
Lemma partition_fence_closing_prose (s after : string) :
  contains fence s = false ->
  partition fence (s ++ nl ++ fence ++ after) = Some (s ++ nl, after).
Proof.
  induction s as [|c s IH]; intros Hs.
  - reflexivity.
  - apply contains_false_inv in Hs as [Hhd Htl].
    change (String c s ++ nl ++ fence ++ after)
      with (String c (s ++ nl ++ fence ++ after)).
    cbn [partition].
    change (String c (s ++ nl ++ fence ++ after))
      with (String c s ++ String "010" (fence ++ after)).
    rewrite (startswith_fence_app_nl _ _ Hhd).
    change (s ++ String "010" (fence ++ after))
      with (s ++ nl ++ fence ++ after).
    now rewrite (IH Htl).
Qed.

(** No tagged fence in a body without fence, its closing fence and prose
    without backtick that does not go on with the tag. *)
Lemma contains_fence_json_closing_prose (s after : string) :
  contains fence s = false ->
  contains "`" after = false -> startswith "json" after = false ->
  contains fence_json (s ++ nl ++ fence ++ after) = false.
Proof.
  intros Hs Ha Hj. induction s as [|c s IH].
  - change ("" ++ nl ++ fence ++ after)
      with (String "010" (String "`" (String "`" (String "`" after)))).
    cbn [contains].
    change (startswith fence_json (String "010" _)) with false.
    change (startswith fence_json
              (String "`" (String "`" (String "`" after))))
      with (startswith "json" after).
    change (startswith fence_json (String "`" (String "`" after)))
      with (startswith "`json" after).
    change (startswith fence_json (String "`" after))
      with (startswith "``json" after).
    rewrite Hj, !(startswith_clean "`" _ after Ha).
    change (contains fence_json after) with (contains "```json" after).
    now rewrite (contains_clean "`" "``json" after Ha).
  - apply contains_false_inv in Hs as [Hhd Htl].
    change (String c s ++ nl ++ fence ++ after)
      with (String c (s ++ nl ++ fence ++ after)).
    cbn [contains]. rewrite (IH Htl), orb_false_r.
    destruct (startswith fence_json (String c (s ++ nl ++ fence ++ after)))
      eqn:E; [|reflexivity].
    apply startswith_fence_json_fence in E.
    change (String c (s ++ nl ++ fence ++ after))
      with (String c s ++ String "010" (fence ++ after)) in E.
    now rewrite (startswith_fence_app_nl _ _ Hhd) in E.
Qed.

Lemma contains_nl_fence (text : string) :
  contains fence text = false -> contains fence (nl ++ text) = false.
Proof.
  intros Hf. change (nl ++ text) with (String "010" text).
  cbn [contains]. rewrite Hf. now destruct text as [|a [|b [|c t]]].
Qed.

(** The interior of the first fenced block of a text with prose around
    the block. *)
Lemma recovered_in_prose (tag pre after text : string) :
  tag = fence_json \/ tag = fence ->
  contains "`" pre = false ->
  contains "`" after = false -> startswith "json" after = false ->
  contains fence text = false ->
  recovered (pre ++ tag ++ nl ++ text ++ nl ++ fence ++ after)
  = Ok (nl ++ text ++ nl).
Proof.
  intros Htag Hpre Ha Hj Hf.
  pose proof (contains_nl_fence text Hf) as Hbody.
  assert (Hrest : contains fence_json (nl ++ text ++ nl ++ fence ++ after)
                  = false).
  { rewrite <- string_app_assoc.
    now apply contains_fence_json_closing_prose. }
  assert (Hclose : partition fence (nl ++ text ++ nl ++ fence ++ after)
                   = Some (nl ++ text ++ nl, after)).
  { rewrite <- (string_app_assoc nl text (nl ++ fence ++ after)).
    rewrite <- (string_app_assoc nl text nl).
    now apply partition_fence_closing_prose. }
  assert (Hne1 : fence_json <> "") by discriminate.
  assert (Hne2 : fence <> "") by discriminate.
  unfold recovered. destruct Htag as [-> | ->].
  - assert (Hin : contains fence_json
                    (pre ++ fence_json ++ nl ++ text ++ nl ++ fence ++ after)
                  = true).
    { unfold fence_json at 1. rewrite (contains_clean_app "`" _ pre _ Hpre).
      reflexivity. }
    rewrite Hin.
    assert (Hp : partition fence_json
                   (pre ++ fence_json ++ nl ++ text ++ nl ++ fence ++ after)
                 = Some (pre, nl ++ text ++ nl ++ fence ++ after))
      by now apply partition_after_clean.
    assert (H1 : index (split fence_json
                   (pre ++ fence_json ++ nl ++ text ++ nl ++ fence ++ after)) 1
                 = Ok (nl ++ text ++ nl ++ fence ++ after)).
    { rewrite (index_split_1 _ _ _ _ Hne1 Hp).
      now rewrite (before_none _ _ Hrest). }
    rewrite H1, index_split_0. unfold before. now rewrite Hclose.
  - assert (Hnj : contains fence_json
                    (pre ++ fence ++ nl ++ text ++ nl ++ fence ++ after)
                  = false).
    { unfold fence_json at 1. rewrite (contains_clean_app "`" _ pre _ Hpre).
      change (fence ++ nl ++ text ++ nl ++ fence ++ after)
        with (String "`" (String "`" (String "`"
                (nl ++ text ++ nl ++ fence ++ after)))).
      set (body := nl ++ text ++ nl ++ fence ++ after) in *.
      cbn [contains].
      change (startswith fence_json
                (String "`" (String "`" (String "`" body)))) with false.
      change (startswith fence_json (String "`" (String "`" body)))
        with false.
      change (startswith fence_json (String "`" body)) with false.
      exact Hrest. }
    rewrite Hnj.
    assert (Hin : contains fence
                    (pre ++ fence ++ nl ++ text ++ nl ++ fence ++ after)
                  = true).
    { unfold fence at 1. rewrite (contains_clean_app "`" _ pre _ Hpre).
      reflexivity. }
    rewrite Hin.
    assert (Hp : partition fence
                   (pre ++ fence ++ nl ++ text ++ nl ++ fence ++ after)
                 = Some (pre, nl ++ text ++ nl ++ fence ++ after))
      by now apply partition_after_clean.
    rewrite (index_split_1 _ _ _ _ Hne2 Hp).
    unfold before at 1. rewrite Hclose. rewrite index_split_0.
    apply f_equal, before_none.
    rewrite <- string_app_assoc. now apply contains_app_nl_fence.
Qed.

End ProseFacts.

(** X1.  The sanitizer drops the prose around a fenced block: a text
    that is no JSON as a whole and holds one fenced block, tagged [json]
    or not, between prose without backticks (the prose after the block
    not going on with [json]), is parsed to what the trimmed interior of
    the block decodes to. *)
Theorem parse_fenced_in_prose `{PyLib} (tag pre after text : string)
    (j : json) (e : exn) :
  tag = fence_json \/ tag = fence ->
  contains "`" pre = false ->
  contains "`" after = false -> startswith "json" after = false ->
  contains fence text = false ->
  json_loads (pre ++ tag ++ nl ++ text ++ nl ++ fence ++ after) = Raise e ->
  is_JSONDecodeError e = true ->
  json_loads (strip text) = Ok j ->
  _clean_and_parse_json (pre ++ tag ++ nl ++ text ++ nl ++ fence ++ after) tt
  = (Ok j, tt).
Proof.
  intros Htag Hpre Ha Hj Hf He Hc Hs.
  rewrite (parse_second_pass _ e tt He Hc).
  rewrite (recovered_in_prose tag pre after text Htag Hpre Ha Hj Hf).
  now rewrite strip_nl_app_nl, Hs.
Qed.

Lemma parse_fenced_in_prose_witness :
  @_clean_and_parse_json CPython.lib unit
    ("Here is the record: " ++ fence_json ++ nl ++ record_plain ++ nl ++ fence
     ++ " Hope this helps.") tt
  = (Ok (JObj {[ "summary" := JStr "ok"; "detected_date" := JNull ]}), tt).
Proof.
  apply (@parse_fenced_in_prose CPython.lib fence_json "Here is the record: "
           " Hope this helps." record_plain _
           (Exn JSONDecodeError "Expecting value")).
  - now left.
  - reflexivity.
  - reflexivity.
  - reflexivity.
  - vm_compute; reflexivity.
  - vm_compute; reflexivity.
  - reflexivity.
  - vm_compute; reflexivity.
Defined.

(** ** More on the intent engines *)

(** X2.  An answer of the model that decodes to a falsy value, such as
    [{}], [[]], [0] or an empty text, counts as no answer: each engine
    returns its fallback record, whose draft is ["Hata: Boş Yanıt"] for
    the summary and ["AI yanıtı anlaşılamadı."] for the command; when
    the backend raises, the drafts are ["Hata: "] with the text of the
    exception and ["Sistem hatası."]. *)
Theorem fallback_drafts `{PyLib} (env : Env) (email_content : string)
    (user_query : json) (tr : list event) :
  clock_ok env ->
  let ps := Prompt SummaryReply (grounding env) (JStr email_content) in
  let pa := Prompt ActionDecision (grounding env) user_query in
  (forall text v,
     ollama_chat env ps = Ok text ->
     fst (_clean_and_parse_json text tt) = Ok v -> truthy v = false ->
     exists d,
       fst (generate_summary_and_reply env email_content tr) = Ok (JObj d)
       /\ d !! "summary" = Some (JStr "Hata")
       /\ d !! "draft_reply" = Some (JStr "Hata: Boş Yanıt"))
  /\ (forall e,
        ollama_chat env ps = Raise e ->
        exists d,
          fst (generate_summary_and_reply env email_content tr) = Ok (JObj d)
          /\ d !! "summary" = Some (JStr "Hata")
          /\ d !! "draft_reply" = Some (JStr ("Hata: " ++ exc_str e)))
  /\ (forall text v,
        ollama_chat env pa = Ok text ->
        fst (_clean_and_parse_json text tt) = Ok v -> truthy v = false ->
        exists d,
          fst (decide_action env user_query tr) = Ok (JObj d)
          /\ d !! "target_name" = Some JNull
          /\ d !! "draft_text" = Some (JStr "AI yanıtı anlaşılamadı."))
  /\ (forall e,
        ollama_chat env pa = Raise e ->
        exists d,
          fst (decide_action env user_query tr) = Ok (JObj d)
          /\ d !! "target_name" = Some JNull
          /\ d !! "draft_text" = Some (JStr "Sistem hatası.")).
Proof.
  intros Hc ps pa. split; [|split; [|split]].
  - intros text v Hchat Hparse Hv.
    rewrite (generate_summary_and_reply_eq env _ _ Hc). cbn [fst].
    fold ps. rewrite Hchat, Hparse, Hv.
    eexists. split; [reflexivity|]. split; reflexivity.
  - intros e Hchat.
    rewrite (generate_summary_and_reply_eq env _ _ Hc). cbn [fst].
    fold ps. rewrite Hchat.
    eexists. split; [reflexivity|]. split; reflexivity.
  - intros text v Hchat Hparse Hv.
    rewrite (decide_action_eq env _ _ Hc). cbn [fst].
    fold pa. rewrite Hchat, Hparse, Hv.
    eexists. split; [reflexivity|]. split; reflexivity.
  - intros e Hchat.
    rewrite (decide_action_eq env _ _ Hc). cbn [fst].
    fold pa. rewrite Hchat.
    eexists. split; [reflexivity|]. split; reflexivity.
Qed.

Lemma fallback_drafts_witness :
  exists d,
    fst (@generate_summary_and_reply CPython.lib (env_answering "{}")
           "Merhaba" []) = Ok (JObj d)
    /\ d !! "summary" = Some (JStr "Hata")
    /\ d !! "draft_reply" = Some (JStr "Hata: Boş Yanıt").
Proof.
  refine (proj1 (@fallback_drafts CPython.lib (env_answering "{}") "Merhaba"
                   JNull [] clock_ok_env0) "{}" (JObj ∅) eq_refl _ _).
  - vm_compute. reflexivity.
  - reflexivity.
Defined.

(** X3.  Each engine call sends one request to the model, whatever the
    model answers: the prompt of the intent with the grounding block and
    the input, and nothing else is added to the trace. *)
Theorem engine_single_request `{PyLib} (env : Env) (email_content : string)
    (user_query : json) (tr : list event) :
  clock_ok env ->
  snd (generate_summary_and_reply env email_content tr)
  = (tr ++ [EvChat (Prompt SummaryReply (grounding env)
                      (JStr email_content))])%list
  /\ snd (decide_action env user_query tr)
     = (tr ++ [EvChat (Prompt ActionDecision (grounding env)
                         user_query)])%list.
Proof.
  intros Hc.
  rewrite (generate_summary_and_reply_eq env _ _ Hc).
  now rewrite (decide_action_eq env _ _ Hc).
Qed.

Lemma engine_single_request_witness :
  snd (@decide_action CPython.lib env0 (JStr "Ali'ye mail yaz") [])
  = [EvChat (Prompt ActionDecision (grounding env0) (JStr "Ali'ye mail yaz"))].
Proof.
  exact (proj2 (@engine_single_request CPython.lib env0 ""
                  (JStr "Ali'ye mail yaz") [] clock_ok_env0)).
Defined.

(** ** The clock at the end of the calendar *)

Section LateClock.
Local Open Scope Z_scope.

(** Adding days to a valid datetime overflows beyond the last day. *)
Lemma datetime_add_overflow (t : datetime) (k : Z) :
  valid_datetime t -> 0 < k -> _MAXORDINAL < toordinal t + k ->
  datetime_add t k 0
  = Raise (Exn OverflowError "date value out of range").
Proof.
  intros (_ & Hh & Hm & Hs) Hk Hover. unfold datetime_add.
  rewrite Z.add_0_r.
  assert (Hsod : 0 <= hour t * 3600 + minute t * 60 + second t < 86400) by lia.
  rewrite (Z.div_small _ _ Hsod), Z.add_0_r.
  destruct (toordinal t + k <=? _MAXORDINAL) eqn:E.
  - apply Z.leb_le in E. lia.
  - now rewrite andb_false_r.
Qed.

Lemma datetime_add_cases (t : datetime) (k : Z) :
  (exists t', datetime_add t k 0 = Ok t')
  \/ datetime_add t k 0 = Raise (Exn OverflowError "date value out of range").
Proof.
  unfold datetime_add.
  destruct (_ && _); [|now right].
  destruct (_ord2ymd _) as [[y m] d]. left. eauto.
Qed.

End LateClock.

(** X4.  The grounding block is computed outside the [try] block of the
    engines: with the clock in the last seven days of the year 9999 both
    operations raise [OverflowError] instead of returning a fallback
    record, and send no request. *)
Theorem engines_raise_late_clock `{PyLib} (env : Env) (email_content : string)
    (user_query : json) (tr : list event) :
  valid_datetime (now env) ->
  (_MAXORDINAL < toordinal (now env) + 7)%Z ->
  generate_summary_and_reply env email_content tr
  = (Raise (Exn OverflowError "date value out of range"), tr)
  /\ decide_action env user_query tr
     = (Raise (Exn OverflowError "date value out of range"), tr).
Proof.
  intros Hv Hover.
  pose proof (datetime_add_overflow (now env) 7 Hv ltac:(lia) Hover) as H7.
  unfold generate_summary_and_reply, decide_action, _get_time_context,
    lift, mbind, M_bind, bind.
  destruct (datetime_add_cases (now env) 1) as [[t' ->] | ->];
    rewrite ?H7; split; reflexivity.
Qed.

Lemma engines_raise_late_clock_witness :
  fst (@decide_action CPython.lib env_late (JStr "Ali") [])
  = Raise (Exn OverflowError "date value out of range").
Proof.
  refine (f_equal fst (proj2 (@engines_raise_late_clock CPython.lib env_late
                                "" (JStr "Ali") [] _ _))).
  - unfold valid_datetime, valid_date; vm_compute; intuition congruence.
  - vm_compute; reflexivity.
Defined.

(** ** An answer that is no record *)

(** X5.  The engines return a truthy answer of the model as it is, a
    record or not.  An answer that is not a JSON object makes the task
    fail: the router raises [TypeError] in [analyze_last_mail], when it
    merges the answer into its result, and [AttributeError] in
    [process_command], when it asks the answer for [target_name], each
    with the text Python gives it; when the session opens and closes,
    [_run_async] raises that exception and the run delivers the error
    result with that text. *)
Theorem non_record_answer_fails_task `{PyLib} (env : Env)
    (payload : gmap string json) (tr : list event) (v : json) :
  clock_ok env -> truthy v = true -> (forall d, v <> JObj d) ->
  (forall raw_mail rest text,
     session_call_tool env "get_latest_email" ∅ = Ok (raw_mail :: rest) ->
     ollama_chat env (Prompt SummaryReply (grounding env) (JStr raw_mail))
     = Ok text ->
     fst (_clean_and_parse_json text tt) = Ok v ->
     let e := Exn TypeError
                ("'" ++ type_name v ++ "' object is not a mapping") in
     summarized env raw_mail = Ok v
     /\ value (task_router env "analyze_last_mail" payload) = Raise e
     /\ (session_enter env = Ok tt -> session_exit env = Ok tt ->
         outcome env "analyze_last_mail" payload = Raise e
         /\ emitted (snd (run env "analyze_last_mail" payload tr))
            = (emitted tr ++ [ {[ "status" := JStr "error";
                                  "msg" := JStr (exc_str e) ]} ])%list))
  /\ (forall text,
        ollama_chat env (Prompt ActionDecision (grounding env)
                           (dict_get payload "command")) = Ok text ->
        fst (_clean_and_parse_json text tt) = Ok v ->
        let e := Exn AttributeError
                   ("'" ++ type_name v
                    ++ "' object has no attribute 'get'") in
        decided env (dict_get payload "command") = Ok v
        /\ value (task_router env "process_command" payload) = Raise e
        /\ (session_enter env = Ok tt -> session_exit env = Ok tt ->
            outcome env "process_command" payload = Raise e
            /\ emitted (snd (run env "process_command" payload tr))
               = (emitted tr ++ [ {[ "status" := JStr "error";
                                     "msg" := JStr (exc_str e) ]} ])%list)).
Proof.
  intros Hc Hv Hno. split.
  - intros raw_mail rest text Hcall Hchat Hparse e.
    assert (Hs : summarized env raw_mail = Ok v).
    { unfold summarized, value.
      rewrite (generate_summary_and_reply_eq env _ _ Hc). cbn [fst].
      now rewrite Hchat, Hparse, Hv. }
    assert (Hr : value (task_router env "analyze_last_mail" payload)
                 = Raise e).
    { rewrite router_analyze_last_mail, Hcall.
      cbn [index lookup list_lookup]. rewrite Hs.
      destruct v as [| | | | | |d]; try reflexivity. now destruct (Hno d). }
    split; [exact Hs|]. split; [exact Hr|]. intros Hin Hout.
    assert (Ho : outcome env "analyze_last_mail" payload = Raise e)
      by now rewrite outcome_eq, Hin, Hout.
    split; [exact Ho|]. now rewrite emitted_run, Ho.
  - intros text Hchat Hparse e.
    assert (Hd : decided env (dict_get payload "command") = Ok v).
    { unfold decided, value.
      rewrite (decide_action_eq env _ _ Hc). cbn [fst].
      now rewrite Hchat, Hparse, Hv. }
    assert (Hr : value (task_router env "process_command" payload)
                 = Raise e).
    { rewrite router_process_command, Hd.
      destruct v as [| | | | | |d]; try reflexivity. now destruct (Hno d). }
    split; [exact Hd|]. split; [exact Hr|]. intros Hin Hout.
    assert (Ho : outcome env "process_command" payload = Raise e)
      by now rewrite outcome_eq, Hin, Hout.
    split; [exact Ho|]. now rewrite emitted_run, Ho.
Qed.

Lemma non_record_answer_fails_task_witness :
  @outcome CPython.lib (env_answering "[1]") "analyze_last_mail" ∅
  = Raise (Exn TypeError "'list' object is not a mapping")
  /\ emitted (snd (@run CPython.lib (env_answering "[1]")
                     "analyze_last_mail" ∅ []))
     = [ {[ "status" := JStr "error";
            "msg" := JStr "'list' object is not a mapping" ]} ].
Proof.
  refine (proj2 (proj2 (proj1 (@non_record_answer_fails_task CPython.lib
                                 (env_answering "[1]") ∅ [] (JArr [JNum 1])
                                 clock_ok_env0 eq_refl _)
                          mail_text [] "[1]" eq_refl eq_refl _))
            eq_refl eq_refl).
  - discriminate.
  - vm_compute. reflexivity.
Defined.

(** ** [EmailManager.get_latest] *)

Section LatestFacts.
Context (gmail : Gmail) {St : Type}.

(** The address of the [SenderEmail] line is always found. *)
Lemma sender_email_eq (sender : string) (s : St) :
  (if contains "<" sender then
     after ← lift (index (split "<" sender) 1);
     lift (index (split ">" after) 0)
   else mret sender : M St string) s
  = (Ok (sender_address sender), s).
Proof.
  unfold sender_address.
  destruct (contains "<" sender) eqn:Hc.
  - destruct (contains_partition _ _ Hc) as (a & b & Hp). rewrite Hp.
    unfold lift, mbind, M_bind, bind.
    rewrite (index_split_1 "<" sender a b ltac:(discriminate) Hp).
    now rewrite index_split_0.
  - now rewrite (partition_none _ _ Hc).
Qed.

(** [get_latest] by the outcome of its two requests. *)
Lemma get_latest_eq (s : St) :
  get_latest gmail s
  = (Ok match messages_list gmail with
        | Raise e => "Hata: " ++ exc_str e
        | Ok [] => "Gelen kutusu boş."
        | Ok (id :: _) =>
            match messages_get gmail id with
            | Raise e => "Hata: " ++ exc_str e
            | Ok msg => latest_text msg
            end
        end, s).
Proof.
  destruct (messages_list gmail) as [[|id ids]|e] eqn:Hl;
    try (unfold get_latest, try_except, lift, mbind, M_bind, bind;
         now rewrite Hl).
  destruct (messages_get gmail id) as [msg|e] eqn:Hg;
    [|unfold get_latest, try_except, lift, mbind, M_bind, bind;
      now rewrite Hl, Hg].
  pose proof (sender_email_eq
                (first_header "From" "(Bilinmiyor)" (payload_headers msg)) s)
    as E.
  unfold get_latest, try_except, lift, mbind, M_bind, bind in *.
  now rewrite Hl, Hg, E.
Qed.

End LatestFacts.

(** X6.  [get_latest] returns a text on every path and leaves the state
    alone: the "empty inbox" text when the listing holds no message, the
    text of the exception when one of the two requests raises, and the
    four lines of the latest message otherwise. *)
Theorem get_latest_never_raises (gmail : Gmail) {St : Type} (s : St) :
  exists answer : string,
    get_latest gmail s = (Ok answer, s)
    /\ (messages_list gmail = Ok [] -> answer = "Gelen kutusu boş.")
    /\ (forall e, messages_list gmail = Raise e ->
                  answer = "Hata: " ++ exc_str e)
    /\ (forall id ids,
          messages_list gmail = Ok (id :: ids) ->
          (forall e, messages_get gmail id = Raise e ->
                     answer = "Hata: " ++ exc_str e)
          /\ (forall msg, messages_get gmail id = Ok msg ->
                          answer = latest_text msg)).
Proof.
  eexists. split; [apply get_latest_eq|]. split; [|split].
  - now intros ->.
  - now intros e ->.
  - intros id ids ->. split; [now intros e -> | now intros msg ->].
Qed.

(** ** The sender pattern of the router *)

Section SenderFacts.

Lemma contains_char_app (c : ascii) (a b : string) :
  contains (String c "") (a ++ b)
  = contains (String c "") a || contains (String c "") b.
Proof.
  induction a as [|x a IH].
  - change ("" ++ b) with b. cbn [contains startswith].
    now destruct b.
  - change (String x a ++ b) with (String x (a ++ b)).
    cbn [contains startswith]. rewrite IH, !andb_true_r.
    now rewrite orb_assoc.
Qed.

(** A text of class characters holds no character outside the class. *)
Lemma all_addr_chars_clean (c : ascii) (a : string) :
  is_addr_char c = false -> all_addr_chars a = true ->
  contains (String c "") a = false.
Proof.
  intros Hc. induction a as [|x a IH]; [reflexivity|].
  cbn [all_addr_chars contains startswith].
  intros [Hx Ha]%andb_prop. rewrite (IH Ha), andb_true_r, orb_false_r.
  destruct (Ascii.eqb c x) eqn:E; [|reflexivity].
  apply Ascii.eqb_eq in E. congruence.
Qed.

Lemma all_addr_chars_app (a b : string) :
  all_addr_chars (a ++ b) = all_addr_chars a && all_addr_chars b.
Proof.
  induction a as [|x a IH]; [reflexivity|].
  change (String x a ++ b) with (String x (a ++ b)).
  cbn [all_addr_chars]. now rewrite IH, andb_assoc.
Qed.

(** The class characters at the start of a text, up to the first
    character outside the class. *)
Lemma span_addr_app (a r : string) :
  all_addr_chars a = true ->
  match r with String c _ => is_addr_char c = false | EmptyString => True end ->
  span_addr (a ++ r) = (a, r).
Proof.
  intros Ha Hr. induction a as [|x a IH].
  - change ("" ++ r) with r. destruct r as [|c r]; [reflexivity|].
    cbn [span_addr]. now rewrite Hr.
  - cbn [all_addr_chars] in Ha. apply andb_prop in Ha as [Hx Ha].
    change (String x a ++ r) with (String x (a ++ r)).
    cbn [span_addr]. now rewrite Hx, (IH Ha).
Qed.

Lemma span_addr_spec (s a b : string) :
  span_addr s = (a, b) ->
  s = a ++ b /\ all_addr_chars a = true
  /\ match b with String c _ => is_addr_char c = false | EmptyString => True end.
Proof.
  revert a b. induction s as [|c s IH]; intros a b; cbn [span_addr].
  - now intros [= <- <-].
  - destruct (is_addr_char c) eqn:Hc.
    + destruct (span_addr s) as [a' b'] eqn:Hs. intros [= <- <-].
      destruct (IH a' b' eq_refl) as (-> & Ha & Hb).
      cbn [all_addr_chars]. now rewrite Hc, Ha.
    + now intros [= <- <-].
Qed.

(** An address at the start of a text, ended by a character outside the
    class. *)
Lemma match_address_app (user domain r : string) :
  addr_part user = true -> addr_part domain = true ->
  match r with String c _ => is_addr_char c = false | EmptyString => True end ->
  match_address (user ++ "@" ++ domain ++ r) = Some (user ++ "@" ++ domain).
Proof.
  intros [Hu1 Hu2]%andb_prop [Hd1 Hd2]%andb_prop Hr. unfold match_address.
  change (user ++ "@" ++ domain ++ r) with (user ++ String "@" (domain ++ r)).
  rewrite (span_addr_app user (String "@" (domain ++ r)) Hu2 eq_refl).
  destruct user as [|u user]; [discriminate|].
  rewrite (span_addr_app domain r Hd2 Hr).
  destruct domain as [|d domain]; [discriminate|]. reflexivity.
Qed.

(** A character the pattern does not hold cannot complete a match that
    [x] only starts. *)
Lemma startswith_app_other (m x y : string) (d : ascii) :
  contains (String d "") m = false ->
  startswith m x = false -> startswith m (x ++ String d y) = false.
Proof.
  revert x. induction m as [|a m IH]; intros x Hd Hx; [discriminate|].
  apply contains_false_inv in Hd as [Hhd Htl].
  cbn [startswith] in Hhd. rewrite andb_true_r in Hhd.
  destruct x as [|b x].
  - change ("" ++ String d y) with (String d y). cbn [startswith].
    rewrite Ascii.eqb_sym, Hhd. reflexivity.
  - change (String b x ++ String d y) with (String b (x ++ String d y)).
    cbn [startswith] in *. destruct (Ascii.eqb a b); [|reflexivity].
    cbn [andb] in *. exact (IH x Htl Hx).
Qed.

(** The search passes a line that does not hold the marker. *)
Lemma search_sender_skip_line (x y : string) :
  contains "SenderEmail: " x = false ->
  search_sender (x ++ String "010" y) = search_sender y.
Proof.
  induction x as [|c x IH]; intros Hx.
  - reflexivity.
  - apply contains_false_inv in Hx as [Hhd Htl].
    change (String c x ++ String "010" y) with (String c (x ++ String "010" y)).
    cbn [search_sender].
    change (String c (x ++ String "010" y))
      with (String c x ++ String "010" y).
    rewrite (startswith_app_other "SenderEmail: " (String c x) y "010"
               eq_refl Hhd).
    exact (IH Htl).
Qed.

Lemma search_sender_at_marker (s : string) :
  search_sender ("SenderEmail: " ++ s)
  = match match_address s with
    | Some a => Some a
    | None => search_sender ("enderEmail: " ++ s)
    end.
Proof. reflexivity. Qed.

End SenderFacts.

(** The address of the [SenderEmail] line for the two usual forms of a
    [From] header. *)
Lemma sender_address_bare (addr : string) :
  contains "<" addr = false -> sender_address addr = addr.
Proof. intros Ha. unfold sender_address. now rewrite (partition_none _ _ Ha). Qed.

Lemma before_app_clean (c : ascii) (a t : string) :
  contains (String c "") a = false ->
  before (String c "") (a ++ t) = a ++ before (String c "") t.
Proof.
  intros Ha. induction a as [|x a IH]; [reflexivity|].
  apply contains_false_inv in Ha as [Hhd Htl].
  change (String x a ++ before (String c "") t)
    with (String x (a ++ before (String c "") t)).
  rewrite <- (IH Htl).
  change (String x a ++ t) with (String x (a ++ t)).
  unfold before. cbn [partition]. cbn [startswith] in Hhd |- *.
  rewrite andb_true_r in Hhd. rewrite Hhd. cbn [andb].
  now destruct (partition (String c "") (a ++ t)) as [[p q]|].
Qed.

Lemma sender_address_angle (name addr tail : string) :
  contains "<" name = false -> contains "<" addr = false ->
  contains ">" addr = false ->
  sender_address (name ++ "<" ++ addr ++ ">" ++ tail) = addr.
Proof.
  intros Hn Ha1 Ha2. unfold sender_address.
  rewrite (partition_after_clean "<" "" name _ Hn).
  rewrite (before_app_clean "<" addr _ Ha1).
  change (">" ++ tail) with (String ">" tail).
  assert (E : before "<" (String ">" tail) = String ">" (before "<" tail)).
  { unfold before. cbn [partition startswith Ascii.eqb Bool.eqb andb].
    now destruct (partition "<" tail) as [[p q]|]. }
  rewrite E. now apply before_clean.
Qed.

(** X7.  The router recovers the address of the sender from the text of
    [get_latest]: for a [From] header that is an address, or a name
    without ["<"] followed by the address in angle brackets, and that
    does not hold the marker text itself, the pattern of
    [analyze_last_mail] finds exactly that address. *)
Theorem latest_sender_round_trip (gmail : Gmail) {St : Type} (s : St)
    (id : string) (ids : list string) (msg : gmail_message)
    (name user domain tail : string) :
  messages_list gmail = Ok (id :: ids) ->
  messages_get gmail id = Ok msg ->
  first_header "From" "(Bilinmiyor)" (payload_headers msg)
  = user ++ "@" ++ domain
  \/ (first_header "From" "(Bilinmiyor)" (payload_headers msg)
      = name ++ "<" ++ (user ++ "@" ++ domain) ++ ">" ++ tail
      /\ contains "<" name = false) ->
  addr_part user = true -> addr_part domain = true ->
  contains "SenderEmail: "
    (first_header "From" "(Bilinmiyor)" (payload_headers msg)) = false ->
  exists text : string,
    get_latest gmail s = (Ok text, s)
    /\ search_sender text = Some (user ++ "@" ++ domain).
Proof.
  intros Hl Hg Hfrom Hu Hd Hmark.
  exists (latest_text msg). split; [now rewrite get_latest_eq, Hl, Hg|].
  assert (Haddr : forall c, is_addr_char c = false -> c <> "@"%char ->
                    contains (String c "") (user ++ "@" ++ domain) = false).
  { intros c Hc Hat. apply andb_prop in Hu as [_ Hu], Hd as [_ Hd].
    rewrite !contains_char_app.
    rewrite (all_addr_chars_clean c user Hc Hu).
    rewrite (all_addr_chars_clean c domain Hc Hd).
    cbn [contains startswith orb andb].
    destruct (Ascii.eqb c "@") eqn:E; [|reflexivity].
    now apply Ascii.eqb_eq in E. }
  assert (Hsa : sender_address
                  (first_header "From" "(Bilinmiyor)" (payload_headers msg))
                = user ++ "@" ++ domain).
  { destruct Hfrom as [-> | [-> Hn]].
    - apply sender_address_bare. now apply Haddr.
    - apply sender_address_angle; [exact Hn | |]; now apply Haddr. }
  unfold latest_text. rewrite Hsa.
  set (sender := first_header "From" "(Bilinmiyor)" (payload_headers msg)) in *.
  set (rest := "Subject: " ++ _).
  change ("From: " ++ sender ++ newline
          ++ "SenderEmail: " ++ (user ++ "@" ++ domain) ++ newline ++ rest)
    with (("From: " ++ sender)
          ++ String "010" ("SenderEmail: " ++ (user ++ "@" ++ domain)
                           ++ String "010" rest)).
  rewrite search_sender_skip_line.
  - rewrite search_sender_at_marker.
    rewrite !string_app_assoc.
    now rewrite (match_address_app user domain (String "010" rest) Hu Hd
                   eq_refl).
  - change ("From: " ++ sender)
      with (String "F" (String "r" (String "o" (String "m"
              (String ":" (String " " sender)))))).
    cbn [contains startswith Ascii.eqb Bool.eqb andb orb]. exact Hmark.
Qed.

Lemma latest_sender_round_trip_witness :
  exists text : string,
    @get_latest (inbox_from "Engin Vardar <engin@x.com>") unit tt
    = (Ok text, tt)
    /\ search_sender text = Some "engin@x.com".
Proof.
  apply (latest_sender_round_trip (inbox_from "Engin Vardar <engin@x.com>") tt
           "m1" [] _ "Engin Vardar " "engin" "x.com" "" eq_refl eq_refl).
  - right. split; reflexivity.
  - reflexivity.
  - reflexivity.
  - reflexivity.
Defined.

(** ** [EmailManager.send] *)

Section SendFacts.
Context `{PyEmail} (gmail : Gmail).

(** The recipient [send] writes into the message. *)
Lemma send_eq (to subject content : string) (sent : list string) :
  send gmail to subject content sent
  = let to' := if contains "<" to
               then replace ">" "" (sender_tail to) else to in
    match urlsafe_b64 {| mime_to := to'; mime_subject := subject;
                         mime_content := content |} with
    | Raise e => (Ok ("Hata: " ++ exc_str e), sent)
    | Ok raw =>
        match messages_send gmail raw with
        | Raise e => (Ok ("Hata: " ++ exc_str e), sent)
        | Ok _ => (Ok "Mail Gönderildi!", (sent ++ [raw])%list)
        end
    end.
Proof.
  unfold send, send_execute, sender_tail, try_except, lift, mbind, mret,
    M_bind, M_ret, bind, ret, Exception.
  destruct (contains "<" to) eqn:Hc.
  - destruct (contains_partition _ _ Hc) as (a & b & Hp). rewrite Hp.
    rewrite (index_split_1 "<" to a b ltac:(discriminate) Hp). cbn zeta.
    destruct (urlsafe_b64 _) as [raw|e]; [|reflexivity].
    now destruct (messages_send gmail raw).
  - cbn zeta. destruct (urlsafe_b64 _) as [raw|e]; [|reflexivity].
    now destruct (messages_send gmail raw).
Qed.

End SendFacts.

Lemma replace_closing (c : ascii) (a : string) :
  contains (String c "") a = false ->
  replace (String c "") "" (a ++ String c "") = a.
Proof.
  intros Ha. unfold replace, split.
  assert (Hp : partition (String c "") (a ++ String c "") = Some (a, "")).
  { change (a ++ String c "") with (a ++ String c "" ++ "").
    now apply partition_after_clean. }
  rewrite length_app. cbn [String.length]. rewrite Nat.add_1_r.
  cbn [split_fuel]. rewrite Hp.
  rewrite split_fuel_none by reflexivity.
  cbn [join]. change ("" ++ "") with "". apply string_app_nil_r.
Qed.

(** X8.  [send] returns a text on every path, and the text tells what
    happened: the confirmation exactly when Gmail has accepted one more
    message, the text of the exception and no message otherwise. *)
Theorem send_reports_delivery `{PyEmail} (gmail : Gmail)
    (to subject content : string) (sent : list string) :
  exists (answer : string) (sent' : list string),
    send gmail to subject content sent = (Ok answer, sent')
    /\ ((answer = "Mail Gönderildi!"
         /\ exists raw, messages_send gmail raw = Ok tt
                        /\ sent' = (sent ++ [raw])%list)
        \/ (startswith "Hata: " answer = true /\ sent' = sent)).
Proof.
  rewrite send_eq. cbn zeta.
  destruct (urlsafe_b64 _) as [raw|e];
    [|eexists _, _; split; [reflexivity|]; right; split; reflexivity].
  destruct (messages_send gmail raw) as [[]|e] eqn:Hs;
    [|eexists _, _; split; [reflexivity|]; right; split; reflexivity].
  eexists _, _. split; [reflexivity|]. left. split; [reflexivity|].
  exists raw. split; [exact Hs | reflexivity].
Qed.

(** X9.  A recipient written as a name followed by the address in angle
    brackets is sent as the bare address. *)
Theorem send_recipient_address `{PyEmail} (gmail : Gmail)
    (name addr subject content : string) (sent : list string) :
  contains "<" name = false ->
  contains "<" addr = false -> contains ">" addr = false ->
  send gmail (name ++ "<" ++ addr ++ ">") subject content sent
  = send gmail addr subject content sent.
Proof.
  intros Hn Ha1 Ha2. rewrite !send_eq. rewrite Ha1.
  assert (Hc : contains "<" (name ++ "<" ++ addr ++ ">") = true).
  { rewrite contains_char_app. change ("<" ++ addr ++ ">")
      with (String "<" (addr ++ ">")).
    cbn [contains startswith Ascii.eqb Bool.eqb andb orb].
    apply orb_true_r. }
  rewrite Hc. unfold sender_tail.
  rewrite (partition_after_clean "<" "" name _ Hn).
  assert (Hb : contains "<" (addr ++ ">") = false).
  { rewrite contains_char_app, Ha1. reflexivity. }
  rewrite (before_none _ _ Hb).
  change (addr ++ ">") with (addr ++ String ">" "").
  now rewrite (replace_closing ">" addr Ha2).
Qed.

Lemma send_recipient_address_witness :
  @send lines_encoder (inbox_from "x") "Engin Vardar <engin@x.com>"
    "Konu: Toplantı" "Merhaba" []
  = @send lines_encoder (inbox_from "x") "engin@x.com"
      "Konu: Toplantı" "Merhaba" [].
Proof.
  apply (@send_recipient_address lines_encoder (inbox_from "x")
           "Engin Vardar " "engin@x.com" "Konu: Toplantı" "Merhaba" []);
    reflexivity.
Defined.

(** ** The sheet handle *)

(** X10.  The handle of the contact sheet is resolved once: a call that
    returns a non-empty id leaves that id in the manager, and every later
    call returns it without asking Drive again, whatever Drive would
    answer; a call that returns no usable id leaves none cached. *)
Theorem sheet_id_resolved_once (google : Google)
    (self self' : ContactManager) (sheet_id : option string) :
  _get_sheet_id google self = (Ok sheet_id, self') ->
  (nonempty sheet_id = true ->
   _cached_sheet_id self' = sheet_id
   /\ forall google' : Google,
        _get_sheet_id google' self' = (Ok sheet_id, self'))
  /\ (nonempty sheet_id = false -> nonempty (_cached_sheet_id self') = false).
Proof.
  intros Hid.
  assert (Hcache : nonempty sheet_id = true -> _cached_sheet_id self' = sheet_id).
  { revert Hid.
    unfold _get_sheet_id, _create_sheet, get, put, try_except, lift, mbind,
      mret, M_bind, M_ret, bind, ret, Exception.
    destruct (nonempty (_cached_sheet_id self)) eqn:Hc.
    - now intros [= <- <-].
    - destruct (drive_files_list google) as [[|f files]|e]; cbn;
        try (now intros [= <- <-]);
        destruct (drive_files_create google) as [new_id|e']; cbn;
        try (intros [= <- <-]; discriminate);
        destruct (sheets_values_update google new_id); cbn;
        intros [= <- <-]; try discriminate; reflexivity. }
  split.
  - intros Hne. split; [now apply Hcache|]. intros google'.
    unfold _get_sheet_id, get, mbind, M_bind, bind.
    rewrite (Hcache Hne), Hne. reflexivity.
  - revert Hid.
    unfold _get_sheet_id, _create_sheet, get, put, try_except, lift, mbind,
      mret, M_bind, M_ret, bind, ret, Exception.
    destruct (nonempty (_cached_sheet_id self)) eqn:Hc.
    + intros [= <- <-] Hn. congruence.
    + destruct (drive_files_list google) as [[|f files]|e]; cbn;
        try (now intros [= <- <-]);
        destruct (drive_files_create google) as [new_id|e']; cbn;
        try (now intros [= <- <-]);
        destruct (sheets_values_update google new_id); cbn;
        now intros [= <- <-].
Qed.

Lemma sheet_id_resolved_once_witness :
  _get_sheet_id (google_with_rows ten_contacts) fresh_manager
  = (Ok (Some "sheet-1"), {| _cached_sheet_id := Some "sheet-1" |})
  /\ _get_sheet_id google_down {| _cached_sheet_id := Some "sheet-1" |}
     = (Ok (Some "sheet-1"), {| _cached_sheet_id := Some "sheet-1" |}).
Proof.
  split; [reflexivity|].
  apply (proj1 (sheet_id_resolved_once
                  (google_with_rows ten_contacts) fresh_manager
                  {| _cached_sheet_id := Some "sheet-1" |} (Some "sheet-1")
                  eq_refl) eq_refl).
Defined.

(** ** More on [find_email] *)

Section ScanFacts.
Context `{PyLib}.

(** With an empty target every row with both cells matches. *)
Lemma scan_rows_blank (rows : list (list string)) (best_match : option string)
    (highest_score : Q) :
  scan_rows "" rows best_match highest_score
  = match records_of rows with
    | r :: _ => email r
    | [] => finish best_match
    end.
Proof.
  induction rows as [|row rows IH]; [reflexivity|].
  destruct row as [|name [|mail cells]]; try exact IH.
  cbn [scan_rows records_of omap list_omap email].
  now destruct (strip (lower name)).
Qed.

(** The loop returns the sentinel or the email of a record. *)
Lemma scan_rows_answer (q : string) (rows : list (list string)) :
  scan_rows q rows None 0%Q = NOT_FOUND
  \/ exists r, In r (records_of rows) /\ scan_rows q rows None 0%Q = email r.
Proof.
  rewrite scan_rows_two_pass.
  destruct (first_containing q (records_of rows)) as [r|] eqn:Hf.
  { right. exists r. split; [now apply first_containing_In in Hf | reflexivity]. }
  destruct (most_similar q (records_of rows)) as [[r s]|] eqn:Hm;
    [|now left].
  destruct (Qltb (6 # 10) s && Qltb 0 s); [|now left].
  unfold finish, nonempty. cbn [default].
  destruct (negb (String.eqb (email r) "")); [|now left].
  right. exists r. split; [now apply most_similar_In in Hm | reflexivity].
Qed.

End ScanFacts.

(** X11.  A query that is blank once lowered and trimmed matches every
    name: [find_email] returns the email of the first data row that has
    both cells, and the "not found" text if no data row has. *)
Theorem find_email_blank_query `{PyLib} (google : Google)
    (self self' : ContactManager) (sheet_id name : string)
    (header_row : list string) (data : list (list string)) :
  _get_sheet_id google self = (Ok (Some sheet_id), self') ->
  sheet_id <> "" ->
  sheets_values_get google sheet_id = Ok (header_row :: data) ->
  data <> [] ->
  strip (lower name) = "" ->
  find_email google name self
  = (Ok match records_of data with
        | r :: _ => email r
        | [] => NOT_FOUND
        end, self').
Proof.
  intros Hid Hsid Hrows Hdata Hblank.
  rewrite (find_email_eq google name self self' _ Hid).
  unfold nonempty. rewrite (proj2 (String.eqb_neq _ _) Hsid). cbn [negb].
  change (default "" (Some sheet_id)) with sheet_id.
  rewrite Hrows. destruct data as [|row data]; [congruence|].
  cbn [length Nat.ltb Nat.leb tail]. now rewrite Hblank, scan_rows_blank.
Qed.

Lemma find_email_blank_query_witness :
  fst (@find_email CPython.lib (google_with_rows ten_contacts) "  "
         fresh_manager)
  = Ok "ayse@x.com".
Proof.
  refine (f_equal fst
    (@find_email_blank_query CPython.lib (google_with_rows ten_contacts)
       fresh_manager {| _cached_sheet_id := Some "sheet-1" |} "sheet-1"
       "  " header (tail ten_contacts) _ _ _ _ _)).
  - reflexivity.
  - discriminate.
  - reflexivity.
  - discriminate.
  - reflexivity.
Defined.

(** X12.  [find_email] never makes an address up: when the table is read
    and has data rows, the answer is the "not found" text or the trimmed
    second cell of one of the data rows. *)
Theorem find_email_answer_from_table `{PyLib} (google : Google)
    (self self' : ContactManager) (sheet_id name : string)
    (header_row : list string) (data : list (list string)) :
  _get_sheet_id google self = (Ok (Some sheet_id), self') ->
  sheet_id <> "" ->
  sheets_values_get google sheet_id = Ok (header_row :: data) ->
  data <> [] ->
  exists answer : string,
    find_email google name self = (Ok answer, self')
    /\ (answer = NOT_FOUND
        \/ exists (contact_name contact_email : string) (cells : list string),
             In (contact_name :: contact_email :: cells) data
             /\ answer = strip contact_email).
Proof.
  intros Hid Hsid Hrows Hdata.
  rewrite (find_email_eq google name self self' _ Hid).
  unfold nonempty. rewrite (proj2 (String.eqb_neq _ _) Hsid). cbn [negb].
  change (default "" (Some sheet_id)) with sheet_id.
  rewrite Hrows. destruct data as [|row data]; [congruence|].
  cbn [length Nat.ltb Nat.leb tail].
  eexists. split; [reflexivity|].
  destruct (scan_rows_answer (strip (lower name)) (row :: data))
    as [Hnf | (r & Hr & Hans)]; [now left|].
  right. rewrite Hans. clear Hans.
  unfold records_of in Hr. apply list_elem_of_In, list_elem_of_omap in Hr.
  destruct Hr as (row' & Hin & Hrow).
  destruct row' as [|n [|m cells]]; try discriminate.
  injection Hrow as <-. exists n, m, cells.
  split; [now apply list_elem_of_In | reflexivity].
Qed.

Lemma find_email_answer_from_table_witness :
  exists answer : string,
    @find_email CPython.lib (google_with_rows ten_contacts) "Engin"
      fresh_manager
    = (Ok answer, {| _cached_sheet_id := Some "sheet-1" |})
    /\ (answer = NOT_FOUND
        \/ exists (contact_name contact_email : string) (cells : list string),
             In (contact_name :: contact_email :: cells) (tail ten_contacts)
             /\ answer = strip contact_email).
Proof.
  apply (@find_email_answer_from_table CPython.lib
           (google_with_rows ten_contacts) fresh_manager
           {| _cached_sheet_id := Some "sheet-1" |} "sheet-1" "Engin" header
           (tail ten_contacts)).
  - reflexivity.
  - discriminate.
  - reflexivity.
  - discriminate.
Defined.

(** ** More on [schedule] *)

(** X13.  The reply of [schedule] tells whether a meeting was created: it
    starts with the confirmation text exactly when the calendar has
    gained one event, which carries the summary given and the Istanbul
    time zone; after every other reply the calendar is as before. *)
Theorem schedule_reply_tells `{PyLib} (google : Google)
    (summary iso_datetime : string) (cal : list calendar_event) :
  exists (answer : string) (cal' : list calendar_event),
    schedule google summary iso_datetime cal = (Ok answer, cal')
    /\ ((startswith "Takvime Eklendi: " answer = true
         /\ exists ev, cal' = (cal ++ [ev])%list
                       /\ calendar_events_insert google ev = Ok tt
                       /\ ev_summary ev = summary
                       /\ ev_timeZone ev = "Europe/Istanbul")
        \/ (startswith "Takvime Eklendi: " answer = false /\ cal' = cal)).
Proof.
  rewrite schedule_eq.
  destruct (String.eqb iso_datetime "");
    [eexists _, _; split; [reflexivity|]; right; split; reflexivity|].
  destruct (fromisoformat _) as [start_dt|e];
    [|eexists _, _; split; [reflexivity|]; right; split; reflexivity].
  destruct (datetime_add start_dt 0 3600) as [end_dt|e];
    [|eexists _, _; split; [reflexivity|]; right; split; reflexivity].
  destruct (calendar_events_insert google _) as [[]|e] eqn:Hins;
    [|eexists _, _; split; [reflexivity|]; right; split; reflexivity].
  eexists _, _. split; [reflexivity|]. left. split; [reflexivity|].
  eexists. split; [reflexivity|]. split; [exact Hins|]. split; reflexivity.
Qed.

(** ** The session around the router *)

Section CalmFacts.
Context `{PyLib} (env : Env).

Lemma session_events_app (tr tr' : list event) :
  session_events (tr ++ tr')%list
  = (session_events tr ++ session_events tr')%list.
Proof. apply List.filter_app. Qed.

Lemma calm_ret {A} (a : A) : calm (mret a : M (list event) A).
Proof. split; [apply logs_ret | reflexivity]. Qed.

Lemma calm_lift {A} (r : result A) : calm (lift r : M (list event) A).
Proof. split; [apply logs_lift | reflexivity]. Qed.

Lemma calm_raise {A} (e : exn) : calm (@raise (list event) A e).
Proof. split; [apply logs_raise | reflexivity]. Qed.

Lemma calm_tell (e : event) : is_session_event e = false -> calm (tell e).
Proof.
  intros He. split; [apply logs_tell|].
  unfold tell. cbn [snd app session_events List.filter]. now rewrite He.
Qed.

Lemma calm_bind {A B} (m : M (list event) A) (k : A -> M (list event) B) :
  calm m -> (forall a, calm (k a)) -> calm (m ≫= k).
Proof.
  intros [Hm Sm] Hk. split.
  - apply logs_bind; [exact Hm | intros a; apply Hk].
  - unfold mbind, M_bind, bind.
    destruct (m []) as [[a|e] tr1] eqn:E; cbn [snd] in *; [|exact Sm].
    destruct (Hk a) as [Hl Sk]. rewrite (Hl tr1). cbn [snd].
    now rewrite session_events_app, Sm, Sk.
Qed.

Lemma calm_try_except {A} (body : M (list event) A) cls
    (handler : exn -> M (list event) A) :
  calm body -> (forall e, calm (handler e)) -> calm (try_except body cls handler).
Proof.
  intros [Hb Sb] Hh. split.
  - apply logs_try_except; [exact Hb | intros e; apply Hh].
  - unfold try_except.
    destruct (body []) as [[a|e] tr1] eqn:E; cbn [snd] in *; [exact Sb|].
    destruct (cls e); [|exact Sb].
    destruct (Hh e) as [Hl Sh]. rewrite (Hl tr1). cbn [snd].
    now rewrite session_events_app, Sb, Sh.
Qed.

Lemma calm_if {A} (b : bool) (m1 m2 : M (list event) A) :
  calm m1 -> calm m2 -> calm (if b then m1 else m2).
Proof. now destruct b. Qed.

Lemma calm_task_router (task : string) (payload : gmap string json) :
  calm (task_router env task payload).
Proof.
  unfold task_router, generate_summary_and_reply, decide_action, call_tool,
    _get_time_context, _clean_and_parse_json.
  repeat first
    [ apply calm_ret | apply calm_lift | apply calm_raise
    | apply calm_tell; reflexivity
    | apply calm_bind; [|intros ?]
    | apply calm_try_except; [|intros ?]
    | apply calm_if ].
Qed.

End CalmFacts.

Section RouterEvents.
Context `{PyLib} (env : Env).

Lemma trace_call_tool (name : string) (arguments : gmap string json) :
  trace (call_tool env name arguments) = [EvCallTool name arguments].
Proof. reflexivity. Qed.

Lemma trace_send_reply (payload : gmap string json) :
  trace (task_router env "send_reply" payload)
  = [EvCallTool "send_email_action" payload].
Proof.
  unfold task_router. cbn [String.eqb Ascii.eqb Bool.eqb andb].
  rewrite trace_bind by logs_solve. rewrite trace_call_tool.
  now destruct (value (call_tool env _ _)).
Qed.

Lemma trace_add_calendar (payload : gmap string json) :
  trace (task_router env "add_calendar" payload)
  = [EvCallTool "schedule_meeting" payload].
Proof.
  unfold task_router. cbn [String.eqb Ascii.eqb Bool.eqb andb].
  rewrite trace_bind by logs_solve. rewrite trace_call_tool.
  destruct (value (call_tool env _ _)) as [content|]; [|reflexivity].
  rewrite trace_bind by logs_solve. unfold value, trace, lift. cbn [fst snd].
  now destruct (index content 0).
Qed.

(** The events of the two engines, with the clock in range. *)
Lemma trace_generate_summary_and_reply (email_content : string) :
  clock_ok env ->
  trace (generate_summary_and_reply env email_content)
  = [EvChat (Prompt SummaryReply (grounding env) (JStr email_content))].
Proof.
  intros Hc. unfold trace.
  now rewrite (generate_summary_and_reply_eq env email_content [] Hc).
Qed.

Lemma trace_decide_action (user_query : json) :
  clock_ok env ->
  trace (decide_action env user_query)
  = [EvChat (Prompt ActionDecision (grounding env) user_query)].
Proof.
  intros Hc. unfold trace.
  now rewrite (decide_action_eq env user_query [] Hc).
Qed.

Lemma trace_analyze_last_mail (payload : gmap string json)
    (raw_mail : string) (rest : list string) :
  clock_ok env ->
  session_call_tool env "get_latest_email" ∅ = Ok (raw_mail :: rest) ->
  trace (task_router env "analyze_last_mail" payload)
  = [EvCallTool "get_latest_email" ∅;
     EvChat (Prompt SummaryReply (grounding env) (JStr raw_mail))].
Proof.
  intros Hc Hcall. unfold trace, task_router.
  cbn [String.eqb Ascii.eqb Bool.eqb andb].
  unfold call_tool, tell, mbind, M_bind, bind, lift. rewrite Hcall.
  cbn [index lookup list_lookup app].
  rewrite (generate_summary_and_reply_eq env raw_mail _ Hc).
  now destruct (dict_merge _ _).
Qed.

Lemma decide_action_run (user_query : json) (ai : json) (tr : list event) :
  clock_ok env -> decided env user_query = Ok ai ->
  decide_action env user_query tr
  = (Ok ai,
     (tr ++ [EvChat (Prompt ActionDecision (grounding env) user_query)])%list).
Proof.
  intros Hc Hd. unfold decided, value in Hd.
  rewrite (decide_action_eq env user_query [] Hc) in Hd.
  rewrite (decide_action_eq env user_query tr Hc).
  cbn [fst] in Hd. now rewrite Hd.
Qed.

Lemma trace_process_command (payload ai : gmap string json) :
  clock_ok env ->
  decided env (dict_get payload "command") = Ok (JObj ai) ->
  trace (task_router env "process_command" payload)
  = (EvChat (Prompt ActionDecision (grounding env) (dict_get payload "command"))
     :: if truthy (dict_get ai "target_name")
        then [EvCallTool "find_email_by_name"
                {[ "name" := dict_get ai "target_name" ]}]
        else [])%list.
Proof.
  intros Hc Hd. unfold trace, task_router.
  cbn [String.eqb Ascii.eqb Bool.eqb andb].
  unfold mbind, M_bind. unfold bind at 1.
  rewrite (decide_action_run _ _ [] Hc Hd).
  unfold call_tool, tell, lift, mret, M_ret, ret, mbind, M_bind.
  unfold bind. cbn [value_get app dict_merge].
  destruct (truthy (dict_get ai "target_name")); [|reflexivity].
  destruct (session_call_tool env _ _) as [content|]; [|reflexivity].
  destruct (index content 0) as [reply|]; [|reflexivity].
  now destruct (contains "@" reply).
Qed.

End RouterEvents.

(** X14.  The session is a bracket around the router: its set-up is the
    first event of a run; if the set-up fails the router does not run;
    if it succeeds the router runs and the session is left exactly once
    after it, as the last event, whatever the router did, and the
    router itself neither enters nor leaves a session. *)
Theorem session_left_once `{PyLib} (env : Env) (task : string)
    (payload : gmap string json) :
  exists mid : list event,
    events_of env task payload
    = (EvSessionEnter :: mid
       ++ if is_ok (session_enter env) then [EvSessionExit] else [])%list
    /\ session_events mid = []
    /\ (is_ok (session_enter env) = false -> mid = [])
    /\ (is_ok (session_enter env) = true ->
        mid = trace (task_router env task payload)).
Proof.
  rewrite events_of_eq.
  destruct (session_enter env) as [[]|e]; cbn [is_ok].
  - exists (trace (task_router env task payload)).
    split; [reflexivity|]. split; [apply (calm_task_router env)|].
    split; [discriminate | reflexivity].
  - exists []. repeat split; try reflexivity; discriminate.
Qed.

(** X15.  A failure of the session itself is delivered as the error
    result: when the set-up raises, no tool is called; when leaving the
    session raises after the router has run, the tool calls of the
    router have been made and the result of the router is lost. *)
Theorem session_failure_is_delivered `{PyLib} (env : Env) (task : string)
    (payload : gmap string json) (tr : list event) (e : exn) :
  (session_enter env = Raise e ->
   emitted (snd (run env task payload tr))
   = (emitted tr ++ [error_result e])%list
   /\ tool_calls (events_of env task payload) = [])
  /\ (session_enter env = Ok tt -> session_exit env = Raise e ->
      emitted (snd (run env task payload tr))
      = (emitted tr ++ [error_result e])%list
      /\ tool_calls (events_of env task payload)
         = tool_calls (trace (task_router env task payload))).
Proof.
  split.
  - intros Hin. rewrite emitted_run, outcome_eq, events_of_eq, Hin.
    split; reflexivity.
  - intros Hin Hout. rewrite emitted_run, outcome_eq, events_of_eq, Hin, Hout.
    split; [reflexivity|].
    cbn [tool_calls omap list_omap]. fold (tool_calls).
    change (omap _ (trace (task_router env task payload) ++ [EvSessionExit])%list)
      with (tool_calls (trace (task_router env task payload)
                        ++ [EvSessionExit])%list).
    rewrite tool_calls_app. cbn. now rewrite app_nil_r.
Qed.

Lemma session_failure_is_delivered_witness :
  emitted (snd (@run CPython.lib env_closed "send_reply" ∅ []))
  = [error_result (Exn RuntimeError "")]
  /\ tool_calls (@events_of CPython.lib env_closed "send_reply" ∅) = [].
Proof.
  exact (proj1 (@session_failure_is_delivered CPython.lib env_closed
                  "send_reply" ∅ [] (Exn RuntimeError "")) eq_refl).
Defined.

(** X16.  What a run does, by task: [send_reply] and [add_calendar] make
    one tool call with the payload as it is; [analyze_last_mail] fetches
    the latest mail and then asks the model once about exactly that
    text; [process_command] asks the model once about the command and
    then calls the resolver, once, only for a truthy [target_name]. *)
Theorem task_events `{PyLib} (env : Env) (payload : gmap string json) :
  session_enter env = Ok tt ->
  events_of env "send_reply" payload
  = [EvSessionEnter; EvCallTool "send_email_action" payload; EvSessionExit]
  /\ events_of env "add_calendar" payload
     = [EvSessionEnter; EvCallTool "schedule_meeting" payload; EvSessionExit]
  /\ (clock_ok env ->
      (forall raw_mail rest,
         session_call_tool env "get_latest_email" ∅ = Ok (raw_mail :: rest) ->
         events_of env "analyze_last_mail" payload
         = [EvSessionEnter; EvCallTool "get_latest_email" ∅;
            EvChat (Prompt SummaryReply (grounding env) (JStr raw_mail));
            EvSessionExit])
      /\ (forall ai,
            decided env (dict_get payload "command") = Ok (JObj ai) ->
            events_of env "process_command" payload
            = ([EvSessionEnter;
                EvChat (Prompt ActionDecision (grounding env)
                          (dict_get payload "command"))]
               ++ (if truthy (dict_get ai "target_name")
                   then [EvCallTool "find_email_by_name"
                           {[ "name" := dict_get ai "target_name" ]}]
                   else [])
               ++ [EvSessionExit])%list)).
Proof.
  intros Hin. rewrite !events_of_eq, Hin.
  rewrite trace_send_reply, trace_add_calendar.
  split; [reflexivity|]. split; [reflexivity|]. intros Hc. split.
  - intros raw_mail rest Hcall.
    now rewrite (trace_analyze_last_mail env payload raw_mail rest Hc Hcall).
  - intros ai Hd. now rewrite (trace_process_command env payload ai Hc Hd).
Qed.

Lemma task_events_witness :
  @events_of CPython.lib (env_answering answer_plain) "analyze_last_mail" ∅
  = [EvSessionEnter; EvCallTool "get_latest_email" ∅;
     EvChat (Prompt SummaryReply (grounding (env_answering answer_plain))
               (JStr mail_text));
     EvSessionExit].
Proof.
  destruct (@task_events CPython.lib (env_answering answer_plain) ∅ eq_refl)
    as (_ & _ & Hrest).
  refine (proj1 (Hrest clock_ok_env0) mail_text [] eq_refl).
Defined.

(** ** Results that do not tell what the tool replied *)

(** X17.  The status of [send_reply] and [add_calendar] says that the
    tool call returned, not what the tool answered: [send_reply]
    delivers [{"status": "sent"}] for every reply of the tool, an error
    text included, and [add_calendar] delivers the status
    ["calendar_added"] with the first text of the reply as it is. *)
Theorem status_ignores_tool_reply `{PyLib} (env : Env)
    (payload : gmap string json) (tr : list event) :
  session_enter env = Ok tt -> session_exit env = Ok tt ->
  (forall content,
     session_call_tool env "send_email_action" payload = Ok content ->
     emitted (snd (run env "send_reply" payload tr))
     = (emitted tr ++ [ {[ "status" := JStr "sent" ]} ])%list)
  /\ (forall msg rest,
        session_call_tool env "schedule_meeting" payload = Ok (msg :: rest) ->
        emitted (snd (run env "add_calendar" payload tr))
        = (emitted tr ++ [ {[ "status" := JStr "calendar_added";
                              "msg" := JStr msg ]} ])%list).
Proof.
  intros Hin Hout. split.
  - intros content Hcall.
    now rewrite emitted_run, outcome_eq, Hin, Hout, router_send_reply, Hcall.
  - intros msg rest Hcall.
    now rewrite emitted_run, outcome_eq, Hin, Hout, router_add_calendar, Hcall.
Qed.

Lemma status_ignores_tool_reply_witness :
  emitted (snd (@run CPython.lib env_refusing "send_reply" ∅ []))
  = [ {[ "status" := JStr "sent" ]} ]
  /\ emitted (snd (@run CPython.lib env_refusing "add_calendar" ∅ []))
     = [ {[ "status" := JStr "calendar_added";
            "msg" := JStr "Hata: quota exceeded" ]} ].
Proof.
  destruct (@status_ignores_tool_reply CPython.lib env_refusing ∅ []
              eq_refl eq_refl) as [Hs Ha].
  split; [exact (Hs _ eq_refl) | exact (Ha _ _ eq_refl)].
Defined.

(** ** An error text of the resolver taken for an address *)

Lemma contains_at_error (text : string) :
  contains "@" ("HATA: " ++ text) = contains "@" text.
Proof. reflexivity. Qed.

(** X18.  The router accepts every reply of the resolver that holds an
    ["@"]: when reading the contact sheet raises and the text of the
    exception holds an ["@"], the error text [find_email] returns
    becomes the [found_email] of the result. *)
Theorem resolver_error_taken_as_address `{PyLib} (env : Env) (google : Google)
    (self self' : ContactManager) (sheet_id name : string)
    (payload ai : gmap string json) (e : exn) (tr : list event) :
  session_enter env = Ok tt -> session_exit env = Ok tt ->
  decided env (dict_get payload "command") = Ok (JObj ai) ->
  ai !! "status" = None -> ai !! "found_email" = None ->
  ai !! "target_name" = Some (JStr name) -> name <> "" ->
  _get_sheet_id google self = (Ok (Some sheet_id), self') ->
  sheet_id <> "" ->
  sheets_values_get google sheet_id = Raise e ->
  contains "@" (exc_str e) = true ->
  (forall answer,
     fst (find_email google name self) = Ok answer ->
     session_call_tool env "find_email_by_name" {[ "name" := JStr name ]}
     = Ok [answer]) ->
  exists d,
    emitted (snd (run env "process_command" payload tr))
    = (emitted tr ++ [d])%list
    /\ d !! "status" = Some (JStr "command_processed")
    /\ d !! "found_email" = Some (JStr ("HATA: " ++ exc_str e)).
Proof.
  intros Hin Hout Hai Hst Hfe Hname Hne Hid Hsid Hget Hat Hgate.
  assert (Hanswer : fst (find_email google name self)
                    = Ok ("HATA: " ++ exc_str e)).
  { rewrite (find_email_eq google name self self' _ Hid).
    unfold nonempty. rewrite (proj2 (String.eqb_neq _ _) Hsid). cbn [negb fst].
    change (default "" (Some sheet_id)) with sheet_id. now rewrite Hget. }
  specialize (Hgate _ Hanswer).
  assert (Htarget : dict_get ai "target_name" = JStr name)
    by (unfold dict_get; now rewrite Hname).
  exists (ai ∪ command_fields (JStr ("HATA: " ++ exc_str e))).
  rewrite emitted_run, outcome_eq, Hin, Hout, router_process_command, Hai.
  cbn [value_get]. unfold resolved. rewrite Htarget. cbn [truthy].
  rewrite (proj2 (String.eqb_neq _ _) Hne). cbn [negb]. rewrite Hgate.
  cbn [index lookup list_lookup]. unfold accepted.
  rewrite contains_at_error, Hat. cbn [dict_merge delivered].
  split; [reflexivity|].
  split; apply lookup_union_Some_raw; right; (split; [assumption|reflexivity]).
Qed.

Lemma resolver_error_taken_as_address_witness :
  exists d,
    emitted (snd (@run CPython.lib (@env_denied CPython.lib answer_plain)
                    "process_command" ∅ [])) = [d]
    /\ d !! "found_email"
       = Some (JStr "HATA: access denied for bot@x.iam.example.com").
Proof.
  destruct (@resolver_error_taken_as_address CPython.lib
              (@env_denied CPython.lib answer_plain) google_denied
              fresh_manager {| _cached_sheet_id := Some "sheet-1" |}
              "sheet-1" "Ali" ∅
              {[ "target_name" := JStr "Ali"; "draft_text" := JStr "Merhaba" ]}
              (Exn RuntimeError "access denied for bot@x.iam.example.com")
              [] eq_refl eq_refl) as (d & Hem & _ & Hfound).
  - vm_compute. reflexivity.
  - reflexivity.
  - reflexivity.
  - reflexivity.
  - discriminate.
  - reflexivity.
  - discriminate.
  - reflexivity.
  - reflexivity.
  - intros answer Ha. vm_compute in Ha. injection Ha as <-.
    vm_compute. reflexivity.
  - exists d. split; [exact Hem | exact Hfound].
Defined.

(** ** The sender pattern *)

Lemma match_address_spec (t a : string) :
  match_address t = Some a ->
  exists user domain post,
    t = a ++ post /\ a = user ++ "@" ++ domain
    /\ addr_part user = true /\ addr_part domain = true
    /\ match post with
       | String c _ => is_addr_char c = false
       | EmptyString => True
       end.
Proof.
  unfold match_address.
  destruct (span_addr t) as [user rest] eqn:Hu.
  destruct user as [|u user]; [discriminate|].
  destruct rest as [|at_ rest']; [discriminate|].
  destruct (Ascii.eqb at_ "@") eqn:Hat.
  2:{ destruct at_ as [[] [] [] [] [] [] [] []]; try discriminate. }
  apply Ascii.eqb_eq in Hat as ->.
  destruct (span_addr rest') as [[|c d] post] eqn:Hd; [discriminate|].
  intros [= <-].
  apply span_addr_spec in Hu as (-> & Hu & _).
  apply span_addr_spec in Hd as (-> & Hd & Hpost).
  exists (String u user), (String c d), post.
  split; [now rewrite !string_app_assoc|]. split; [reflexivity|].
  unfold addr_part. rewrite Hu, Hd. repeat split. exact Hpost.
Qed.

(** X19.  The sender the router extracts is never made up: on ASCII text,
    where the character class of the model is that of the pattern, a
    match is an address, two non-empty runs of class characters around
    one ["@"], that stands in the mail right after the marker and is
    not followed by a further class character; and without the marker
    there is no match. *)
Theorem search_sender_sound (raw_mail : string) :
  is_ascii_text raw_mail = true ->
  (forall a,
     search_sender raw_mail = Some a ->
     exists pre post user domain,
       raw_mail = pre ++ "SenderEmail: " ++ a ++ post
       /\ a = user ++ "@" ++ domain
       /\ addr_part user = true /\ addr_part domain = true
       /\ match post with
          | String c _ => is_addr_char c = false
          | EmptyString => True
          end)
  /\ (contains "SenderEmail: " raw_mail = false ->
      search_sender raw_mail = None).
Proof.
  intros _. split.
  - induction raw_mail as [|c s IH]; intros a; [discriminate|].
    cbn [search_sender].
    destruct (startswith "SenderEmail: " (String c s)) eqn:Hs.
    + destruct (match_address (drop_chars 13 (String c s))) as [a'|] eqn:Hm.
      * intros [= <-].
        destruct (match_address_spec _ _ Hm)
          as (user & domain & post & Ht & Ha & Hu & Hd & Hp).
        exists "", post, user, domain. split; [|auto].
        rewrite (startswith_drop _ _ Hs) at 1.
        change (String.length "SenderEmail: ") with 13%nat. now rewrite Ht.
      * intros Hr. destruct (IH a Hr) as (pre & post & user & domain & -> & Hrest).
        exists (String c pre), post, user, domain. split; [reflexivity | exact Hrest].
    + intros Hr. destruct (IH a Hr) as (pre & post & user & domain & -> & Hrest).
      exists (String c pre), post, user, domain. split; [reflexivity | exact Hrest].
  - induction raw_mail as [|c s IH]; intros Hc; [reflexivity|].
    apply contains_false_inv in Hc as [Hhd Htl].
    cbn [search_sender]. rewrite Hhd. exact (IH Htl).
Qed.

Lemma search_sender_sound_witness :
  exists pre post user domain,
    mail_text_ascii = pre ++ "SenderEmail: " ++ "engin@x.com" ++ post
    /\ "engin@x.com" = user ++ "@" ++ domain
    /\ addr_part user = true /\ addr_part domain = true.
Proof.
  destruct (proj1 (search_sender_sound mail_text_ascii eq_refl)
              "engin@x.com" eq_refl)
    as (pre & post & user & domain & H1 & H2 & H3 & H4 & _).
  exists pre, post, user, domain. auto.
Defined.

(** ** The main window *)

Section WindowFacts.
Context `{GuiLib}.

(** [update_draft_area] for a draft that is a text. *)
Lemma update_draft_area_eq (draft : string) (to_email date title : json)
    (w : AI_Mail_Assistant) :
  update_draft_area (JStr draft) to_email date title w
  = (Ok tt,
     let w1 := set_btn_send_enabled (truthy to_email)
                 (set_lbl_to (if truthy to_email then "Kime: " ++ str to_email
                              else "Kime: (Rehberde Bulunamadı)")
                    (set_txt_draft draft w)) in
     if truthy date then
       set_lbl_cal_info ("Başlık: " ++ str title ++ String "010" ""
                         ++ "Tarih: " ++ str date)
         (set_card_calendar_visible true
            (set_meeting_title title (set_detected_date date w1)))
     else w1).
Proof.
  unfold update_draft_area, modify, lift, mbind, mret, M_bind, M_ret, bind, ret.
  cbn [qt_str]. now destruct (truthy date).
Qed.

(** No slot but [on_command_done] writes [current_sender]. *)
Lemma update_draft_area_sender (text to_email date title : json)
    (w : AI_Mail_Assistant) :
  current_sender (snd (update_draft_area text to_email date title w))
  = current_sender w.
Proof.
  unfold update_draft_area, modify, lift, mbind, mret, M_bind, M_ret, bind, ret.
  destruct (qt_str text); [|reflexivity].
  now destruct (truthy date).
Qed.

End WindowFacts.

(** X20.  [on_analysis_done] shows the sender of the analysed mail and
    enables the send button, but does not store the sender: for every
    result, [current_sender] stays what it was, and a [send_mail] that
    follows starts a [send_reply] worker whose [to_email] is that old
    value, [None] in a fresh window. *)
Theorem analysis_keeps_recipient `{GuiLib} (res : gmap string json)
    (w : AI_Mail_Assistant) (summary draft : string) :
  current_sender (snd (on_analysis_done res w)) = current_sender w
  /\ (status_is_error res = false ->
      dict_get res "summary" = JStr summary ->
      dict_get res "draft_reply" = JStr draft ->
      exists w',
        on_analysis_done res w = (Ok tt, w')
        /\ btn_send_enabled w' = truthy (dict_get res "sender")
        /\ (truthy (dict_get res "sender") = true ->
            lbl_to w' = "Kime: " ++ str (dict_get res "sender"))
        /\ exists w'' wk,
             send_mail w' = (Ok tt, w'')
             /\ workers w'' = (workers w ++ [wk])%list
             /\ worker_task wk = "send_reply"
             /\ worker_payload wk !! "to_email" = Some (current_sender w)).
Proof.
  split.
  - unfold on_analysis_done, message, modify, lift, mbind, M_bind, bind.
    destruct (status_is_error res).
    + now destruct (qt_str (dict_get res "msg")).
    + destruct (qt_str (dict_get res "summary")); [|reflexivity].
      now rewrite update_draft_area_sender.
  - intros Herr Hsum Hdraft.
    unfold on_analysis_done, modify, lift, mbind, M_bind, bind.
    rewrite Herr, Hsum, Hdraft. cbn [qt_str].
    rewrite update_draft_area_eq. eexists. split; [reflexivity|].
    destruct (truthy (dict_get res "detected_date"));
      (split; [reflexivity|]); (split; [now intros ->|]);
      eexists _, _; (split; [reflexivity|]); repeat split.
Qed.

Lemma analysis_keeps_recipient_witness :
  exists w',
    @on_analysis_done plain_gui analysis_result __init__ = (Ok tt, w')
    /\ btn_send_enabled w' = true
    /\ lbl_to w' = "Kime: engin@x.com"
    /\ exists w'' wk,
         @send_mail plain_gui w' = (Ok tt, w'')
         /\ workers w'' = [wk]
         /\ worker_task wk = "send_reply"
         /\ worker_payload wk !! "to_email" = Some JNull.
Proof.
  destruct (proj2 (@analysis_keeps_recipient plain_gui analysis_result __init__
                     "Toplantı isteği" "Uygun.") eq_refl eq_refl eq_refl)
    as (w' & Hw' & Hbtn & Hlbl & Hsend).
  exists w'. split; [exact Hw'|]. split; [exact Hbtn|].
  split; [exact (Hlbl eq_refl) | exact Hsend].
Defined.

(** X21.  [on_command_done] stores the address found: after a result that
    is no error and whose draft is a text, [current_sender] is the
    [found_email] of the result, the send button is enabled exactly for
    a truthy address, and a [send_mail] that follows starts a
    [send_reply] worker for that address, with the draft shown as
    content. *)
Theorem command_sets_recipient `{GuiLib} (res : gmap string json)
    (w : AI_Mail_Assistant) (draft : string) :
  status_is_error res = false ->
  dict_get res "draft_text" = JStr draft ->
  exists w',
    on_command_done res w = (Ok tt, w')
    /\ current_sender w' = dict_get res "found_email"
    /\ btn_send_enabled w' = truthy (dict_get res "found_email")
    /\ txt_draft w' = draft
    /\ exists w'' wk,
         send_mail w' = (Ok tt, w'')
         /\ workers w'' = (workers w ++ [wk])%list
         /\ worker_task wk = "send_reply"
         /\ worker_payload wk !! "to_email" = Some (dict_get res "found_email")
         /\ worker_payload wk !! "content" = Some (JStr (toPlainText draft)).
Proof.
  intros Herr Hdraft.
  unfold on_command_done, modify, mbind, M_bind, bind.
  rewrite Herr, Hdraft, update_draft_area_eq. eexists. split; [reflexivity|].
  destruct (truthy (dict_get res "extracted_date"));
    repeat (split; [reflexivity|]);
    eexists _, _; (split; [reflexivity|]); repeat split.
Qed.

Lemma command_sets_recipient_witness :
  exists w',
    @on_command_done plain_gui command_result __init__ = (Ok tt, w')
    /\ current_sender w' = JStr "ali@x.com"
    /\ btn_send_enabled w' = true
    /\ exists w'' wk,
         @send_mail plain_gui w' = (Ok tt, w'')
         /\ workers w'' = [wk]
         /\ worker_payload wk !! "to_email" = Some (JStr "ali@x.com").
Proof.
  destruct (@command_sets_recipient plain_gui command_result __init__
              "Merhaba" eq_refl eq_refl)
    as (w' & Hw' & Hs & Hb & _ & w'' & wk & Hsend & Hwk & _ & Hto & _).
  exists w'. split; [exact Hw'|]. split; [exact Hs|]. split; [exact Hb|].
  exists w'', wk. auto.
Defined.

(** X22.  The date and the title of a result with a truthy date are what
    [add_to_calendar] schedules: after such a result of
    [process_command] or [analyze_last_mail] the calendar card is
    shown, and a click on it starts an [add_calendar] worker with the
    title as [summary] and the date as [iso_datetime]; a result without
    a date leaves the stored date and title as they were. *)
Theorem dated_result_feeds_calendar `{GuiLib} (res : gmap string json)
    (w : AI_Mail_Assistant) (draft : string) :
  status_is_error res = false ->
  dict_get res "draft_text" = JStr draft ->
  exists w',
    on_command_done res w = (Ok tt, w')
    /\ (truthy (dict_get res "extracted_date") = true ->
        card_calendar_visible w' = true
        /\ exists w'' wk,
             add_to_calendar w' = (Ok tt, w'')
             /\ workers w'' = (workers w ++ [wk])%list
             /\ worker_task wk = "add_calendar"
             /\ worker_payload wk
                = {[ "summary" := dict_get res "meeting_title";
                     "iso_datetime" := dict_get res "extracted_date" ]})
    /\ (truthy (dict_get res "extracted_date") = false ->
        detected_date w' = detected_date w
        /\ meeting_title w' = meeting_title w
        /\ card_calendar_visible w' = card_calendar_visible w).
Proof.
  intros Herr Hdraft.
  unfold on_command_done, modify, mbind, M_bind, bind.
  rewrite Herr, Hdraft, update_draft_area_eq. eexists. split; [reflexivity|].
  destruct (truthy (dict_get res "extracted_date")); split;
    try discriminate; intros _.
  - split; [reflexivity|]. eexists _, _. split; [reflexivity|]. repeat split.
  - repeat split.
Qed.

Lemma dated_result_feeds_calendar_witness :
  exists w' w'' wk,
    @on_command_done plain_gui command_result __init__ = (Ok tt, w')
    /\ add_to_calendar w' = (Ok tt, w'')
    /\ workers w'' = [wk]
    /\ worker_payload wk
       = {[ "summary" := JStr "Toplantı: Ali";
            "iso_datetime" := JStr "2026-01-05T09:00:00" ]}.
Proof.
  destruct (@dated_result_feeds_calendar plain_gui command_result __init__
              "Merhaba" eq_refl eq_refl) as (w' & Hw' & Hdate & _).
  destruct (Hdate eq_refl) as (_ & w'' & wk & Hadd & Hwk & _ & Hp).
  exists w', w'', wk. auto.
Defined.

(** ** The calendar card *)

Section DatedFacts.
Context `{GuiLib}.

Lemma dated_workers (w : AI_Mail_Assistant) (wk : Worker) :
  Forall (fun wk => worker_task wk = "add_calendar" ->
                    truthy (dict_get (worker_payload wk) "iso_datetime") = true)
    (workers w) ->
  (worker_task wk = "add_calendar" ->
   truthy (dict_get (worker_payload wk) "iso_datetime") = true) ->
  Forall (fun wk => worker_task wk = "add_calendar" ->
                    truthy (dict_get (worker_payload wk) "iso_datetime") = true)
    (workers w ++ [wk])%list.
Proof. intros Hw Hwk. apply Forall_app. split; [exact Hw | now constructor]. Qed.

Lemma dated_update_draft_area (text to_email date title : json)
    (w : AI_Mail_Assistant) :
  dated w -> dated (snd (update_draft_area text to_email date title w)).
Proof.
  intros [Hv Hw].
  unfold update_draft_area, modify, lift, mbind, M_bind, bind.
  destruct (qt_str text); [|now split].
  destruct (truthy date) eqn:Hd; now split.
Qed.

Lemma dated_message (icon : box_kind) (title : string) (text : json)
    (w : AI_Mail_Assistant) :
  dated w -> dated (snd (message icon title text w)).
Proof.
  intros Hw. unfold message, modify, lift, mbind, M_bind, bind.
  now destruct (qt_str text).
Qed.

Lemma dated_deliver (s : slot) (res : gmap string json)
    (w : AI_Mail_Assistant) :
  dated w -> dated (snd (deliver s res w)).
Proof.
  intros Hw. destruct s; cbn [deliver]; try now apply dated_message.
  - unfold on_analysis_done, modify, mbind, M_bind, bind.
    destruct (status_is_error res).
    + assert (Hw1 : dated (set_btn_analyze_enabled true w)) by exact Hw.
      pose proof (dated_message Critical "Hata" (dict_get res "msg") _ Hw1)
        as Hm.
      destruct (message Critical "Hata" (dict_get res "msg")
                  (set_btn_analyze_enabled true w)) as [[[]|e] w1];
        exact Hm.
    + unfold lift. destruct (qt_str (dict_get res "summary")); [|exact Hw].
      apply dated_update_draft_area. exact Hw.
  - unfold on_command_done, modify, mbind, M_bind, bind.
    destruct (status_is_error res); [exact Hw|].
    apply dated_update_draft_area. exact Hw.
Qed.

Lemma dated_step (w w' : AI_Mail_Assistant) :
  dated w -> gui_step w w' -> dated w'.
Proof.
  intros Hw Hstep. destruct Hstep as [w Hb|w|w Hb|w Hv|w s res|w text|w text].
  - destruct Hw as [_ Hw]. split; [discriminate|].
    cbn. apply dated_workers; [exact Hw | discriminate].
  - unfold run_custom_command, start_worker, modify, get, mbind, mret,
      M_bind, M_ret, bind, ret.
    destruct (String.eqb (input_cmd w) ""); [exact Hw|].
    destruct Hw as [_ Hw]. split; [discriminate|].
    cbn. apply dated_workers; [exact Hw | discriminate].
  - destruct Hw as [Hv Hw]. split; [exact Hv|].
    cbn. apply dated_workers; [exact Hw | discriminate].
  - destruct Hw as [Hd Hw]. split; [exact Hd|].
    cbn. apply dated_workers; [exact Hw | intros _; exact (Hd Hv)].
  - now apply dated_deliver.
  - exact Hw.
  - exact Hw.
Qed.

End DatedFacts.

(** X23.  In every window a session can reach, the calendar card is shown
    only while a truthy date is stored, and every [add_calendar] worker
    was started with a truthy [iso_datetime]: the window never asks the
    calendar tool for a meeting without a date. *)
Theorem calendar_card_has_date `{GuiLib} (w : AI_Mail_Assistant) :
  reachable w ->
  (card_calendar_visible w = true -> truthy (detected_date w) = true)
  /\ forall wk, In wk (workers w) -> worker_task wk = "add_calendar" ->
                truthy (dict_get (worker_payload wk) "iso_datetime") = true.
Proof.
  intros Hr.
  assert (Hd : dated w).
  { induction Hr as [|w w' _ IH Hstep].
    - split; [discriminate | constructor].
    - exact (dated_step w w' IH Hstep). }
  destruct Hd as [Hv Hw]. split; [exact Hv|].
  intros wk Hin. rewrite Forall_forall in Hw. apply Hw.
  now apply list_elem_of_In.
Qed.

Lemma calendar_card_has_date_witness :
  let w' := snd (@deliver plain_gui on_command_done_slot command_result
                   __init__) in
  card_calendar_visible w' = true /\ truthy (detected_date w') = true.
Proof.
  intros w'. split; [reflexivity|].
  refine (proj1 (@calendar_card_has_date plain_gui w' _) eq_refl).
  apply (@reachable_step plain_gui __init__ w'); constructor.
Defined.

(** ** A failed run, seen from the window *)

(** X24.  What the window does with the result of a run that raised:
    [on_command_done] returns at once and leaves the window as it was,
    so a failed command shows no message; [on_analysis_done] shows the
    text of the exception and enables the analyse button again; the slot
    of [send_mail] shows the confirmation all the same; the slot of
    [add_to_calendar] shows the text of the exception. *)
Theorem failed_run_in_window `{PyLib} `{GuiLib} (env : Env) (task : string)
    (payload : gmap string json) (e : exn) (w : AI_Mail_Assistant) :
  outcome env task payload = Raise e ->
  let res := delivered (outcome env task payload) in
  on_command_done res w = (Ok tt, w)
  /\ on_analysis_done res w
     = (Ok tt,
        set_status_lbl "❌ Hata."
          (set_boxes (boxes w ++ [ {| box_icon := Critical;
                                      box_title := "Hata";
                                      box_text := exc_str e |} ])%list
             (set_btn_analyze_enabled true w)))
  /\ deliver send_done_slot res w
     = (Ok tt,
        set_boxes (boxes w ++ [ {| box_icon := Information;
                                   box_title := "Bilgi";
                                   box_text := "Mail Gönderildi!" |} ])%list w)
  /\ deliver calendar_done_slot res w
     = (Ok tt,
        set_boxes (boxes w ++ [ {| box_icon := Information;
                                   box_title := "Takvim";
                                   box_text := exc_str e |} ])%list w).
Proof.
  intros Ho res. subst res. rewrite Ho. cbn [delivered].
  repeat split.
Qed.

Lemma failed_run_in_window_witness :
  @on_command_done plain_gui
    (delivered (@outcome CPython.lib env_closed "process_command" ∅)) __init__
  = (Ok tt, __init__).
Proof.
  exact (proj1 (@failed_run_in_window CPython.lib plain_gui env_closed
                  "process_command" ∅ (Exn RuntimeError "") __init__ eq_refl)).
Defined.

(** ** From the command line to the model *)

(** X25.  A command typed into the command line reaches the model as it
    was typed: [run_custom_command] clears the line and starts one
    [process_command] worker, and the first thing a run of that worker
    does inside the session is to ask the model about exactly that
    text; an empty line starts nothing and changes nothing. *)
Theorem typed_command_reaches_model `{PyLib} (env : Env)
    (w : AI_Mail_Assistant) :
  (input_cmd w = "" -> run_custom_command w = (Ok tt, w))
  /\ (input_cmd w <> "" -> clock_ok env -> session_enter env = Ok tt ->
      exists w' wk rest,
        run_custom_command w = (Ok tt, w')
        /\ workers w' = (workers w ++ [wk])%list
        /\ input_cmd w' = ""
        /\ worker_task wk = "process_command"
        /\ worker_slot wk = on_command_done_slot
        /\ events_of env (worker_task wk) (worker_payload wk)
           = (EvSessionEnter
              :: EvChat (Prompt ActionDecision (grounding env)
                           (JStr (input_cmd w)))
              :: rest)%list).
Proof.
  split.
  - intros Hcmd. unfold run_custom_command, get, mbind, M_bind, bind.
    now rewrite Hcmd.
  - intros Hcmd Hc Hin.
    assert (Hev : exists rest,
      events_of env "process_command" {[ "command" := JStr (input_cmd w) ]}
      = (EvSessionEnter
         :: EvChat (Prompt ActionDecision (grounding env) (JStr (input_cmd w)))
         :: rest)%list).
    { rewrite events_of_eq, Hin. unfold task_router.
      cbn [String.eqb Ascii.eqb Bool.eqb andb].
      rewrite trace_bind by logs_solve.
      change (dict_get {[ "command" := JStr (input_cmd w) ]} "command")
        with (JStr (input_cmd w)).
      rewrite (trace_decide_action env _ Hc).
      destruct (value (decide_action env (JStr (input_cmd w))));
        cbn [app]; eexists; reflexivity. }
    destruct Hev as [rest Hev].
    unfold run_custom_command, start_worker, modify, get, mbind, mret,
      M_bind, M_ret, bind, ret.
    rewrite (proj2 (String.eqb_neq _ _) Hcmd).
    eexists _, _, rest. split; [reflexivity|].
    split; [reflexivity|]. split; [reflexivity|]. split; [reflexivity|].
    split; [reflexivity|]. exact Hev.
Qed.

Lemma typed_command_reaches_model_witness :
  exists w' wk rest,
    run_custom_command (set_input_cmd "Ali'ye mail yaz" __init__) = (Ok tt, w')
    /\ workers w' = [wk]
    /\ input_cmd w' = ""
    /\ @events_of CPython.lib env0 (worker_task wk) (worker_payload wk)
       = (EvSessionEnter
          :: EvChat (Prompt ActionDecision (grounding env0)
                       (JStr "Ali'ye mail yaz"))
          :: rest)%list.
Proof.
  destruct (proj2 (@typed_command_reaches_model CPython.lib env0
                     (set_input_cmd "Ali'ye mail yaz" __init__)))
    as (w' & wk & rest & H1 & H2 & H3 & _ & _ & H6).
  - discriminate.
  - exact clock_ok_env0.
  - reflexivity.
  - exists w', wk, rest. auto.
Defined.

(** ** The UTC designator *)

Section ReplaceFacts.

Lemma remove_char_clean (c : ascii) (a : string) :
  contains (String c "") a = false -> remove_char c a = a.
Proof.
  induction a as [|x a IH]; [reflexivity|].
  intros [Hhd Htl]%contains_false_inv.
  cbn [startswith] in Hhd. rewrite andb_true_r in Hhd.
  cbn [remove_char]. now rewrite Hhd, (IH Htl).
Qed.

Lemma remove_char_app (c : ascii) (a b : string) :
  remove_char c (a ++ b) = remove_char c a ++ remove_char c b.
Proof.
  induction a as [|x a IH]; [reflexivity|].
  change (String x a ++ b) with (String x (a ++ b)).
  cbn [remove_char]. rewrite IH. now destruct (Ascii.eqb c x).
Qed.

(** What [partition] cuts off before a one-character separator does not
    hold the character. *)
Lemma partition_char_clean (c : ascii) (s a b : string) :
  partition (String c "") s = Some (a, b) ->
  contains (String c "") a = false.
Proof.
  revert a b. induction s as [|x s IH]; intros a b; cbn [partition].
  - discriminate.
  - cbn [startswith]. rewrite andb_true_r.
    destruct (Ascii.eqb c x) eqn:E.
    + now intros [= <- <-].
    + destruct (partition (String c "") s) as [[a' b']|]; [|discriminate].
      intros [= <- <-]. cbn [contains startswith].
      now rewrite E, (IH a' b' eq_refl).
Qed.

Lemma contains_partition_none (sep s : string) :
  partition sep s = None -> contains sep s = false.
Proof.
  intros Hp. destruct (contains sep s) eqn:Hc; [|reflexivity].
  destruct (contains_partition _ _ Hc) as (a & b & Hab). congruence.
Qed.

(** [s.replace(c, "")] removes every [c]. *)
Lemma replace_char (c : ascii) (s : string) :
  replace (String c "") "" s = remove_char c s.
Proof.
  unfold replace, split.
  remember (String.length s) as n eqn:Hn.
  assert (Hle : (String.length s <= n)%nat) by lia. clear Hn.
  revert s Hle. induction n as [|n IH]; intros s Hle.
  - destruct s; [reflexivity | cbn in Hle; lia].
  - cbn [split_fuel].
    destruct (partition (String c "") s) as [[a b]|] eqn:Hp.
    + assert (Hsep : String c "" <> "") by discriminate.
      pose proof (partition_shorter _ _ _ _ Hsep Hp) as Hlt.
      pose proof (partition_char_clean _ _ _ _ Hp) as Ha.
      specialize (IH b ltac:(lia)).
      apply partition_Some in Hp. subst s.
      rewrite remove_char_app, (remove_char_clean _ _ Ha).
      change (String c "" ++ b) with (String c b). cbn [remove_char].
      rewrite Ascii.eqb_refl, <- IH.
      destruct (split_fuel n (String c "") b) as [|p ps] eqn:Hsp.
      * destruct n; cbn [split_fuel] in Hsp;
          destruct (partition (String c "") b) as [[? ?]|]; discriminate.
      * reflexivity.
    + cbn [join]. symmetry. apply remove_char_clean.
      now apply contains_partition_none.
Qed.

End ReplaceFacts.

(** X26.  [schedule] discards the UTC designator: the text it parses is
    [iso_datetime] without any ["Z"], so a date with a trailing ["Z"] is
    scheduled exactly as the same text without it, at that time of day
    in the Istanbul zone. *)
Theorem schedule_discards_utc_marker `{PyLib} (google : Google)
    (summary iso_datetime : string) (cal : list calendar_event) :
  iso_datetime <> "" ->
  replace "Z" "" iso_datetime = remove_char "Z" iso_datetime
  /\ contains "Z" (replace "Z" "" iso_datetime) = false
  /\ schedule google summary (iso_datetime ++ "Z") cal
     = schedule google summary iso_datetime cal.
Proof.
  intros Hne. split; [apply replace_char|]. split.
  - rewrite replace_char. induction iso_datetime as [|x s IH]; [reflexivity|].
    cbn [remove_char]. destruct (Ascii.eqb "Z" x) eqn:E.
    + destruct s as [|y s]; [reflexivity|]. apply IH. discriminate.
    + cbn [contains startswith]. rewrite E. cbn [andb orb].
      destruct s as [|y s]; [reflexivity|]. apply IH. discriminate.
  - rewrite !schedule_eq.
    rewrite (proj2 (String.eqb_neq _ _) Hne).
    assert (Hz : String.eqb (iso_datetime ++ "Z") "" = false).
    { destruct iso_datetime; [congruence | reflexivity]. }
    rewrite Hz, !replace_char, remove_char_app.
    change (remove_char "Z" "Z") with "". now rewrite string_app_nil_r.
Qed.

Lemma schedule_discards_utc_marker_witness :
  @schedule CPython.lib (google_with_rows []) "Toplantı"
    "2026-01-05T10:00:00Z" []
  = @schedule CPython.lib (google_with_rows []) "Toplantı"
      "2026-01-05T10:00:00" [].
Proof.
  refine (proj2 (proj2 (@schedule_discards_utc_marker CPython.lib
                          (google_with_rows []) "Toplantı"
                          "2026-01-05T10:00:00" [] _))).
  discriminate.
Defined.

(** ** The analyse button *)

(** X27.  The analyse button does not stay disabled: [start_analysis]
    disables it together with the send button, empties the two text
    panels and hides the calendar card; [on_analysis_done] enables it
    again for every result, an error result and a result whose texts
    PyQt refuses included. *)
Theorem analyse_button_reenabled `{GuiLib} (res : gmap string json)
    (w : AI_Mail_Assistant) :
  (exists w',
     start_analysis w = (Ok tt, w')
     /\ btn_analyze_enabled w' = false /\ btn_send_enabled w' = false
     /\ txt_summary w' = "" /\ txt_draft w' = ""
     /\ card_calendar_visible w' = false
     /\ workers w' = (workers w ++ [ {| worker_task := "analyze_last_mail";
                                        worker_payload := ∅;
                                        worker_slot := on_analysis_done_slot |} ])%list)
  /\ btn_analyze_enabled (snd (on_analysis_done res w)) = true.
Proof.
  split.
  - eexists. split; [reflexivity|]. repeat split.
  - unfold on_analysis_done, update_draft_area, message, modify, lift,
      mbind, M_bind, bind.
    destruct (status_is_error res).
    + now destruct (qt_str (dict_get res "msg")).
    + destruct (qt_str (dict_get res "summary")); [|reflexivity].
      destruct (qt_str (dict_get res "draft_reply")); [|reflexivity].
      now destruct (truthy (dict_get res "detected_date")).
Qed.
